(** * PTT loan notifier: a shallow embedding of the ingestion, deduplication
      and fan-out pipeline, and the properties of its specification.

    Sources embedded here:
    - [config.py], [auto_mail/config.py]            (module [Config])
    - [database/models.py]                          (modules [Article], [User],
                                                     [Notification], [Models])
    - [database/crud.py]                            (module [Crud])
    - [notification/line_bot.py]                    (module [LineBot])
    - [crawler/parser.py]                           (module [Parser])
    - [crawler/ptt_scraper.py]                      (module [PTTScraper])
    - [scheduler/jobs.py]                           (module [Jobs])
    - [main.py], the jobs it schedules              (module [Scheduler])
    - [auto_mail/mail_tracker.py]                   (module [MailTracker])
    - [auto_mail/auto_mail_service.py]              (module [AutoMailService])

    Modelling conventions.
    - A Python [str] is a [string] of UTF-8 bytes; [x in y] on strings is
      the byte-substring test, which agrees with the code-point one on
      well-formed UTF-8.  [str.lower] folds every cased code point by the
      tables of Unicode; the functions that call it take it as a parameter,
      and the examples run on text whose only cased letters are ASCII.
    - A point in time is a number of seconds since the epoch, in [Z]; the
      naive UTC value of [datetime.utcnow()] and SQLite's
      [CURRENT_TIMESTAMP] are such numbers.  A time zone is its offset from
      UTC in seconds (Asia/Taipei is +28800 all year round).
      A [DateTime] column holds a naive value; where a query compares it
      with an aware one, the database decides in which zone the column is
      read (see [Config.Database]).
    - A table is the list of its rows in insertion order, together with the
      next value of its autoincrement sequence; a query without ORDER BY
      returns rows in table order.
    - Everything outside the process (the clock, the LINE push API, the
      feed, the content generator, the PTT mail transport) is an oracle
      indexed by a counter kept in the state: every call to the outside
      reads the oracle at the counter and advances it, so two calls with
      the same arguments may well answer differently.
    - The push and mail functions catch what their transports raise and
      answer [False]; their oracles are Booleans.  A statement on the store
      fails only on a constraint of the schema (a primary or foreign key,
      the unique [article_id]); the callers embedded here never violate
      one, so the operations of [crud.py] are total functions.  The one
      exception a job can meet, a notification whose article is gone, ends
      the run of [send_hourly_notifications] where it is met. *)

From Stdlib Require Import List String Ascii ZArith Lia Bool Arith PeanoNat.
From Stdlib Require Import Sorted.
Import ListNotations.

Local Open Scope Z_scope.

(* ================================================================== *)
(** ** Python strings *)

Module PyStr.

(** [bool(s)] for a string: empty strings are falsy. *)
Definition truthy (s : string) : bool :=
  match s with EmptyString => false | String _ _ => true end.

(** [needle in hay]. *)
Fixpoint str_in (needle hay : string) : bool :=
  String.prefix needle hay ||
  match hay with
  | EmptyString => false
  | String _ rest => str_in needle rest
  end.

Definition lower_ascii (c : ascii) : ascii :=
  let n := nat_of_ascii c in
  if (Nat.leb 65 n && Nat.leb n 90)%bool then ascii_of_nat (n + 32) else c.

(** [s.lower()] for a string [s] whose cased letters are all ASCII (as
    text in ASCII and Chinese is): A to Z go to a to z and every other
    byte stays.  The examples take it for [str.lower]; the functions that
    call [str.lower] do not: they take the function as a parameter. *)
Fixpoint lower_of_ascii (s : string) : string :=
  match s with
  | EmptyString => EmptyString
  | String c rest => String (lower_ascii c) (lower_of_ascii rest)
  end.

(** [s.split(",")]: the pieces between the commas, empty ones kept; the
    comma is one byte and part of no other character of UTF-8. *)
Fixpoint split_comma (s : string) : list string :=
  match s with
  | EmptyString => [EmptyString]
  | String c rest =>
    if Ascii.eqb c ","%char then EmptyString :: split_comma rest
    else match split_comma rest with
         | piece :: pieces => String c piece :: pieces
         | [] => [String c EmptyString]
         end
  end.

End PyStr.

(* ================================================================== *)
(** ** Settings ([config.py], [auto_mail/config.py]) *)

Module Config.

(** What [DATABASE_URL] stands for, as far as the program depends on it:
    the engine behind SQLAlchemy and, for PostgreSQL, the time zone of the
    session (its offset from UTC in seconds).  The two differ where a
    naive [DateTime] column is compared with an aware parameter: SQLite
    compares the text of the column with the text of the parameter, whose
    offset SQLAlchemy leaves out; PostgreSQL turns the column into a
    [timestamptz] in the time zone of the session. *)
Inductive Database :=
| SQLite
| PostgreSQL (session_timezone : Z).

Record Settings := mkSettings {
  DATABASE_URL : Database;
  keywords_list : list string;
  SCHEDULE_START_HOUR : Z;
  SCHEDULE_END_HOUR : Z;
  SCHEDULE_INTERVAL_MINUTES : Z;
  RETENTION_DAYS : Z;
  (** [TIMEZONE], as its offset from UTC in seconds. *)
  TIMEZONE : Z
}.

Definition Asia_Taipei : Z := 8 * 3600.

(** The defaults of [class Settings], with a PostgreSQL server that keeps
    its sessions in UTC. *)
Definition settings : Settings := {|
  DATABASE_URL := PostgreSQL 0;
  keywords_list := ["信貸"; "個人信貸"]%string;
  SCHEDULE_START_HOUR := 7;
  SCHEDULE_END_HOUR := 20;
  SCHEDULE_INTERVAL_MINUTES := 1;
  RETENTION_DAYS := 180;
  TIMEZONE := Asia_Taipei
|}.

Record AutoMailSettings := mkAutoMailSettings {
  DAILY_LIMIT : Z;
  MIN_DELAY_SECONDS : Z;
  MAX_DELAY_SECONDS : Z;
  mail_keywords_list : list string
}.

(** The defaults of [class AutoMailSettings]. *)
Definition auto_mail_settings : AutoMailSettings := {|
  DAILY_LIMIT := 30;
  MIN_DELAY_SECONDS := 180;
  MAX_DELAY_SECONDS := 300;
  mail_keywords_list := ["信貸"; "個人信貸"]%string
|}.

(** The property [keywords_list] of both settings classes,
    [[k.strip() for k in self.KEYWORDS.split(",")]], for a value of
    [KEYWORDS]; [strip] is [str.strip]. *)
Definition keywords_list_of (strip : string -> string) (KEYWORDS : string)
  : list string :=
  map strip (PyStr.split_comma KEYWORDS).

End Config.

(* ================================================================== *)
(** ** The relational model ([database/models.py]) *)

Inductive UserTier := PREMIUM | STANDARD.

Definition UserTier_eqb (a b : UserTier) : bool :=
  match a, b with
  | PREMIUM, PREMIUM | STANDARD, STANDARD => true
  | _, _ => false
  end.

Module Article.
Record t := mk {
  id : nat;
  article_id : string;
  title : string;
  author : string;
  content : string;
  url : string;
  post_time : option Z;
  created_at : Z
}.
End Article.

Module User.
Record t := mk {
  id : nat;
  line_user_id : string;
  tier : UserTier;
  is_active : bool;
  created_at : Z
}.
End User.

Module Notification.
Record t := mk {
  id : nat;
  user_id : nat;
  article_id : nat;
  (** [None] is NULL: the notification is pending. *)
  sent_at : option Z;
  created_at : Z
}.

Definition set_sent_at (ts : Z) (n : t) : t :=
  mk (id n) (user_id n) (article_id n) (Some ts) (created_at n).
End Notification.

Module Models.

(** The three tables and the two sequences the code draws ids from. *)
Record DB := mkDB {
  articles : list Article.t;
  users : list User.t;
  notifications : list Notification.t;
  articles_id_seq : nat;
  notifications_id_seq : nat
}.

Definition with_articles (l : list Article.t) (d : DB) : DB :=
  mkDB l (users d) (notifications d) (articles_id_seq d) (notifications_id_seq d).

Definition with_notifications (l : list Notification.t) (d : DB) : DB :=
  mkDB (articles d) (users d) l (articles_id_seq d) (notifications_id_seq d).

End Models.

(** The dictionary the crawler hands over for one candidate; a key that is
    missing reads as the empty string through [.get(key, '')]. *)
Module ArticleData.
Record t := mk {
  article_id : string;
  title : string;
  author : string;
  content : string;
  url : string;
  post_time : option Z
}.
End ArticleData.

(* ================================================================== *)
(** ** [database/crud.py] *)

Module Crud.
Import Models.

Section WithSettings.
Variable settings : Config.Settings.

(** [db.query(Article).filter(Article.article_id == article_id).first()] *)
Definition get_article_by_ptt_id (d : DB) (article_id : string)
  : option Article.t :=
  find (fun a => String.eqb (Article.article_id a) article_id) (articles d).

(** [create_article]: [created_at] takes the default
    [datetime.utcnow], read by the caller as [now]. *)
Definition create_article (now : Z) (d : DB)
    (article_id title author content url : string) (post_time : option Z)
  : DB * Article.t :=
  let db_article :=
    Article.mk (articles_id_seq d) article_id title author content url
               post_time now in
  (mkDB (articles d ++ [db_article]) (users d) (notifications d)
        (S (articles_id_seq d)) (notifications_id_seq d),
   db_article).

(** [datetime.now(tz) - timedelta(days=settings.RETENTION_DAYS)]: an
    aware value, the instant [RETENTION_DAYS] days before [now], carrying
    the offset of [TIMEZONE]. *)
Definition cutoff_date (now : Z) : Z :=
  now - Config.RETENTION_DAYS settings * 86400.

(** The zone in which the database reads the naive [created_at] when it
    compares it with the aware [cutoff_date].  SQLite sees the wall clock
    of [TIMEZONE] in the parameter and the UTC wall clock in the column,
    and compares the two as they stand: the column is read as if it were
    on the clock of [TIMEZONE].  PostgreSQL reads the column on the clock
    of the session. *)
Definition created_at_read_in : Z :=
  match Config.DATABASE_URL settings with
  | Config.SQLite => Config.TIMEZONE settings
  | Config.PostgreSQL session_timezone => session_timezone
  end.

(** [Article.created_at < cutoff_date] as the database decides it;
    [created_at] holds the reading of [datetime.utcnow]. *)
Definition older_than_cutoff (now : Z) (a : Article.t) : bool :=
  Article.created_at a - created_at_read_in <? cutoff_date now.

Definition get_articles_to_delete (now : Z) (d : DB) : list Article.t :=
  filter (older_than_cutoff now) (articles d).

Definition id_in (ids : list nat) (i : nat) : bool :=
  existsb (Nat.eqb i) ids.

(** [delete_old_articles]: the notifications of the old articles go
    first, then the articles; the result is the row count of the second
    DELETE. *)
Definition delete_old_articles (now : Z) (d : DB) : DB * Z :=
  let old_articles := filter (older_than_cutoff now) (articles d) in
  let article_ids := map Article.id old_articles in
  match article_ids with
  | [] => (d, 0)
  | _ :: _ =>
    let d1 :=
      with_notifications
        (filter (fun n => negb (id_in article_ids (Notification.article_id n)))
                (notifications d)) d in
    let count :=
      Z.of_nat (List.length (filter (fun a => id_in article_ids (Article.id a))
                               (articles d1))) in
    let d2 :=
      with_articles
        (filter (fun a => negb (id_in article_ids (Article.id a)))
                (articles d1)) d1 in
    (d2, count)
  end.

Definition get_active_users_by_tier (d : DB) (tier : UserTier)
  : list User.t :=
  filter (fun u => UserTier_eqb (User.tier u) tier && User.is_active u)%bool
         (users d).

Definition get_all_active_users (d : DB) : list User.t :=
  filter User.is_active (users d).

(** [create_notification]: a plain INSERT of a pending row. *)
Definition create_notification (now : Z) (d : DB) (user_id article_id : nat)
  : DB * Notification.t :=
  let db_notification :=
    Notification.mk (notifications_id_seq d) user_id article_id None now in
  (mkDB (articles d) (users d) (notifications d ++ [db_notification])
        (articles_id_seq d) (S (notifications_id_seq d)),
   db_notification).

Definition get_pending_notifications_for_user (d : DB) (user_id : nat)
  : list Notification.t :=
  filter (fun n => Nat.eqb (Notification.user_id n) user_id &&
                   match Notification.sent_at n with
                   | None => true
                   | Some _ => false
                   end)%bool
         (notifications d).

(** Assignment to the first row a predicate selects ([.first()] followed
    by an attribute update). *)
Fixpoint update_first {A} (p : A -> bool) (f : A -> A) (l : list A)
  : list A :=
  match l with
  | [] => []
  | x :: rest => if p x then f x :: rest else x :: update_first p f rest
  end.

(** [mark_notification_sent]: [sent_at] is assigned [datetime.utcnow()]
    whenever the row exists. *)
Definition mark_notification_sent (now : Z) (d : DB) (notification_id : nat)
  : DB :=
  match find (fun n => Nat.eqb (Notification.id n) notification_id)
             (notifications d) with
  | Some _ =>
    with_notifications
      (update_first (fun n => Nat.eqb (Notification.id n) notification_id)
                    (Notification.set_sent_at now) (notifications d)) d
  | None => d
  end.

(** [mark_notifications_sent]: one UPDATE over every row whose id is in
    the list. *)
Definition mark_notifications_sent (now : Z) (d : DB)
    (notification_ids : list nat) : DB :=
  with_notifications
    (map (fun n => if id_in notification_ids (Notification.id n)
                   then Notification.set_sent_at now n else n)
         (notifications d)) d.

Definition has_notification_for_article (d : DB) (user_id article_id : nat)
  : bool :=
  match find (fun n => Nat.eqb (Notification.user_id n) user_id &&
                       Nat.eqb (Notification.article_id n) article_id)%bool
             (notifications d) with
  | Some _ => true
  | None => false
  end.

End WithSettings.

(** [db.query(User).filter(User.line_user_id == line_user_id).first()] *)
Definition get_user_by_line_id (d : DB) (line_user_id : string)
  : option User.t :=
  find (fun u => String.eqb (User.line_user_id u) line_user_id) (users d).

(** [create_user]: a row that is active; [new_id] is the id the sequence of
    the table hands out for it and [now] the default of [created_at]. *)
Definition create_user (new_id : nat) (now : Z) (d : DB)
    (line_user_id : string) (tier : UserTier) : DB * User.t :=
  let db_user := User.mk new_id line_user_id tier true now in
  (mkDB (articles d) (users d ++ [db_user]) (notifications d)
        (articles_id_seq d) (notifications_id_seq d),
   db_user).

Definition get_or_create_user (new_id : nat) (now : Z) (d : DB)
    (line_user_id : string) (tier : UserTier) : DB * User.t :=
  match get_user_by_line_id d line_user_id with
  | Some user => (d, user)
  | None => create_user new_id now d line_user_id tier
  end.

Definition set_tier (tier : UserTier) (u : User.t) : User.t :=
  User.mk (User.id u) (User.line_user_id u) tier (User.is_active u)
          (User.created_at u).

(** [update_user_tier]: the tier of the row found is assigned; [None] and
    no write when there is none. *)
Definition update_user_tier (d : DB) (line_user_id : string)
    (tier : UserTier) : DB * option User.t :=
  match get_user_by_line_id d line_user_id with
  | Some user =>
    (mkDB (articles d)
          (update_first
             (fun u => String.eqb (User.line_user_id u) line_user_id)
             (set_tier tier) (users d))
          (notifications d) (articles_id_seq d) (notifications_id_seq d),
     Some (set_tier tier user))
  | None => (d, None)
  end.

End Crud.


(* ================================================================== *)
(** ** Sequencing of effects *)

Module StateMonad.

Definition State (S A : Type) : Type := S -> A * S.

Definition ret {S A} (a : A) : State S A := fun s => (a, s).

Definition bind {S A B} (c : State S A) (k : A -> State S B) : State S B :=
  fun s => let (a, s') := c s in k a s'.

Definition exec {S A} (c : State S A) (s : S) : S := snd (c s).

Definition result {S A} (c : State S A) (s : S) : A := fst (c s).

(** A [for] loop whose body neither breaks nor returns. *)
Fixpoint for_each {S A} (l : list A) (body : A -> State S unit)
  : State S unit :=
  match l with
  | [] => ret tt
  | x :: rest => bind (body x) (fun _ => for_each rest body)
  end.

End StateMonad.

Declare Scope monad_scope.
Notation "x <- c ;; k" := (StateMonad.bind c (fun x => k))
  (at level 61, c at next level, right associativity) : monad_scope.
Notation "c ;;; k" := (StateMonad.bind c (fun _ => k))
  (at level 61, right associativity) : monad_scope.

(* ================================================================== *)
(** ** The process state and its effects *)

Module Runtime.
Import Models StateMonad.

(** One article as the push functions receive it
    ([title], [author], [url], [post_time]). *)
Record ArticleDict := mkArticleDict {
  d_title : string;
  d_author : string;
  d_url : string;
  d_post_time : option Z
}.

(** What the process does to the outside, in order. *)
Inductive Event :=
| Crawl                                   (* crawl_new_articles() *)
| Push (to : string) (contents : list ArticleDict) (ok : bool).
                                          (* one MessagingApi.push_message *)

Record St := mkSt {
  db : DB;
  trace : list Event;
  (** number of calls made to the outside so far *)
  calls : nat
}.

Definition M : Type -> Type := State St.

(** A read-only query on the session. *)
Definition query {A} (q : DB -> A) : M A := fun s => (q (db s), s).

(** A committed write on the session. *)
Definition commit {A} (w : DB -> DB * A) : M A :=
  fun s => let (d, a) := w (db s) in (a, mkSt d (trace s) (calls s)).

Definition emit (e : Event) : M unit :=
  fun s => (tt, mkSt (db s) (trace s ++ [e]) (calls s)).

(** Ask the outside: the oracle is read at the call counter, which then
    advances. *)
Definition ask {A} (oracle : nat -> A) : M A :=
  fun s => (oracle (calls s), mkSt (db s) (trace s) (S (calls s))).

End Runtime.

(* ================================================================== *)
(** ** [notification/line_bot.py] *)

Module LineBot.
Import StateMonad Runtime.
Local Open Scope monad_scope.

Section WithTransport.
(** Whether the push made as the n-th call to the outside goes through. *)
Variable push_message : nat -> bool.

(** [push_article_notification]: one push of one bubble; every exception
    is caught and turned into [False]. *)
Definition push_article_notification (user_id : string)
    (title author url : string) (post_time : option Z) : M bool :=
  ok <- ask push_message ;;
  emit (Push user_id [mkArticleDict title author url post_time] ok) ;;;
  ret ok.

(** [create_batch_flex_message]: a carousel of at most ten bubbles,
    [articles[:10]]. *)
Definition create_batch_flex_message (articles : list ArticleDict)
  : list ArticleDict :=
  firstn 10 articles.

(** [push_batch_notification]. *)
Definition push_batch_notification (user_id : string)
    (articles : list ArticleDict) : M bool :=
  match articles with
  | [] => ret true
  | [article] =>
    push_article_notification user_id (d_title article) (d_author article)
                              (d_url article) (d_post_time article)
  | _ =>
    let flex_content := create_batch_flex_message articles in
    ok <- ask push_message ;;
    emit (Push user_id flex_content ok) ;;;
    ret ok
  end.

End WithTransport.
End LineBot.

(* ================================================================== *)
(** ** [crawler/parser.py] *)

Module Parser.

(** [filter_by_keywords]: an article is kept when some keyword is in its
    title; the inner loop stops at the first hit. *)
Definition filter_by_keywords (articles : list ArticleData.t)
    (keywords : list string) : list ArticleData.t :=
  filter (fun article =>
            let title := ArticleData.title article in
            existsb (fun keyword => PyStr.str_in keyword title) keywords)
         articles.

End Parser.

(* ================================================================== *)
(** ** [crawler/ptt_scraper.py] *)

Module PTTScraper.
Import StateMonad.
Local Open Scope monad_scope.

(** What [parse_article_content] reads off the page of an article. *)
Record ContentData := mkContentData {
  c_content : string;
  c_post_time : option Z;
  c_author : string;
  c_title : string;
  c_board : string
}.

(** The session: the URLs requested so far, in order; the number of a
    request is the number of requests made before it. *)
Record Web := mkWeb {
  requests : list string
}.

Definition M : Type -> Type := State Web.

Section WithWeb.
(** [settings.PTT_BOARD_URL] and [settings.keywords_list]. *)
Variable PTT_BOARD_URL : string.
Variable keywords : list string.
(** [session.get(url).text] for the request number [n]; [None] when the
    request raises or the status is an error. *)
Variable session_get : nat -> string -> option string.
(** The three readers of [crawler/parser.py] that take a page apart; what
    they find in the markup is theirs to say.  An entry of a list page has
    no [content] and no [post_time] yet. *)
Variable parse_article_list : string -> list ArticleData.t.
Variable parse_article_content : string -> ContentData.
Variable get_previous_page_url : string -> option string.

(** [fetch_page] *)
Definition fetch_page (url : string) : M (option string) :=
  fun s => (session_get (List.length (requests s)) url,
            mkWeb (requests s ++ [url])).

(** [if not html]: a page that is [None] or empty. *)
Definition no_page (html : option string) : bool :=
  match html with
  | None => true
  | Some text => negb (PyStr.truthy text)
  end.

(** [get_article_content]: [None] stands for the empty dictionary. *)
Definition get_article_content (url : string) : M (option ContentData) :=
  html <- fetch_page url ;;
  match html with
  | None => ret None
  | Some text =>
    if negb (PyStr.truthy text) then ret None
    else ret (Some (parse_article_content text))
  end.

(** [article.update(content_data)]: the keys of the page of the article
    replace those of the list entry; [article_id] and [url] are not among
    them. *)
Definition update (article : ArticleData.t) (content_data : option ContentData)
  : ArticleData.t :=
  match content_data with
  | None => article
  | Some c =>
    ArticleData.mk (ArticleData.article_id article) (c_title c) (c_author c)
                   (c_content c) (ArticleData.url article) (c_post_time c)
  end.

(** The inner loop of [get_filtered_articles]: the content of every
    article the filter kept. *)
Fixpoint fetch_contents (filtered : list ArticleData.t)
  : M (list ArticleData.t) :=
  match filtered with
  | [] => ret []
  | article :: rest =>
    content_data <- get_article_content (ArticleData.url article) ;;
    others <- fetch_contents rest ;;
    ret (update article content_data :: others)
  end.

(** The loop of [get_filtered_articles] with [remaining] pages to go, at
    [current_url]. *)
Fixpoint pages_loop (remaining : nat) (current_url : string)
  : M (list ArticleData.t) :=
  match remaining with
  | O => ret []
  | S later =>
    html <- fetch_page current_url ;;
    match html with
    | None => ret []
    | Some text =>
      if negb (PyStr.truthy text) then ret []
      else
        let articles := parse_article_list text in
        let filtered := Parser.filter_by_keywords articles keywords in
        found <- fetch_contents filtered ;;
        match later with
        | O => ret found
        | S _ =>
          match get_previous_page_url text with
          | Some prev_url =>
            if negb (PyStr.truthy prev_url) then ret found
            else
              older <- pages_loop later prev_url ;;
              ret (found ++ older)
          | None => ret found
          end
        end
    end
  end.

Definition get_filtered_articles (pages : nat) : M (list ArticleData.t) :=
  pages_loop pages PTT_BOARD_URL.

Definition get_new_articles : M (list ArticleData.t) :=
  get_filtered_articles 1.

End WithWeb.
End PTTScraper.

(* ================================================================== *)
(** ** [scheduler/jobs.py] *)

Module Jobs.
Import Models StateMonad Runtime.
Local Open Scope monad_scope.

Section WithWorld.
Variable settings : Config.Settings.
(** The clock: the UTC time read by the n-th call to the outside. *)
Variable utcnow : nat -> Z.
Variable push_message : nat -> bool.

(** [datetime.now(tz).hour] for an instant. *)
Definition hour_in (tz : Z) (instant : Z) : Z :=
  ((instant + tz) / 3600) mod 24.

Definition is_within_schedule_hours : M bool :=
  now <- ask utcnow ;;
  let hour := hour_in (Config.TIMEZONE settings) now in
  ret ((Config.SCHEDULE_START_HOUR settings <=? hour) &&
       (hour <? Config.SCHEDULE_END_HOUR settings))%bool.

(** [crawl_new_articles()]: the feed answers with [feed]. *)
Definition crawl_new_articles (feed : list ArticleData.t)
  : M (list ArticleData.t) :=
  emit Crawl ;;; ret feed.

Definition create_article (article_data : ArticleData.t) : M Article.t :=
  now <- ask utcnow ;;
  commit (fun d =>
    Crud.create_article now d
      (ArticleData.article_id article_data)
      (ArticleData.title article_data)
      (ArticleData.author article_data)
      (ArticleData.content article_data)
      (ArticleData.url article_data)
      (ArticleData.post_time article_data)).

Definition create_notification (user_id article_id : nat)
  : M Notification.t :=
  now <- ask utcnow ;;
  commit (fun d => Crud.create_notification now d user_id article_id).

Definition mark_notification_sent (notification_id : nat) : M unit :=
  now <- ask utcnow ;;
  commit (fun d => (Crud.mark_notification_sent now d notification_id, tt)).

Definition mark_notifications_sent (notification_ids : list nat) : M unit :=
  now <- ask utcnow ;;
  commit (fun d => (Crud.mark_notifications_sent now d notification_ids, tt)).

(** Lines 83-94: the PREMIUM loop for one stored article. *)
Definition notify_premium (db_article : Article.t) (user : User.t) : M unit :=
  success <- LineBot.push_article_notification push_message
               (User.line_user_id user)
               (Article.title db_article) (Article.author db_article)
               (Article.url db_article) (Article.post_time db_article) ;;
  if success then
    notification <- create_notification (User.id user) (Article.id db_article) ;;
    mark_notification_sent (Notification.id notification)
  else ret tt.

(** Lines 97-99: the STANDARD loop for one stored article. *)
Definition queue_standard (db_article : Article.t) (user : User.t) : M unit :=
  has <- query (fun d => Crud.has_notification_for_article d (User.id user)
                           (Article.id db_article)) ;;
  if negb has then
    create_notification (User.id user) (Article.id db_article) ;;; ret tt
  else ret tt.

(** Lines 59-99: the body of the loop over the crawled articles. *)
Definition process_candidate (premium_users standard_users : list User.t)
    (article_data : ArticleData.t) : M unit :=
  let article_id := ArticleData.article_id article_data in
  if negb (PyStr.truthy article_id) then ret tt else
  existing <- query (fun d => Crud.get_article_by_ptt_id d article_id) ;;
  match existing with
  | Some _ => ret tt
  | None =>
    db_article <- create_article article_data ;;
    for_each premium_users (notify_premium db_article) ;;;
    for_each standard_users (queue_standard db_article)
  end.

Definition crawl_and_notify (feed : list ArticleData.t) : M unit :=
  within <- is_within_schedule_hours ;;
  if negb within then ret tt else
  articles <- crawl_new_articles feed ;;
  match articles with
  | [] => ret tt
  | _ :: _ =>
    all_users <- query Crud.get_all_active_users ;;
    let premium_users :=
      filter (fun u => UserTier_eqb (User.tier u) PREMIUM) all_users in
    let standard_users :=
      filter (fun u => UserTier_eqb (User.tier u) STANDARD) all_users in
    for_each articles (process_candidate premium_users standard_users)
  end.

(** [notification.article]: the row the foreign key points to. *)
Definition article_of (d : DB) (n : Notification.t) : option Article.t :=
  find (fun a => Nat.eqb (Article.id a) (Notification.article_id n))
       (articles d).

(** Lines 129-139: the dictionaries of the pending notifications;
    [None] when some notification has no article, where the attribute
    access raises. *)
Fixpoint prepare_articles (d : DB) (pending : list Notification.t)
  : option (list ArticleDict) :=
  match pending with
  | [] => Some []
  | notification :: rest =>
    match article_of d notification with
    | None => None
    | Some article =>
      match prepare_articles d rest with
      | None => None
      | Some articles =>
        Some (mkArticleDict (Article.title article) (Article.author article)
                            (Article.url article) (Article.post_time article)
              :: articles)
      end
    end
  end.

(** Lines 121-147: the loop over the STANDARD users.  An exception leaves
    the loop for the handler of the job, which rolls back (nothing is
    uncommitted) and returns. *)
Fixpoint hourly_loop (standard_users : list User.t) : M unit :=
  match standard_users with
  | [] => ret tt
  | user :: rest =>
    pending <- query (fun d =>
                 Crud.get_pending_notifications_for_user d (User.id user)) ;;
    match pending with
    | [] => hourly_loop rest
    | _ :: _ =>
      prepared <- query (fun d => prepare_articles d pending) ;;
      match prepared with
      | None => ret tt
      | Some articles =>
        let notification_ids := map Notification.id pending in
        success <- LineBot.push_batch_notification push_message
                     (User.line_user_id user) articles ;;
        (if success then mark_notifications_sent notification_ids
         else ret tt) ;;;
        hourly_loop rest
      end
    end
  end.

Definition send_hourly_notifications : M unit :=
  standard_users <- query (fun d => Crud.get_active_users_by_tier d STANDARD) ;;
  hourly_loop standard_users.

Definition cleanup_old_articles : M Z :=
  now <- ask utcnow ;;
  commit (Crud.delete_old_articles settings now).

End WithWorld.
End Jobs.


(* ================================================================== *)
(** ** The jobs the scheduler of [main.py] runs *)

Module Scheduler.
Import Models StateMonad Runtime.
Local Open Scope monad_scope.

(** One firing of one of the three jobs [lifespan] registers; the crawl
    comes with what the feed answers should it be asked. *)
Inductive Job :=
| crawl_job (feed : list ArticleData.t)
| hourly_notification_job
| cleanup_job.

Section WithWorld.
Variable settings : Config.Settings.
Variable utcnow : nat -> Z.
Variable push_message : nat -> bool.

Definition run_job (job : Job) : M unit :=
  match job with
  | crawl_job feed => Jobs.crawl_and_notify settings utcnow push_message feed
  | hourly_notification_job =>
    Jobs.send_hourly_notifications utcnow push_message
  | cleanup_job => Jobs.cleanup_old_articles settings utcnow ;;; ret tt
  end.

(** Firings that do not overlap, one after the other. *)
Definition run (jobs : list Job) : M unit := for_each jobs run_job.

End WithWorld.
End Scheduler.

(* ================================================================== *)
(** ** [auto_mail/mail_tracker.py] *)

Module SentMail.
(** One row of the SQLite table [sent_mails]. *)
Record t := mk {
  id : nat;
  ptt_id : string;
  article_id : string;
  article_title : string;
  mail_title : string;
  (** [DEFAULT CURRENT_TIMESTAMP]: the UTC instant of the insertion *)
  sent_at : Z;
  success : bool
}.
End SentMail.

Module MailTracker.

Record Table := mkTable {
  sent_mails : list SentMail.t;
  sent_mails_seq : nat
}.

Definition empty : Table := mkTable [] 1.

(** SQLite's [DATE(ts)] and Python's [date.isoformat()], both as the
    number of the day: two dates print alike exactly when their day
    numbers agree. *)
Definition DATE (instant : Z) : Z := instant / 86400.

(** [date.today()]: the calendar day of the instant [now] on the clock of
    the process, whose zone is [local_tz] seconds ahead of UTC. *)
Definition date_today (local_tz now : Z) : Z := DATE (now + local_tz).

Definition has_sent_to (t : Table) (ptt_id : string) : bool :=
  let count :=
    List.length
      (filter (fun r => String.eqb (SentMail.ptt_id r) ptt_id &&
                        SentMail.success r)%bool (sent_mails t)) in
  Nat.ltb 0 count.

Definition has_processed_article (t : Table) (article_id : string) : bool :=
  let count :=
    List.length
      (filter (fun r => String.eqb (SentMail.article_id r) article_id)
              (sent_mails t)) in
  Nat.ltb 0 count.

(** [record_sent]: an INSERT; [now] is the CURRENT_TIMESTAMP of the
    statement. *)
Definition record_sent (now : Z) (t : Table)
    (ptt_id article_id article_title mail_title : string) (success : bool)
  : Table :=
  mkTable
    (sent_mails t ++
     [SentMail.mk (sent_mails_seq t) ptt_id article_id article_title
                  mail_title now success])
    (S (sent_mails_seq t)).

(** [get_today_count]:
    [SELECT COUNT FROM sent_mails WHERE DATE(sent_at) = ? AND success = 1]
    with [date.today().isoformat()] for the parameter. *)
Definition get_today_count (today : Z) (t : Table) : Z :=
  Z.of_nat
    (List.length
       (filter (fun r => (DATE (SentMail.sent_at r) =? today) &&
                         SentMail.success r)%bool (sent_mails t))).

Definition can_send_today (daily_limit : Z) (today : Z) (t : Table) : bool :=
  let today_count := get_today_count today t in
  today_count <? daily_limit.

Definition get_remaining_quota (daily_limit : Z) (today : Z) (t : Table) : Z :=
  Z.max 0 (daily_limit - get_today_count today t).

End MailTracker.

(* ================================================================== *)
(** ** [auto_mail/auto_mail_service.py] *)

Module AutoMailService.
Import StateMonad.
Local Open Scope monad_scope.

Record MailData := mkMailData {
  md_ptt_id : string;
  md_article_id : string;
  md_article_title : string;
  md_mail_title : string;
  md_mail_content : string
}.

Inductive MailEvent :=
| Generate (article_title author : string)
| Login (ok : bool)
| Mail (ptt_id title content : string) (ok : bool)
| Logout.

Record Service := mkService {
  tracker : MailTracker.Table;
  (** [PTTMailer.is_logged_in] *)
  is_logged_in : bool;
  (** the timers started by [_schedule_mail], with their delays *)
  scheduled : list (MailData * Z);
  mail_trace : list MailEvent;
  mail_calls : nat
}.

Record Stats := mkStats { processed : Z; skipped : Z; failed : Z }.

Definition M : Type -> Type := State Service.

Definition ask {A} (oracle : nat -> A) : M A :=
  fun s => (oracle (mail_calls s),
            mkService (tracker s) (is_logged_in s) (scheduled s)
                      (mail_trace s) (S (mail_calls s))).

Definition emit (e : MailEvent) : M unit :=
  fun s => (tt, mkService (tracker s) (is_logged_in s) (scheduled s)
                          (mail_trace s ++ [e]) (mail_calls s)).

Definition query {A} (q : MailTracker.Table -> A) : M A :=
  fun s => (q (tracker s), s).

Definition write (w : MailTracker.Table -> MailTracker.Table) : M unit :=
  fun s => (tt, mkService (w (tracker s)) (is_logged_in s) (scheduled s)
                          (mail_trace s) (mail_calls s)).

Definition set_logged_in (b : bool) : M unit :=
  fun s => (tt, mkService (tracker s) b (scheduled s)
                          (mail_trace s) (mail_calls s)).

Definition start_timer (mail_data : MailData) (delay : Z) : M unit :=
  fun s => (tt, mkService (tracker s) (is_logged_in s)
                          (scheduled s ++ [(mail_data, delay)])
                          (mail_trace s) (mail_calls s)).

Section WithWorld.
Variable auto_mail_settings : Config.AutoMailSettings.
(** [str.lower] *)
Variable lower : string -> string.
(** The clock, and the offset of the zone the process runs in. *)
Variable utcnow : nat -> Z.
Variable local_tz : Z.
(** [ContentGenerator.generate_mail_content]: title and content, the empty
    string standing for [None]. *)
Variable generate_mail_content : nat -> string * string.
(** Whether the credentials are set and [PyPtt] logs in, and whether it
    delivers; both functions of [PTTMailer] turn every exception into
    [False]. *)
Variable ptt_login : nat -> bool.
Variable ptt_mail : nat -> bool.
(** [random.randint(MIN_DELAY_SECONDS, MAX_DELAY_SECONDS)] *)
Variable randint : nat -> Z.

Definition check_article_keywords (article : ArticleData.t) : bool :=
  let keywords := Config.mail_keywords_list auto_mail_settings in
  let title := ArticleData.title article in
  let content := ArticleData.content article in
  let text := lower (title ++ " " ++ content)%string in
  existsb (fun keyword => PyStr.str_in (lower keyword) text) keywords.

Definition can_send_today : M bool :=
  now <- ask utcnow ;;
  query (MailTracker.can_send_today
           (Config.DAILY_LIMIT auto_mail_settings)
           (MailTracker.date_today local_tz now)).

Definition record_sent (mail_data : MailData) (success : bool) : M unit :=
  now <- ask utcnow ;;
  write (fun t =>
    MailTracker.record_sent now t (md_ptt_id mail_data)
      (md_article_id mail_data) (md_article_title mail_data)
      (md_mail_title mail_data) success).

(** [PTTMailer.login] *)
Definition login : M bool :=
  fun s =>
    if is_logged_in s then (true, s)
    else (ok <- ask ptt_login ;;
          emit (Login ok) ;;;
          set_logged_in ok ;;;
          ret ok) s.

(** [PTTMailer.send_mail] *)
Definition send_mail (ptt_id title content : string) : M bool :=
  fun s =>
    if negb (is_logged_in s) then (false, s)
    else (ok <- ask ptt_mail ;;
          emit (Mail ptt_id title content ok) ;;;
          ret ok) s.

(** [PTTMailer.logout] *)
Definition logout : M unit :=
  fun s =>
    if is_logged_in s then (emit Logout ;;; set_logged_in false) s
    else (tt, s).

(** [_send_mail]; the [finally] clause logs out on both paths. *)
Definition _send_mail (mail_data : MailData) : M bool :=
  logged <- login ;;
  if negb logged then
    record_sent mail_data false ;;;
    logout ;;;
    ret false
  else
    success <- send_mail (md_ptt_id mail_data) (md_mail_title mail_data)
                         (md_mail_content mail_data) ;;
    record_sent mail_data success ;;;
    logout ;;;
    ret success.

(** [_schedule_mail]: a daemon thread that sleeps [delay] seconds and then
    runs [_send_mail]; starting it writes nothing to the tracker. *)
Definition _schedule_mail (mail_data : MailData) : M unit :=
  delay <- ask randint ;;
  start_timer mail_data delay.

Definition process_article (article : ArticleData.t) (immediate : bool)
  : M bool :=
  let article_id := ArticleData.article_id article in
  let author := ArticleData.author article in
  let title := ArticleData.title article in
  let content := ArticleData.content article in
  if negb (PyStr.truthy article_id && PyStr.truthy author &&
           PyStr.truthy title)%bool then ret false else
  seen <- query (fun t => MailTracker.has_processed_article t article_id) ;;
  if seen then ret false else
  contacted <- query (fun t => MailTracker.has_sent_to t author) ;;
  if contacted then ret false else
  can <- can_send_today ;;
  if negb can then ret false else
  generated <- ask generate_mail_content ;;
  emit (Generate title author) ;;;
  let (mail_title, mail_content) := generated in
  if (negb (PyStr.truthy mail_title) || negb (PyStr.truthy mail_content))%bool
  then ret false else
  let mail_data := mkMailData author article_id title mail_title mail_content in
  if immediate then _send_mail mail_data
  else _schedule_mail mail_data ;;; ret true.

(** The loop of [process_articles_batch]; a quota that is used up
    [break]s out of it. *)
Fixpoint batch_loop (articles : list ArticleData.t) (immediate : bool)
    (stats : Stats) : M Stats :=
  match articles with
  | [] => ret stats
  | article :: rest =>
    if negb (check_article_keywords article) then
      batch_loop rest immediate
        (mkStats (processed stats) (skipped stats + 1) (failed stats))
    else
      can <- can_send_today ;;
      if negb can then ret stats else
      ok <- process_article article immediate ;;
      if ok then
        batch_loop rest immediate
          (mkStats (processed stats + 1) (skipped stats) (failed stats))
      else
        batch_loop rest immediate
          (mkStats (processed stats) (skipped stats) (failed stats + 1))
  end.

Definition process_articles_batch (articles : list ArticleData.t)
    (immediate : bool) : M Stats :=
  batch_loop articles immediate (mkStats 0 0 0).

End WithWorld.
End AutoMailService.


(* ================================================================== *)
(** ** Notions the properties are stated with *)

Module Ledger.
Import Models.

(** The notifications of one (user, article) pair. *)
Definition records_for (d : DB) (user_id article_id : nat)
  : list Notification.t :=
  filter (fun n => Nat.eqb (Notification.user_id n) user_id &&
                   Nat.eqb (Notification.article_id n) article_id)%bool
         (notifications d).

(** The notifications that refer to one article. *)
Definition records_of_article (d : DB) (article_id : nat)
  : list Notification.t :=
  filter (fun n => Nat.eqb (Notification.article_id n) article_id)
         (notifications d).

(** The articles stored under one PTT article id. *)
Definition rows_of (d : DB) (ptt_id : string) : list Article.t :=
  filter (fun a => String.eqb (Article.article_id a) ptt_id) (articles d).

Definition pending (n : Notification.t) : bool :=
  match Notification.sent_at n with None => true | Some _ => false end.

(** The keyword test in the words of the specification: some configured
    keyword occurs, case-insensitively, in the title or in the body; two
    texts are compared without case by comparing what [lower] makes of
    them. *)
Definition claimed_keyword_match (lower : string -> string)
    (keywords : list string) (article : ArticleData.t) : bool :=
  existsb (fun keyword =>
             PyStr.str_in (lower keyword)
                          (lower (ArticleData.title article)) ||
             PyStr.str_in (lower keyword)
                          (lower (ArticleData.content article)))%bool
          keywords.

(** The day's count in the words of the specification: the successful
    sends whose instant falls on the calendar date that [now] has in the
    zone [tz]. *)
Definition claimed_today_count (tz now : Z) (t : MailTracker.Table) : Z :=
  Z.of_nat
    (List.length
       (filter (fun r => SentMail.success r &&
                         (MailTracker.DATE (SentMail.sent_at r + tz) =?
                          MailTracker.DATE (now + tz)))%bool
               (MailTracker.sent_mails t))).

(** The sequence of notification ids is ahead of every stored row, as the
    store keeps it for a serial primary key. *)
Definition notification_ids_fresh (d : DB) : Prop :=
  Forall (fun n => (Notification.id n < notifications_id_seq d)%nat)
         (notifications d).

(** What the store guarantees of the [articles] table: [article_id] is
    unique, and the sequence of ids is ahead of every stored row. *)
Definition articles_wf (d : DB) : Prop :=
  NoDup (map Article.article_id (articles d)) /\
  Forall (fun a => (Article.id a < articles_id_seq d)%nat) (articles d).

Definition db_wf (d : DB) : Prop :=
  articles_wf d /\ notification_ids_fresh d.

(** The dictionary the push functions get for a stored article. *)
Definition dict_of (a : Article.t) : Runtime.ArticleDict :=
  Runtime.mkArticleDict (Article.title a) (Article.author a) (Article.url a)
                        (Article.post_time a).

(** [d'] is [d] with notifications of the article [aid] added at the end
    and nothing else touched. *)
Definition adds_for (aid : nat) (d d' : DB) : Prop :=
  exists created,
    notifications d' = notifications d ++ created /\
    Forall (fun n => Notification.article_id n = aid) created /\
    articles d' = articles d /\
    users d' = users d /\
    articles_id_seq d' = articles_id_seq d.

(** [d'] is [d] with rows added at the end of [articles] and of
    [notifications]: the added articles carry ids the sequence of [d] had
    not given out and PTT ids [d] did not hold, and the added
    notifications refer to such articles. *)
Definition grows (d d' : DB) : Prop :=
  exists new_articles new_notifications,
    articles d' = articles d ++ new_articles /\
    notifications d' = notifications d ++ new_notifications /\
    Forall (fun a => (articles_id_seq d <= Article.id a)%nat /\
                     rows_of d (Article.article_id a) = []) new_articles /\
    Forall (fun n => (articles_id_seq d <= Notification.article_id n)%nat)
           new_notifications /\
    users d' = users d /\
    (articles_id_seq d <= articles_id_seq d')%nat.

(** A post that carries the fields [process_article] insists on. *)
Definition complete (article : ArticleData.t) : Prop :=
  ArticleData.article_id article <> ""%string /\
  ArticleData.author article <> ""%string /\
  ArticleData.title article <> ""%string.

(** An answer of the content generator that has a title and a body. *)
Definition usable (generated : string * string) : Prop :=
  fst generated <> ""%string /\ snd generated <> ""%string.

(** The mail [process_article] prepares for a post from a generated
    answer. *)
Definition mail_for (article : ArticleData.t) (generated : string * string)
  : AutoMailService.MailData :=
  AutoMailService.mkMailData
    (ArticleData.author article) (ArticleData.article_id article)
    (ArticleData.title article) (fst generated) (snd generated).

(** The pending notifications of one user, as
    [get_pending_notifications_for_user] selects them. *)
Definition pending_of (user_id : nat) (n : Notification.t) : bool :=
  (Nat.eqb (Notification.user_id n) user_id && pending n)%bool.


(** The notifications of one user. *)
Definition records_of_user (d : DB) (user_id : nat) : list Notification.t :=
  filter (fun n => Nat.eqb (Notification.user_id n) user_id)
         (notifications d).

(** The dictionaries of the articles a list of notifications points to. *)
Definition bundle (d : DB) (pend : list Notification.t)
  : list Runtime.ArticleDict :=
  flat_map (fun n => match Jobs.article_of d n with
                     | Some a => [dict_of a]
                     | None => []
                     end) pend.

(** Whether a user has something pending. *)
Definition has_pending (d : DB) (u : User.t) : bool :=
  match Crud.get_pending_notifications_for_user d (User.id u) with
  | [] => false
  | _ :: _ => true
  end.

(** What identifies a notification and what it points to; [sent_at] is
    the one column the jobs ever assign again. *)
Definition keys (n : Notification.t) : nat * nat * nat * Z :=
  (Notification.id n, Notification.user_id n, Notification.article_id n,
   Notification.created_at n).

(** A store as the schema and the jobs mean it to be: the primary keys and
    [article_id] are unique with the sequences ahead of them, every
    notification points to a user and to an article of the store, and no
    (user, article) pair has two notifications. *)
Record store_ok (d : DB) : Prop := {
  ok_article_ptt_ids : NoDup (map Article.article_id (articles d));
  ok_article_ids : Forall (fun a => (Article.id a < articles_id_seq d)%nat)
                          (articles d);
  ok_article_ids_unique : NoDup (map Article.id (articles d));
  ok_user_ids_unique : NoDup (map User.id (users d));
  ok_notification_ids :
    Forall (fun n => (Notification.id n < notifications_id_seq d)%nat)
           (notifications d);
  ok_notification_ids_unique : NoDup (map Notification.id (notifications d));
  ok_article_refs :
    Forall (fun n => In (Notification.article_id n)
                        (map Article.id (articles d))) (notifications d);
  ok_user_refs :
    Forall (fun n => In (Notification.user_id n) (map User.id (users d)))
           (notifications d);
  ok_pairs :
    NoDup (map (fun n => (Notification.user_id n, Notification.article_id n))
               (notifications d))
}.

(** The push the hourly dispatch makes for a recipient, with its answer:
    the ten oldest of what is pending for the recipient in [d]. *)
Definition dispatch_event (d : DB) (uo : User.t * bool) : Runtime.Event :=
  Runtime.Push (User.line_user_id (fst uo))
    (firstn 10 (bundle d (Crud.get_pending_notifications_for_user d
                            (User.id (fst uo)))))
    (snd uo).

(** The answers of the push service to [n] pushes in a row of the hourly
    dispatch, the first of them its call number [c]: an accepted push is
    followed by one reading of the clock, a refused one by nothing. *)
Fixpoint answers (push_message : nat -> bool) (c n : nat) : list bool :=
  match n with
  | O => []
  | S n =>
    let ok := push_message c in
    ok :: answers push_message (if ok then S (S c) else S c) n
  end.

(** The state the hourly dispatch leaves after the turn of one recipient,
    when every pending notification has its article. *)
Definition after_turn (utcnow : nat -> Z) (push_message : nat -> bool)
    (u : User.t) (s : Runtime.St) : Runtime.St :=
  let d := Runtime.db s in
  let pend := Crud.get_pending_notifications_for_user d (User.id u) in
  match pend with
  | [] => s
  | _ :: _ =>
    let ok := push_message (Runtime.calls s) in
    let tr := Runtime.trace s ++ [dispatch_event d (u, ok)] in
    if ok then
      Runtime.mkSt
        (Crud.mark_notifications_sent (utcnow (S (Runtime.calls s))) d
           (map Notification.id pend))
        tr (S (S (Runtime.calls s)))
    else Runtime.mkSt d tr (S (Runtime.calls s))
  end.

(** What the request number [n] gives for the page of an article at
    [url]: nothing when the request fails or the page is empty. *)
Definition content_at (session_get : nat -> string -> option string)
    (parse_article_content : string -> PTTScraper.ContentData)
    (n : nat) (url : string) : option PTTScraper.ContentData :=
  match session_get n url with
  | Some text =>
    if PyStr.truthy text then Some (parse_article_content text) else None
  | None => None
  end.

(** An entry with a keyword in the title the list page shows. *)
Definition kept (keywords : list string) (entry : ArticleData.t) : Prop :=
  exists keyword, In keyword keywords /\
    PyStr.str_in keyword (ArticleData.title entry) = true.

(** The article the crawl hands over for an entry whose own page it asked
    for in the request number [fst pick]: the entry as listed where that
    request gave nothing, and else the entry updated from the page it
    gave. *)
Definition handed_over (session_get : nat -> string -> option string)
    (parse_article_content : string -> PTTScraper.ContentData)
    (pick : nat * ArticleData.t) : ArticleData.t :=
  PTTScraper.update (snd pick)
    (content_at session_get parse_article_content (fst pick)
                (ArticleData.url (snd pick))).

(** In the run from the session [w] to the session [w'], the request
    number [fst pick] went to the page of the entry [snd pick]; the entry
    has a keyword in its listed title, and it was listed on a page that
    an earlier request of the run was answered with. *)
Definition picked (keywords : list string)
    (session_get : nat -> string -> option string)
    (parse_article_list : string -> list ArticleData.t)
    (w w' : PTTScraper.Web) (pick : nat * ArticleData.t) : Prop :=
  nth_error (PTTScraper.requests w') (fst pick)
  = Some (ArticleData.url (snd pick)) /\
  kept keywords (snd pick) /\
  exists (n : nat) (url text : string),
    (List.length (PTTScraper.requests w) <= n < fst pick)%nat /\
    nth_error (PTTScraper.requests w') n = Some url /\
    session_get n url = Some text /\ PyStr.truthy text = true /\
    In (snd pick) (parse_article_list text).

(** What a run of the page loop of the crawl, started at [current_url]
    with [remaining] pages to go in the session [w], has to show for
    itself. *)
Definition crawl_post (keywords : list string)
    (session_get : nat -> string -> option string)
    (parse_article_list : string -> list ArticleData.t)
    (parse_article_content : string -> PTTScraper.ContentData)
    (remaining : nat) (current_url : string) (w : PTTScraper.Web)
    (run : list ArticleData.t * PTTScraper.Web) : Prop :=
  (exists (board_pages : nat) (later : list string),
     (board_pages <= remaining)%nat /\
     PTTScraper.requests (snd run) = PTTScraper.requests w ++ later /\
     ((0 < remaining)%nat ->
      (0 < board_pages)%nat /\ exists rest, later = current_url :: rest) /\
     List.length later = (board_pages + List.length (fst run))%nat) /\
  exists picks : list (nat * ArticleData.t),
    fst run = map (handed_over session_get parse_article_content) picks /\
    StronglySorted lt (map fst picks) /\
    Forall (picked keywords session_get parse_article_list w (snd run))
           picks.




(** The call numbers at which the PREMIUM loop of one article asks the
    push API, for [n] subscribers in a row and starting at the call [c]:
    an accepted push is followed by two readings of the clock, for the
    INSERT of the notification and for its mark, a refused one by
    nothing. *)
Fixpoint fanout_calls (push_message : nat -> bool) (c n : nat) : list nat :=
  match n with
  | O => []
  | S n =>
    c :: fanout_calls push_message
           (if push_message c then (3 + c)%nat else (1 + c)%nat) n
  end.

(** What the ledger holds of a subscriber and an article after the
    subscriber's turn in the PREMIUM loop, the push asked at the call [c]:
    one notification written after the push was accepted, created at the
    clock's next reading and marked sent at the one after, or nothing. *)
Definition recorded_after_push (utcnow : nat -> Z)
    (push_message : nat -> bool) (d : DB) (article_id : nat)
    (uc : User.t * nat) : Prop :=
  if push_message (snd uc) then
    exists id,
      records_for d (User.id (fst uc)) article_id
      = [Notification.mk id (User.id (fst uc)) article_id
           (Some (utcnow (2 + snd uc)%nat)) (utcnow (1 + snd uc)%nat)]
  else records_for d (User.id (fst uc)) article_id = [].

(** The rows of the mail ledger that record a delivery. *)
Definition successes (t : MailTracker.Table) : list SentMail.t :=
  filter SentMail.success (MailTracker.sent_mails t).

End Ledger.


(* ================================================================== *)
(** ** Concrete stores, feeds and worlds used in the examples below *)

Module Fixtures.
Import Models Runtime.

(** A store with one PREMIUM and one STANDARD subscriber and no article. *)
Definition two_users : DB :=
  mkDB []
       [User.mk 1 "U-premium" PREMIUM true 0;
        User.mk 2 "U-standard" STANDARD true 0]
       [] 1 1.

Definition loan_post : ArticleData.t :=
  ArticleData.mk "M.1701234567.A.123" "[請益] 信貸利率" "u1" "..."
                 "https://www.ptt.cc/bbs/Loan/M.1701234567.A.123.html" None.

(** The same two subscribers and one stored article. *)
Definition one_article : DB :=
  mkDB [Article.mk 1 "M.1701234567.A.123" "[請益] 信貸利率" "u1" "..."
          "https://www.ptt.cc/bbs/Loan/M.1701234567.A.123.html" None 0]
       [User.mk 1 "U-premium" PREMIUM true 0;
        User.mk 2 "U-standard" STANDARD true 0]
       [] 2 1.

(** A post that names the keyword in its body only. *)
Definition keyword_in_body : ArticleData.t :=
  ArticleData.mk "M.1701234568.A.456" "[請益] 利率問題" "u2"
                 "想申請個人信貸" "https://www.ptt.cc/bbs/Loan/M.1701234568.A.456.html"
                 None.

(** A post whose title has the keyword in another case. *)
Definition keyword_in_capitals : ArticleData.t :=
  ArticleData.mk "M.1701234569.A.789" "LOAN rates" "u3" "..."
                 "https://www.ptt.cc/bbs/Loan/M.1701234569.A.789.html" None.

(** A post where a two-word keyword is split between title and body. *)
Definition keyword_across_fields : ArticleData.t :=
  ArticleData.mk "M.1701234570.A.ABC" "low rate" "u4" "loan offer"
                 "https://www.ptt.cc/bbs/Loan/M.1701234570.A.ABC.html" None.

Definition mail_settings (daily_limit : Z) (keywords : list string)
  : Config.AutoMailSettings :=
  Config.mkAutoMailSettings daily_limit 180 300 keywords.

(** 2024-01-01 00:00:00 UTC. *)
Definition new_year_2024 : Z := 1704067200.

(** The defaults of [class Settings] on a given database and with a given
    [TIMEZONE]. *)
Definition settings_on (database : Config.Database) (timezone : Z)
  : Config.Settings :=
  Config.mkSettings database (Config.keywords_list Config.settings)
    (Config.SCHEDULE_START_HOUR Config.settings)
    (Config.SCHEDULE_END_HOUR Config.settings)
    (Config.SCHEDULE_INTERVAL_MINUTES Config.settings)
    (Config.RETENTION_DAYS Config.settings)
    timezone.

(** America/Bogota: five hours behind UTC all year round. *)
Definition America_Bogota : Z := - (5 * 3600).

(** A store with one article, observed at [created_at], and one pending
    notification of it. *)
Definition observed_at (created_at : Z) : DB :=
  mkDB [Article.mk 1 "M.1701234567.A.123" "[請益] 信貸利率" "u1" "..."
          "https://www.ptt.cc/bbs/Loan/M.1701234567.A.123.html" None
          created_at]
       [User.mk 2 "U-standard" STANDARD true 0]
       [Notification.mk 1 2 1 None created_at]
       2 2.

(** The i-th of a run of stored posts: "post A", "post B", ... *)
Definition numbered_article (i : nat) : Article.t :=
  let letter := String (ascii_of_nat (64 + i)) EmptyString in
  Article.mk i ("M.1701234567.A.00" ++ letter)%string
             ("[請益] 信貸 " ++ letter)%string "u1" "..."
             ("https://www.ptt.cc/bbs/Loan/M.1701234567.A.00" ++ letter
              ++ ".html")%string None 0.

(** One STANDARD subscriber with [k] stored posts, each with a pending
    notification, oldest first. *)
Definition backlog (k : nat) : DB :=
  mkDB (map numbered_article (seq 1 k))
       [User.mk 2 "U-standard" STANDARD true 0]
       (map (fun i => Notification.mk i 2 i None 0) (seq 1 k))
       (S k) (S k).

(** Two matching posts of one tick, by two authors. *)
Definition post_a : ArticleData.t :=
  ArticleData.mk "M.1701234571.A.A01" "[請益] 信貸利率" "u1" "想問信貸"
                 "https://www.ptt.cc/bbs/Loan/M.1701234571.A.A01.html" None.

Definition post_b : ArticleData.t :=
  ArticleData.mk "M.1701234572.A.B02" "[請益] 個人信貸" "u5" "信貸額度"
                 "https://www.ptt.cc/bbs/Loan/M.1701234572.A.B02.html" None.

(** A service that has sent nothing and holds no session. *)
Definition fresh_service : AutoMailService.Service :=
  AutoMailService.mkService MailTracker.empty false [] [] 0.


End Fixtures.


(* ================================================================== *)
(** * Properties *)

Import Models StateMonad Runtime Ledger Fixtures.

(** ** Strings *)

Lemma prefix_app (n post : string) : String.prefix n (n ++ post) = true.
Proof.
  induction n as [|c n IH]; simpl.
  - now destruct post.
  - destruct (Ascii.ascii_dec c c) as [_|ne]; [exact IH | now elim ne].
Qed.

Lemma prefix_split (n h : string) :
  String.prefix n h = true -> exists post, h = (n ++ post)%string.
Proof.
  revert h; induction n as [|c n IH]; intros h H.
  - now exists h.
  - destruct h as [|c' h]; simpl in H; [discriminate|].
    destruct (Ascii.ascii_dec c c') as [->|_]; [|discriminate].
    destruct (IH _ H) as [post ->]. now exists post.
Qed.

(** [str_in] is the substring test. *)
Lemma str_in_spec (n h : string) :
  PyStr.str_in n h = true <->
  exists pre post, h = (pre ++ n ++ post)%string.
Proof.
  split.
  - induction h as [|c h IH]; cbn [PyStr.str_in]; intros H.
    + rewrite orb_false_r in H. apply prefix_split in H as [post ->].
      now exists ""%string, post.
    + apply orb_true_iff in H as [H|H].
      * apply prefix_split in H as [post ->]. now exists ""%string, post.
      * destruct (IH H) as (pre & post & ->).
        now exists (String c pre), post.
  - intros (pre & post & ->). induction pre as [|c pre IH].
    + change (("" ++ n ++ post)%string) with ((n ++ post)%string).
      assert (P : String.prefix n (n ++ post) = true) by apply prefix_app.
      destruct (n ++ post)%string; cbn [PyStr.str_in]; now rewrite P.
    + change ((String c pre ++ n ++ post)%string)
        with (String c (pre ++ n ++ post)%string).
      cbn [PyStr.str_in]. rewrite IH. apply orb_true_r.
Qed.

Lemma lower_of_ascii_app (a b : string) :
  PyStr.lower_of_ascii (a ++ b)
  = (PyStr.lower_of_ascii a ++ PyStr.lower_of_ascii b)%string.
Proof. induction a as [|c a IH]; simpl; [reflexivity | now rewrite IH]. Qed.

Lemma string_app_assoc (a b c : string) :
  ((a ++ b) ++ c = a ++ b ++ c)%string.
Proof. induction a as [|x a IH]; simpl; [reflexivity | now rewrite IH]. Qed.

Lemma truthy_spec (x : string) : PyStr.truthy x = true <-> x <> ""%string.
Proof. destruct x; cbn; split; congruence. Qed.

Lemma truthy_true (x : string) : x <> ""%string -> PyStr.truthy x = true.
Proof. apply truthy_spec. Qed.

(** ** Lists *)

Lemma id_in_spec (ids : list nat) (i : nat) :
  Crud.id_in ids i = true <-> In i ids.
Proof.
  unfold Crud.id_in. rewrite existsb_exists. split.
  - intros (x & Hx & E). apply Nat.eqb_eq in E. now subst.
  - intros H. exists i. split; [assumption | apply Nat.eqb_refl].
Qed.

Lemma filter_all {A} (f : A -> bool) (l : list A) :
  (forall x, In x l -> f x = true) -> filter f l = l.
Proof.
  induction l as [|x l IH]; simpl; intros H; [reflexivity|].
  rewrite (H x (or_introl eq_refl)). f_equal. apply IH.
  intros y Hy. apply H. now right.
Qed.

Lemma filter_none {A} (f : A -> bool) (l : list A) :
  (forall x, In x l -> f x = false) -> filter f l = [].
Proof.
  induction l as [|x l IH]; simpl; intros H; [reflexivity|].
  rewrite (H x (or_introl eq_refl)). apply IH.
  intros y Hy. apply H. now right.
Qed.

Lemma filter_split_length {A} (f : A -> bool) (l : list A) :
  (List.length (filter f l) + List.length (filter (fun x => negb (f x)) l)
   = List.length l)%nat.
Proof.
  induction l as [|x l IH]; simpl; [reflexivity|].
  destruct (f x); simpl; lia.
Qed.

Lemma filter_ext_eq {A} (f g : A -> bool) (l : list A) :
  (forall x, f x = g x) -> filter f l = filter g l.
Proof. intros H. apply filter_ext. exact H. Qed.

Lemma find_update_first {A} (p : A -> bool) (g : A -> A) (l : list A) :
  (forall x, p (g x) = p x) ->
  find p (Crud.update_first p g l) = option_map g (find p l).
Proof.
  intros Hp. induction l as [|x l IH]; simpl; [reflexivity|].
  destruct (p x) eqn:E; simpl.
  - now rewrite Hp, E.
  - now rewrite E.
Qed.

Lemma update_first_twice {A} (p : A -> bool) (f g : A -> A) (l : list A) :
  (forall x, p (g x) = p x) -> (forall x, f (g x) = f x) ->
  Crud.update_first p f (Crud.update_first p g l) = Crud.update_first p f l.
Proof.
  intros Hp Hf. induction l as [|x l IH]; simpl; [reflexivity|].
  destruct (p x) eqn:E; simpl.
  - now rewrite Hp, E, Hf.
  - now rewrite E, IH.
Qed.

Lemma update_first_absent {A} (p : A -> bool) (f : A -> A) (l : list A) :
  find p l = None -> Crud.update_first p f l = l.
Proof.
  induction l as [|x l IH]; simpl; [reflexivity|].
  destruct (p x); [discriminate|]. intros H. now rewrite IH.
Qed.

Lemma find_app_fresh {A} (p : A -> bool) (l : list A) (y : A) :
  Forall (fun x => p x = false) l -> p y = true ->
  find p (l ++ [y]) = Some y.
Proof.
  intros Hl Hy. induction Hl as [|x l Hx _ IH]; simpl.
  - now rewrite Hy.
  - now rewrite Hx.
Qed.

Lemma update_first_app_fresh {A} (p : A -> bool) (f : A -> A)
    (l : list A) (y : A) :
  Forall (fun x => p x = false) l -> p y = true ->
  Crud.update_first p f (l ++ [y]) = l ++ [f y].
Proof.
  intros Hl Hy. induction Hl as [|x l Hx _ IH]; simpl.
  - now rewrite Hy.
  - now rewrite Hx, IH.
Qed.

Lemma NoDup_map_inj {A B} (f : A -> B) (l : list A) (a b : A) :
  NoDup (map f l) -> In a l -> In b l -> f a = f b -> a = b.
Proof.
  induction l as [|x l IH]; intros Hnd Ha Hb E; [contradiction|].
  cbn in Hnd. inversion Hnd as [|? ? Hnotin Hnd']; subst.
  destruct Ha as [->|Ha], Hb as [->|Hb]; auto.
  - elim Hnotin. rewrite E. now apply in_map.
  - elim Hnotin. rewrite <- E. now apply in_map.
Qed.

Lemma unique_row {A} (f : A -> string) (l : list A) (k : string) :
  NoDup (map f l) ->
  filter (fun a => String.eqb (f a) k) l <> [] ->
  exists a, filter (fun a => String.eqb (f a) k) l = [a] /\
            In a l /\ f a = k.
Proof.
  induction l as [|x l IH]; intros Hnd Hne; [now elim Hne|].
  cbn in Hnd, Hne |- *. inversion Hnd as [|? ? Hnotin Hnd']; subst.
  destruct (String.eqb (f x) k) eqn:E.
  - apply String.eqb_eq in E. exists x. split; [|auto]. f_equal.
    apply filter_none. intros y Hy. apply String.eqb_neq. intros Ey.
    apply Hnotin. rewrite E, <- Ey. now apply in_map.
  - destruct (IH Hnd' Hne) as (a & Hf & Hin & Hk). exists a. auto.
Qed.

(** ** Sequencing *)

Lemma exec_bind {S A B} (c : State S A) (k : A -> State S B) (s : S) :
  exec (bind c k) s = exec (k (result c s)) (exec c s).
Proof. unfold exec, result, bind. now destruct (c s). Qed.

Lemma exec_for_each_cons {S A} (x : A) (l : list A)
    (body : A -> State S unit) (s : S) :
  exec (for_each (x :: l) body) s = exec (for_each l body) (exec (body x) s).
Proof.
  unfold exec. cbn [for_each]. unfold bind. now destruct (body x s).
Qed.

(** A loop keeps what each of its turns keeps. *)
Lemma for_each_invariant {A} (R : DB -> DB -> Prop) (I : DB -> Prop)
    (body : A -> M unit) :
  (forall d, R d d) ->
  (forall d1 d2 d3, R d1 d2 -> R d2 d3 -> R d1 d3) ->
  (forall x s, I (db s) ->
               I (db (exec (body x) s)) /\ R (db s) (db (exec (body x) s))) ->
  forall l s, I (db s) ->
    I (db (exec (for_each l body) s)) /\
    R (db s) (db (exec (for_each l body) s)).
Proof.
  intros Hrefl Htrans Hstep l. induction l as [|x l IH]; intros s HI.
  - cbn. split; [assumption | apply Hrefl].
  - rewrite exec_for_each_cons.
    destruct (Hstep x s HI) as [HI1 HR1].
    destruct (IH _ HI1) as [HI2 HR2].
    split; [assumption | eapply Htrans; eassumption].
Qed.

(** ** The schedule window *)

(** C10.  Outside the window [SCHEDULE_START_HOUR, SCHEDULE_END_HOUR) of the
    configured zone, [crawl_and_notify] returns at once: the store is what
    it was and nothing was asked of the outside, neither the feed nor the
    push API.  (The job itself is on a one-minute interval trigger all day
    long; the gate is this test alone.) *)
Theorem crawl_and_notify_outside_window
    (settings : Config.Settings) (utcnow : nat -> Z)
    (push_message : nat -> bool) (feed : list ArticleData.t) (s : St) :
  let hour := Jobs.hour_in (Config.TIMEZONE settings) (utcnow (calls s)) in
  ~ (Config.SCHEDULE_START_HOUR settings <= hour
     < Config.SCHEDULE_END_HOUR settings) ->
  let s' := exec (Jobs.crawl_and_notify settings utcnow push_message feed) s in
  db s' = db s /\ trace s' = trace s.
Proof.
  intros hour Hout s'. subst s'.
  unfold exec, Jobs.crawl_and_notify, Jobs.is_within_schedule_hours,
    bind, ask, ret. simpl.
  fold hour.
  destruct ((Config.SCHEDULE_START_HOUR settings <=? hour) &&
            (hour <? Config.SCHEDULE_END_HOUR settings))%bool eqn:E.
  - apply andb_true_iff in E as [E1 E2].
    apply Z.leb_le in E1. apply Z.ltb_lt in E2. now elim Hout.
  - simpl. split; reflexivity.
Qed.

(** At 14:00 UTC it is 22:00 in Taipei. *)
Lemma crawl_and_notify_outside_window_witness :
  let s := mkSt two_users [] 0 in
  let utcnow := fun _ : nat => 14 * 3600 in
  let s' := exec (Jobs.crawl_and_notify Config.settings utcnow
                    (fun _ => true) [loan_post]) s in
  Jobs.hour_in (Config.TIMEZONE Config.settings) (utcnow 0%nat) = 22 /\
  db s' = db s /\ trace s' = trace s.
Proof.
  split; [reflexivity|].
  apply (crawl_and_notify_outside_window Config.settings
           (fun _ => 14 * 3600) (fun _ => true) [loan_post]
           (mkSt two_users [] 0)).
  vm_compute. intros [_ H]. discriminate H.
Defined.

(** ** Retention *)

(** What [delete_old_articles] leaves and returns, on both of its paths. *)
Lemma delete_old_articles_eq (settings : Config.Settings) (now : Z) (d : DB) :
  let ids := map Article.id (Crud.get_articles_to_delete settings now d) in
  let r := Crud.delete_old_articles settings now d in
  articles (fst r) =
    filter (fun a => negb (Crud.id_in ids (Article.id a))) (articles d) /\
  notifications (fst r) =
    filter (fun n => negb (Crud.id_in ids (Notification.article_id n)))
           (notifications d) /\
  snd r = Z.of_nat (List.length
            (filter (fun a => Crud.id_in ids (Article.id a)) (articles d))).
Proof.
  unfold Crud.delete_old_articles, Crud.get_articles_to_delete. cbv zeta.
  destruct (map Article.id
              (filter (Crud.older_than_cutoff settings now) (articles d)))
    as [|i ids] eqn:E.
  - simpl. repeat split.
    + symmetry. now apply filter_all.
    + symmetry. now apply filter_all.
    + now rewrite filter_none.
  - simpl. repeat split.
Qed.

(** What [delete_old_articles] deletes, for every store, clock and
    setting: the articles that are older than the cutoff as the database
    reads [created_at], and the notifications that refer to them; the
    number returned is the number of articles deleted. *)
Lemma delete_old_articles_deletes
    (settings : Config.Settings) (now : Z) (d : DB) :
  let d' := fst (Crud.delete_old_articles settings now d) in
  let count := snd (Crud.delete_old_articles settings now d) in
  (forall a, In a (articles d') ->
             Crud.older_than_cutoff settings now a = false) /\
  (forall a n, In a (articles d) -> ~ In a (articles d') ->
               In n (notifications d') ->
               Notification.article_id n <> Article.id a) /\
  count = Z.of_nat (List.length (articles d))
          - Z.of_nat (List.length (articles d')) /\
  (forall a, In a (articles d) ->
             ~ In (Article.id a)
                  (map Article.id
                       (Crud.get_articles_to_delete settings now d)) ->
             In a (articles d')) /\
  incl (articles d') (articles d) /\
  incl (notifications d') (notifications d) /\
  users d' = users d.
Proof.
  intros d' count.
  destruct (delete_old_articles_eq settings now d) as (Ha & Hn & Hc).
  fold d' in Ha, Hn. fold count in Hc.
  set (ids := map Article.id (Crud.get_articles_to_delete settings now d))
    in *.
  assert (Hold : forall a, In a (articles d) ->
                           Crud.older_than_cutoff settings now a = true ->
                           In (Article.id a) ids).
  { intros a Hin Hlt. unfold ids. apply in_map.
    unfold Crud.get_articles_to_delete. apply filter_In. now split. }
  repeat split.
  - intros a Hin. rewrite Ha in Hin. apply filter_In in Hin as [Hin Hf].
    apply negb_true_iff in Hf.
    destruct (Crud.older_than_cutoff settings now a) eqn:E; [|reflexivity].
    assert (Crud.id_in ids (Article.id a) = true)
      by (apply id_in_spec; auto).
    congruence.
  - intros a n Hin Hgone Hn' E. rewrite Hn in Hn'.
    apply filter_In in Hn' as [_ Hf]. apply negb_true_iff in Hf.
    rewrite E in Hf. apply Hgone. rewrite Ha. apply filter_In.
    split; [assumption|]. now rewrite Hf.
  - rewrite Hc, Ha.
    pose proof (filter_split_length
                  (fun a => Crud.id_in ids (Article.id a)) (articles d)).
    lia.
  - intros a Hin Hid. rewrite Ha. apply filter_In. split; [assumption|].
    apply negb_true_iff. destruct (Crud.id_in ids (Article.id a)) eqn:E;
      [|reflexivity].
    apply id_in_spec in E. contradiction.
  - rewrite Ha. intros a Hin. now apply filter_In in Hin.
  - rewrite Hn. intros n Hin. now apply filter_In in Hin.
  - unfold d', Crud.delete_old_articles. cbv zeta.
    now destruct (map Article.id _).
Qed.

(** C9: the purge measures the age of an article on the wrong clock.
    [created_at] is the naive reading of [datetime.utcnow], the cutoff an
    aware value in [TIMEZONE], and the comparison is left to the database.
    An article is deleted exactly when its [created_at] lies more than
    [RETENTION_DAYS] days, less the offset of the zone in which the
    database reads the column, before now.  So an article observed 180
    days and one hour ago stays in the store, and 0 is returned, on SQLite
    with [TIMEZONE] America/Bogota, and with the default settings on a
    PostgreSQL session five hours west of UTC; on SQLite with the default
    [TIMEZONE], Asia/Taipei, an article observed 179 days and 20 hours ago
    is deleted, with its notification. *)
Theorem delete_old_articles_is_off_by_the_zone :
  (forall (settings : Config.Settings) (now : Z) (a : Article.t),
     Crud.older_than_cutoff settings now a = true <->
     Article.created_at a
     < now - Config.RETENTION_DAYS settings * 86400
       + Crud.created_at_read_in settings) /\
  (let now := new_year_2024 in
   let d := observed_at (now - 180 * 86400 - 3600) in
   Crud.delete_old_articles (settings_on Config.SQLite America_Bogota) now d
   = (d, 0) /\
   Crud.delete_old_articles
     (settings_on (Config.PostgreSQL America_Bogota) Config.Asia_Taipei) now d
   = (d, 0)) /\
  (let now := new_year_2024 in
   let d := observed_at (now - 180 * 86400 + 4 * 3600) in
   Crud.delete_old_articles (settings_on Config.SQLite Config.Asia_Taipei)
     now d
   = (mkDB [] (users d) [] (articles_id_seq d) (notifications_id_seq d), 1)).
Proof.
  split; [|split; [split|]; vm_compute; reflexivity].
  intros settings now a. unfold Crud.older_than_cutoff, Crud.cutoff_date.
  rewrite Z.ltb_lt. lia.
Qed.

(** ** The delivery ledger *)

Lemma has_notification_for_article_spec (d : DB) (u a : nat) :
  Crud.has_notification_for_article d u a = true <-> records_for d u a <> [].
Proof.
  unfold Crud.has_notification_for_article, records_for.
  induction (notifications d) as [|n l IH]; simpl.
  - split; [discriminate | congruence].
  - destruct (Nat.eqb (Notification.user_id n) u &&
              Nat.eqb (Notification.article_id n) a)%bool.
    + split; [discriminate | reflexivity].
    + exact IH.
Qed.

(** C4, as stated, fails: two calls of [create_notification] for one pair
    give two records of that pair, and neither call fails. *)
Lemma create_notification_twice_two_records :
  let d1 := fst (Crud.create_notification 10 one_article 2 1) in
  let d2 := fst (Crud.create_notification 20 d1 2 1) in
  records_for one_article 2 1 = [] /\
  records_for d1 2 1 = [Notification.mk 1 2 1 None 10] /\
  records_for d2 2 1 =
    [Notification.mk 1 2 1 None 10; Notification.mk 2 2 1 None 20].
Proof. repeat split. Qed.

(** C4, amended.  [create_notification] has no gate of its own: every call
    inserts one pending record with the next id, whatever the ledger holds
    for the pair, and there is no failure it could report.  The test for an
    existing record is the caller's: the STANDARD loop of
    [crawl_and_notify] asks [has_notification_for_article] first, so it
    adds a record only to a pair that has none. *)
Theorem create_notification_inserts_unconditionally :
  (forall (now : Z) (d : DB) (user_id article_id : nat),
     let d' := fst (Crud.create_notification now d user_id article_id) in
     let n := snd (Crud.create_notification now d user_id article_id) in
     n = Notification.mk (notifications_id_seq d) user_id article_id None now /\
     notifications d' = notifications d ++ [n] /\
     records_for d' user_id article_id =
       records_for d user_id article_id ++ [n] /\
     notifications_id_seq d' = S (notifications_id_seq d) /\
     articles d' = articles d /\ users d' = users d) /\
  (forall (utcnow : nat -> Z) (db_article : Article.t) (user : User.t) (s : St),
     let s' := exec (Jobs.queue_standard utcnow db_article user) s in
     let before := records_for (db s) (User.id user) (Article.id db_article) in
     let after := records_for (db s') (User.id user) (Article.id db_article) in
     match before with
     | [] => exists n, after = [n] /\ pending n = true
     | _ :: _ => after = before /\ db s' = db s
     end).
Proof.
  split.
  - intros now d u a d' n. subst d' n. unfold records_for. simpl.
    repeat split.
    rewrite filter_app. simpl. now rewrite !Nat.eqb_refl.
  - intros utcnow art user s s' before after. subst s' before after.
    unfold exec, Jobs.queue_standard, Jobs.create_notification, bind, query,
      ask, commit, ret. simpl.
    pose proof (has_notification_for_article_spec (db s) (User.id user)
                  (Article.id art)) as Hspec.
    destruct (Crud.has_notification_for_article (db s) (User.id user)
                (Article.id art)) eqn:Hh; simpl.
    + destruct (records_for (db s) (User.id user) (Article.id art)) eqn:E.
      * now elim (proj1 Hspec eq_refl).
      * split; reflexivity.
    + destruct (records_for (db s) (User.id user) (Article.id art)) eqn:E.
      * eexists. unfold records_for in *. simpl. rewrite filter_app, E. simpl.
        rewrite !Nat.eqb_refl. simpl. split; reflexivity.
      * assert (false = true) by (apply Hspec; discriminate).
        discriminate.
Qed.

(** C5, as stated, fails: a second [mark_notification_sent] on a record
    that is already marked raises nothing and replaces the time recorded
    by the first. *)
Lemma mark_notification_sent_twice_overwrites :
  let d0 := fst (Crud.create_notification 10 one_article 1 1) in
  let d1 := Crud.mark_notification_sent 100 d0 1 in
  let d2 := Crud.mark_notification_sent 200 d1 1 in
  notifications d1 = [Notification.mk 1 1 1 (Some 100) 10] /\
  notifications d2 = [Notification.mk 1 1 1 (Some 200) 10] /\
  d2 <> d1.
Proof. repeat split. discriminate. Qed.

(** C5, amended.  [mark_notification_sent] takes no outcome and cannot
    fail: on a record that exists every call assigns the current time to
    [sent_at], so of two calls the later one decides what is stored (and the
    second changes nothing exactly when the clock reads the same); on an id
    that is absent it does nothing.  The outcome of a personalized send is
    stored by [record_sent], which appends a row on every call. *)
Theorem mark_notification_sent_last_write_wins
    (t1 t2 : Z) (d : DB) (notification_id : nat) :
  let has_id := fun n => Nat.eqb (Notification.id n) notification_id in
  let d1 := Crud.mark_notification_sent t1 d notification_id in
  Crud.mark_notification_sent t2 d1 notification_id
    = Crud.mark_notification_sent t2 d notification_id /\
  find has_id (notifications d1)
    = option_map (Notification.set_sent_at t1) (find has_id (notifications d)) /\
  (find has_id (notifications d) = None -> d1 = d) /\
  List.length (notifications d1) = List.length (notifications d) /\
  (forall (t : MailTracker.Table) (ptt_id article_id title mail : string)
          (success : bool),
     MailTracker.sent_mails
       (MailTracker.record_sent t1 t ptt_id article_id title mail success)
     = MailTracker.sent_mails t ++
       [SentMail.mk (MailTracker.sent_mails_seq t) ptt_id article_id title
                    mail t1 success]).
Proof.
  intros has_id d1. subst d1. unfold Crud.mark_notification_sent.
  fold has_id.
  assert (Hid : forall t x, has_id (Notification.set_sent_at t x) = has_id x)
    by reflexivity.
  destruct (find has_id (notifications d)) as [n|] eqn:E.
  - repeat split.
    + simpl. rewrite (find_update_first has_id _ _ (Hid t1)), E. simpl.
      unfold with_notifications. simpl. f_equal.
      apply update_first_twice; [apply Hid | reflexivity].
    + simpl. now rewrite (find_update_first has_id _ _ (Hid t1)), E.
    + discriminate.
    + simpl. clear E. induction (notifications d) as [|x l IH]; simpl;
        [reflexivity|]. destruct (has_id x); simpl; congruence.
  - rewrite E. repeat split.
Qed.

(** ** The keyword filters *)

(** C8, as stated, fails.  [filter_by_keywords] drops a post that has the
    keyword in its body, and one that has it in its title in another case;
    [check_article_keywords] keeps a post that has the keyword neither in
    its title nor in its body.  (The texts are ASCII and Chinese.) *)
Lemma keyword_filter_is_not_the_claimed_one :
  (claimed_keyword_match PyStr.lower_of_ascii ["信貸"%string] keyword_in_body
   = true /\
   Parser.filter_by_keywords [keyword_in_body] ["信貸"%string] = []) /\
  (claimed_keyword_match PyStr.lower_of_ascii ["loan"%string]
     keyword_in_capitals = true /\
   Parser.filter_by_keywords [keyword_in_capitals] ["loan"%string] = []) /\
  (claimed_keyword_match PyStr.lower_of_ascii ["rate loan"%string]
     keyword_across_fields = false /\
   AutoMailService.check_article_keywords
     (mail_settings 30 ["rate loan"%string]) PyStr.lower_of_ascii
     keyword_across_fields = true).
Proof. vm_compute. repeat split. Qed.

(** C8, amended.  [filter_by_keywords], the filter of the intake, keeps a
    candidate if and only if some configured keyword occurs in its title as
    it is written; the body is not read and letters are not folded.
    [check_article_keywords], the filter of the personalized path, keeps a
    candidate if and only if some keyword, in lower case, occurs in the
    lower-cased text made of the title, one space and the body, whatever
    [str.lower] does to a text; as [str.lower] works on either side of a
    space without looking across it (the one rule of Python's that reads
    the neighbours of a letter, the final sigma, stops at a space), it
    keeps every candidate that has a keyword in its title or body in any
    case. *)
Theorem keyword_filters_characterised :
  (forall (articles : list ArticleData.t) (keywords : list string)
          (a : ArticleData.t),
     In a (Parser.filter_by_keywords articles keywords) <->
     In a articles /\
     exists k pre post,
       In k keywords /\ ArticleData.title a = (pre ++ k ++ post)%string) /\
  (forall (lower : string -> string) (cfg : Config.AutoMailSettings)
          (a : ArticleData.t),
     AutoMailService.check_article_keywords cfg lower a = true <->
     exists k pre post,
       In k (Config.mail_keywords_list cfg) /\
       lower (ArticleData.title a ++ " " ++ ArticleData.content a)%string
       = (pre ++ lower k ++ post)%string) /\
  (forall lower : string -> string,
     (forall x y : string,
        lower (x ++ " " ++ y)%string = (lower x ++ " " ++ lower y)%string) ->
     forall (cfg : Config.AutoMailSettings) (a : ArticleData.t),
       claimed_keyword_match lower (Config.mail_keywords_list cfg) a = true ->
       AutoMailService.check_article_keywords cfg lower a = true).
Proof.
  assert (Hcheck : forall lower cfg a,
    AutoMailService.check_article_keywords cfg lower a = true <->
    exists k pre post,
      In k (Config.mail_keywords_list cfg) /\
      lower (ArticleData.title a ++ " " ++ ArticleData.content a)%string
      = (pre ++ lower k ++ post)%string).
  { intros lower cfg a. unfold AutoMailService.check_article_keywords.
    rewrite existsb_exists. split.
    - intros (k & Hk & Hin). apply str_in_spec in Hin as (pre & post & E).
      now exists k, pre, post.
    - intros (k & pre & post & Hk & E). exists k. split; [assumption|].
      apply str_in_spec. now exists pre, post. }
  split; [|split].
  - intros articles keywords a. unfold Parser.filter_by_keywords.
    rewrite filter_In, existsb_exists. split.
    + intros (Hin & k & Hk & Hs). split; [assumption|].
      apply str_in_spec in Hs as (pre & post & E). now exists k, pre, post.
    + intros (Hin & k & pre & post & Hk & E). split; [assumption|].
      exists k. split; [assumption|]. apply str_in_spec. now exists pre, post.
  - exact Hcheck.
  - intros lower Hspace cfg a H. apply Hcheck.
    unfold claimed_keyword_match in H.
    apply existsb_exists in H as (k & Hk & Hor).
    apply orb_true_iff in Hor as [Ht|Hc];
      [apply str_in_spec in Ht as (pre & post & E)
      |apply str_in_spec in Hc as (pre & post & E)].
    + exists k, pre, (post ++ " " ++ lower (ArticleData.content a))%string.
      split; [assumption|]. rewrite Hspace, E.
      now rewrite !string_app_assoc.
    + exists k, (lower (ArticleData.title a) ++ " " ++ pre)%string, post.
      split; [assumption|]. rewrite Hspace, E.
      now rewrite !string_app_assoc.
Qed.

(** The fold of ASCII is among the functions the last part speaks of. *)
Lemma lower_of_ascii_on_either_side_of_a_space (x y : string) :
  PyStr.lower_of_ascii (x ++ " " ++ y)
  = (PyStr.lower_of_ascii x ++ " " ++ PyStr.lower_of_ascii y)%string.
Proof. now rewrite lower_of_ascii_app. Qed.

(** ** The daily quota *)

Lemma DATE_interval (instant day : Z) :
  MailTracker.DATE instant = day <->
  86400 * day <= instant < 86400 * day + 86400.
Proof.
  unfold MailTracker.DATE. split.
  - intros <-. pose proof (Z.mul_div_le instant 86400 eq_refl).
    pose proof (Z.mul_succ_div_gt instant 86400 eq_refl). lia.
  - intros H. symmetry. apply (Z.div_unique instant 86400 day (instant - 86400 * day)); lia.
Qed.

(** C6: the day's count mixes two clocks.  [sent_at] is stamped by SQLite's
    [CURRENT_TIMESTAMP], in UTC, and compared with [date.today()], the date
    on the clock of the process.  With the process in Asia/Taipei and a
    limit of one, a mail sent with success at 00:30 of 2 January (16:30 UTC
    of the 1st) is not counted at 09:00 of 2 January: the count read is 0
    and [can_send_today] answers yes, while one successful send falls on
    the current date in Asia/Taipei, so that a second mail goes out on a
    day whose limit is one. *)
Lemma get_today_count_is_not_the_claimed_one :
  let sent := new_year_2024 + 16 * 3600 + 1800 in
  let now := new_year_2024 + 25 * 3600 in
  let t := MailTracker.record_sent sent MailTracker.empty "u1" "M.1" "t" "m"
             true in
  let today := MailTracker.date_today Config.Asia_Taipei now in
  claimed_today_count Config.Asia_Taipei now t = 1 /\
  MailTracker.get_today_count today t = 0 /\
  MailTracker.can_send_today 1 today t = true.
Proof. vm_compute. repeat split. Qed.

(** What the quota does hold to, whatever the clocks: [can_send_today]
    holds exactly when [get_today_count] is below [DAILY_LIMIT];
    [get_today_count] is the number of rows with the success flag set whose
    stored [sent_at] has the date the process takes for today, that is,
    lies in the 86400 seconds of that day number as [sent_at] is stored;
    rows of failed sends never count, and no setting for a time zone is
    read. *)
Theorem can_send_today_quota (daily_limit today : Z) (t : MailTracker.Table) :
  (MailTracker.can_send_today daily_limit today t = true <->
   MailTracker.get_today_count today t < daily_limit) /\
  MailTracker.get_today_count today t =
    Z.of_nat (List.length
      (filter (fun r => SentMail.success r &&
                        (86400 * today <=? SentMail.sent_at r) &&
                        (SentMail.sent_at r <? 86400 * today + 86400))%bool
              (MailTracker.sent_mails t))) /\
  (forall (now : Z) (ptt_id article_id title mail : string) (success : bool),
     MailTracker.get_today_count today
       (MailTracker.record_sent now t ptt_id article_id title mail success)
     = MailTracker.get_today_count today t
       + (if (success && (MailTracker.DATE now =? today))%bool then 1 else 0)).
Proof.
  split; [|split].
  - unfold MailTracker.can_send_today. cbv zeta. apply Z.ltb_lt.
  - unfold MailTracker.get_today_count. do 2 f_equal.
    apply filter_ext_eq. intros r.
    destruct (SentMail.success r); cbn [andb]; [|apply andb_false_r].
    rewrite andb_true_r.
    destruct (MailTracker.DATE (SentMail.sent_at r) =? today) eqn:E.
    + apply Z.eqb_eq, DATE_interval in E. symmetry.
      apply andb_true_iff. split; [apply Z.leb_le | apply Z.ltb_lt]; lia.
    + symmetry. apply not_true_is_false. intros H.
      apply andb_true_iff in H as [H1 H2].
      apply Z.leb_le in H1. apply Z.ltb_lt in H2.
      apply Z.eqb_neq in E. apply E. apply DATE_interval. lia.
  - intros now ptt_id article_id title mail success.
    unfold MailTracker.get_today_count, MailTracker.record_sent. simpl.
    rewrite filter_app, length_app. simpl.
    rewrite (andb_comm success).
    destruct (MailTracker.DATE now =? today), success; simpl; lia.
Qed.

(** The remaining quota is the distance to the limit, never negative, and
    [can_send_today] holds exactly when some of it is left. *)
Theorem remaining_quota_and_can_send_today
    (daily_limit today : Z) (t : MailTracker.Table) :
  MailTracker.get_remaining_quota daily_limit today t
    = Z.max 0 (daily_limit - MailTracker.get_today_count today t) /\
  0 <= MailTracker.get_remaining_quota daily_limit today t /\
  0 <= MailTracker.get_today_count today t
    <= Z.of_nat (List.length (MailTracker.sent_mails t)) /\
  (MailTracker.can_send_today daily_limit today t = true <->
   0 < MailTracker.get_remaining_quota daily_limit today t).
Proof.
  unfold MailTracker.get_remaining_quota, MailTracker.can_send_today.
  cbv zeta.
  assert (0 <= MailTracker.get_today_count today t
          <= Z.of_nat (List.length (MailTracker.sent_mails t))).
  { unfold MailTracker.get_today_count.
    pose proof (filter_length_le
                  (fun r => (MailTracker.DATE (SentMail.sent_at r) =? today)
                            && SentMail.success r)%bool
                  (MailTracker.sent_mails t)).
    lia. }
  repeat split; lia.
Qed.

(** ** The immediate tier *)

Lemma fresh_ids_miss (d : DB) :
  notification_ids_fresh d ->
  Forall (fun n => Nat.eqb (Notification.id n) (notifications_id_seq d) = false)
         (notifications d).
Proof.
  unfold notification_ids_fresh. apply Forall_impl. intros n H.
  apply Nat.eqb_neq. lia.
Qed.

(** A record that was just created is the one [mark_notification_sent]
    finds under its id. *)
Lemma mark_created_notification (t1 t2 : Z) (d : DB) (u a : nat) :
  notification_ids_fresh d ->
  let d1 := fst (Crud.create_notification t1 d u a) in
  let n := snd (Crud.create_notification t1 d u a) in
  Crud.mark_notification_sent t2 d1 (Notification.id n) =
  mkDB (articles d) (users d)
       (notifications d ++ [Notification.mk (notifications_id_seq d) u a
                                            (Some t2) t1])
       (articles_id_seq d) (S (notifications_id_seq d)).
Proof.
  intros Hfresh. simpl. unfold Crud.mark_notification_sent. simpl.
  pose proof (fresh_ids_miss d Hfresh) as Hmiss.
  rewrite find_app_fresh; [|assumption|apply Nat.eqb_refl].
  rewrite update_first_app_fresh; [|assumption|apply Nat.eqb_refl].
  reflexivity.
Qed.

Lemma fresh_after_insert (d : DB) (n : Notification.t) :
  notification_ids_fresh d ->
  Notification.id n = notifications_id_seq d ->
  notification_ids_fresh
    (mkDB (articles d) (users d) (notifications d ++ [n])
          (articles_id_seq d) (S (notifications_id_seq d))).
Proof.
  unfold notification_ids_fresh. simpl. intros H E.
  apply Forall_app. split.
  - revert H. apply Forall_impl. intros; lia.
  - constructor; [lia | constructor].
Qed.

(** One turn of the PREMIUM loop. *)
Lemma notify_premium_step (utcnow : nat -> Z) (push_message : nat -> bool)
    (art : Article.t) (u : User.t) (s : St) :
  notification_ids_fresh (db s) ->
  let ok := push_message (calls s) in
  let s' := exec (Jobs.notify_premium utcnow push_message art u) s in
  trace s' = trace s ++ [Push (User.line_user_id u) [dict_of art] ok] /\
  db s' =
    (if ok then
       mkDB (articles (db s)) (users (db s))
            (notifications (db s) ++
             [Notification.mk (notifications_id_seq (db s)) (User.id u)
                (Article.id art) (Some (utcnow (S (S (calls s)))))
                (utcnow (S (calls s)))])
            (articles_id_seq (db s)) (S (notifications_id_seq (db s)))
     else db s) /\
  calls s' = (if ok then 3 + calls s else 1 + calls s)%nat /\
  notification_ids_fresh (db s').
Proof.
  intros Hfresh ok s'. subst s'.
  unfold exec, Jobs.notify_premium, LineBot.push_article_notification,
    Jobs.create_notification, Jobs.mark_notification_sent,
    bind, ask, emit, commit, ret.
  cbn [fst snd db trace calls]. fold ok. destruct ok.
  - cbn [fst snd db trace calls Crud.create_notification Notification.id].
    pose proof (mark_created_notification (utcnow (S (calls s)))
                  (utcnow (S (S (calls s)))) (db s) (User.id u)
                  (Article.id art) Hfresh) as Hm.
    cbn [fst snd Crud.create_notification Notification.id] in Hm.
    rewrite Hm. cbn [fst snd db trace calls].
    repeat split. now apply fresh_after_insert.
  - cbn [fst snd db trace calls]. repeat split. assumption.
Qed.

(** C2, as stated, fails.  One new post, one PREMIUM subscriber, and a push
    that is refused: the transport has been called, and the ledger holds no
    record of the subscriber and the article, neither pending nor with an
    outcome.  (The only record is the pending one of the STANDARD
    subscriber.) *)
Lemma failed_push_leaves_no_record :
  let s := mkSt two_users [] 0 in
  let s' := exec (Jobs.crawl_and_notify Config.settings (fun _ => 0)
                    (fun _ => false) [loan_post]) s in
  map Article.id (articles (db s')) = [1%nat] /\
  trace s' =
    [Crawl;
     Push "U-premium"
          [mkArticleDict "[請益] 信貸利率" "u1"
             "https://www.ptt.cc/bbs/Loan/M.1701234567.A.123.html" None]
          false] /\
  records_for (db s') 1 1 = [] /\
  notifications (db s') = [Notification.mk 1 2 1 None 0].
Proof. vm_compute. repeat split. Qed.

(** The PREMIUM loop for one stored article: one push per subscriber, in
    order; a notification, marked sent, for the pushes that succeeded and
    for no other. *)
Lemma premium_loop_outcomes
    (utcnow : nat -> Z) (push_message : nat -> bool)
    (db_article : Article.t) (premium_users : list User.t) (s : St) :
  notification_ids_fresh (db s) ->
  let s' := exec (for_each premium_users
                    (Jobs.notify_premium utcnow push_message db_article)) s in
  exists outcomes : list bool,
    List.length outcomes = List.length premium_users /\
    trace s' =
      trace s ++
      map (fun uo => Push (User.line_user_id (fst uo)) [dict_of db_article]
                          (snd uo))
          (combine premium_users outcomes) /\
    exists created : list Notification.t,
      notifications (db s') = notifications (db s) ++ created /\
      map (fun n => (Notification.user_id n, Notification.article_id n))
          created
      = map (fun uo => (User.id (fst uo), Article.id db_article))
            (filter snd (combine premium_users outcomes)) /\
      Forall (fun n => pending n = false) created /\
      articles (db s') = articles (db s) /\
      users (db s') = users (db s) /\
      articles_id_seq (db s') = articles_id_seq (db s) /\
      notification_ids_fresh (db s').
Proof.
  revert s. induction premium_users as [|u rest IH]; intros s Hfresh s'.
  - exists []. subst s'. cbn. rewrite !app_nil_r. repeat split.
    exists []. rewrite app_nil_r. repeat split; [constructor | assumption].
  - subst s'. rewrite exec_for_each_cons.
    destruct (notify_premium_step utcnow push_message db_article u s Hfresh)
      as (Ht & Hd & _ & Hf).
    set (s1 := exec (Jobs.notify_premium utcnow push_message db_article u) s)
      in *.
    destruct (IH s1 Hf) as (outs & Hlen & Htr & created & Hn & Hmap & Hsent
                            & Ha & Hu & Hseq & Hfr).
    exists (push_message (calls s) :: outs). split; [cbn; now rewrite Hlen|].
    split.
    { rewrite Htr, Ht. cbn. now rewrite <- app_assoc. }
    destruct (push_message (calls s)) eqn:Hok.
    + eexists (_ :: created). rewrite Hn, Hd. cbn [notifications].
      rewrite <- app_assoc. split; [reflexivity|].
      cbn. rewrite Hmap. split; [reflexivity|].
      split; [constructor; [reflexivity | assumption]|].
      rewrite Ha, Hu, Hseq, Hd. repeat split. assumption.
    + exists created. rewrite Hn, Hd. split; [reflexivity|].
      cbn. rewrite Hmap. split; [reflexivity|].
      split; [assumption|].
      rewrite Ha, Hu, Hseq, Hd. repeat split. assumption.
Qed.

Lemma standard_loop_queues (utcnow : nat -> Z) (art : Article.t)
    (standard_users : list User.t) (s : St) :
  notification_ids_fresh (db s) ->
  let s' := exec (for_each standard_users (Jobs.queue_standard utcnow art)) s in
  exists queued,
    notifications (db s') = notifications (db s) ++ queued /\
    Forall (fun n => pending n = true /\
                     Notification.article_id n = Article.id art) queued /\
    trace s' = trace s /\
    articles (db s') = articles (db s) /\
    users (db s') = users (db s).
Proof.
  revert s. induction standard_users as [|u rest IH]; intros s Hfresh s';
    subst s'.
  - exists []. cbn. rewrite app_nil_r. repeat split. constructor.
  - rewrite exec_for_each_cons.
    set (s1 := exec (Jobs.queue_standard utcnow art u) s).
    assert (Hstep : exists q1,
              notifications (db s1) = notifications (db s) ++ q1 /\
              Forall (fun n => pending n = true /\
                               Notification.article_id n = Article.id art) q1 /\
              trace s1 = trace s /\ articles (db s1) = articles (db s) /\
              users (db s1) = users (db s) /\
              notification_ids_fresh (db s1)).
    { subst s1.
      unfold exec, Jobs.queue_standard, Jobs.create_notification, bind,
        query, ask, commit, ret. cbn [fst snd db trace calls].
      destruct (Crud.has_notification_for_article (db s) (User.id u)
                  (Article.id art)); cbn [negb fst snd db trace calls].
      - exists []. rewrite app_nil_r. repeat split; [constructor | assumption].
      - eexists [_]. cbn. repeat split.
        + constructor; [split; reflexivity | constructor].
        + now apply fresh_after_insert. }
    destruct Hstep as (q1 & Hn1 & Hq1 & Ht1 & Ha1 & Hu1 & Hf1).
    destruct (IH s1 Hf1) as (q2 & Hn2 & Hq2 & Ht2 & Ha2 & Hu2).
    exists (q1 ++ q2). rewrite Hn2, Hn1, Ht2, Ht1, Ha2, Ha1, Hu2, Hu1.
    rewrite <- app_assoc. repeat split. apply Forall_app. now split.
Qed.

(** ** Intake *)

Lemma adds_for_refl (aid : nat) (d : DB) : adds_for aid d d.
Proof. exists []. rewrite app_nil_r. repeat split. constructor. Qed.

Lemma adds_for_trans (aid : nat) (d1 d2 d3 : DB) :
  adds_for aid d1 d2 -> adds_for aid d2 d3 -> adds_for aid d1 d3.
Proof.
  intros (c1 & Hn1 & Hf1 & Ha1 & Hu1 & Hs1) (c2 & Hn2 & Hf2 & Ha2 & Hu2 & Hs2).
  exists (c1 ++ c2). rewrite Hn2, Hn1, <- app_assoc.
  repeat split; try congruence. apply Forall_app. now split.
Qed.

Lemma notify_premium_frame (utcnow : nat -> Z) (push_message : nat -> bool)
    (art : Article.t) (u : User.t) (s : St) :
  notification_ids_fresh (db s) ->
  let s' := exec (Jobs.notify_premium utcnow push_message art u) s in
  notification_ids_fresh (db s') /\ adds_for (Article.id art) (db s) (db s').
Proof.
  intros Hfresh s'.
  destruct (notify_premium_step utcnow push_message art u s Hfresh)
    as (_ & Hd & _ & Hf).
  fold s' in Hd, Hf. split; [assumption|]. rewrite Hd.
  destruct (push_message (calls s)).
  - eexists [_]. cbn. repeat split. constructor; [reflexivity | constructor].
  - apply adds_for_refl.
Qed.

Lemma queue_standard_frame (utcnow : nat -> Z)
    (art : Article.t) (u : User.t) (s : St) :
  notification_ids_fresh (db s) ->
  let s' := exec (Jobs.queue_standard utcnow art u) s in
  notification_ids_fresh (db s') /\ adds_for (Article.id art) (db s) (db s').
Proof.
  intros Hfresh s'. subst s'.
  unfold exec, Jobs.queue_standard, Jobs.create_notification, bind, query,
    ask, commit, ret. cbn [fst snd db trace calls].
  destruct (Crud.has_notification_for_article (db s) (User.id u)
              (Article.id art)); cbn [negb fst snd db trace calls].
  - split; [assumption | apply adds_for_refl].
  - cbn. split.
    + now apply fresh_after_insert.
    + eexists [_]. cbn. repeat split.
      constructor; [reflexivity | constructor].
Qed.

Lemma find_none_rows (d : DB) (ptt_id : string) :
  Crud.get_article_by_ptt_id d ptt_id = None <-> rows_of d ptt_id = [].
Proof.
  unfold Crud.get_article_by_ptt_id, rows_of.
  induction (articles d) as [|a l IH]; simpl; [tauto|].
  destruct (String.eqb (Article.article_id a) ptt_id).
  - split; discriminate.
  - exact IH.
Qed.

Lemma rows_of_nil_not_in (d : DB) (ptt_id : string) :
  rows_of d ptt_id = [] -> ~ In ptt_id (map Article.article_id (articles d)).
Proof.
  unfold rows_of. intros H Hin. apply in_map_iff in Hin as (a & E & Ha).
  assert (In a (filter (fun a => String.eqb (Article.article_id a) ptt_id)
                       (articles d))) as Hf.
  { apply filter_In. split; [assumption|]. now apply String.eqb_eq. }
  rewrite H in Hf. exact Hf.
Qed.

Lemma grows_refl (d : DB) : grows d d.
Proof.
  exists [], []. rewrite !app_nil_r. repeat split; constructor.
Qed.

Lemma rows_of_app (d : DB) (l : list Article.t) (ptt_id : string) :
  filter (fun a => String.eqb (Article.article_id a) ptt_id) (articles d ++ l)
  = rows_of d ptt_id ++
    filter (fun a => String.eqb (Article.article_id a) ptt_id) l.
Proof. unfold rows_of. apply filter_app. Qed.

Lemma grows_trans (d1 d2 d3 : DB) : grows d1 d2 -> grows d2 d3 -> grows d1 d3.
Proof.
  intros (a1 & n1 & Ha1 & Hn1 & Fa1 & Fn1 & Hu1 & Hs1)
         (a2 & n2 & Ha2 & Hn2 & Fa2 & Fn2 & Hu2 & Hs2).
  exists (a1 ++ a2), (n1 ++ n2).
  rewrite Ha2, Ha1, Hn2, Hn1, <- !app_assoc.
  repeat split; try congruence; try lia.
  - apply Forall_app. split; [assumption|].
    revert Fa2. apply Forall_impl. intros a [Hle Hrows]. split; [lia|].
    unfold rows_of in Hrows. rewrite Ha1, rows_of_app in Hrows.
    now apply app_eq_nil in Hrows.
  - apply Forall_app. split; [assumption|].
    revert Fn2. apply Forall_impl. intros; lia.
Qed.

(** One turn of the loop over the crawled posts. *)
Lemma process_candidate_step (utcnow : nat -> Z) (push_message : nat -> bool)
    (premium_users standard_users : list User.t) (ad : ArticleData.t)
    (s : St) :
  db_wf (db s) ->
  let s' := exec (Jobs.process_candidate utcnow push_message premium_users
                    standard_users ad) s in
  db_wf (db s') /\ grows (db s) (db s') /\
  (PyStr.truthy (ArticleData.article_id ad) = true ->
   rows_of (db s') (ArticleData.article_id ad) <> []).
Proof.
  intros Hwf s'. subst s'. unfold Jobs.process_candidate. cbv zeta.
  destruct (PyStr.truthy (ArticleData.article_id ad)) eqn:T; cbn [negb];
    [|cbn; repeat split; try apply Hwf; [apply grows_refl | discriminate]].
  rewrite exec_bind.
  change (result (query (fun d => Crud.get_article_by_ptt_id d
                                    (ArticleData.article_id ad))) s)
    with (Crud.get_article_by_ptt_id (db s) (ArticleData.article_id ad)).
  change (exec (query (fun d => Crud.get_article_by_ptt_id d
                                  (ArticleData.article_id ad))) s) with s.
  destruct (Crud.get_article_by_ptt_id (db s) (ArticleData.article_id ad))
    as [existing|] eqn:F.
  { cbn. repeat split; try apply Hwf; [apply grows_refl|].
    intros _ Hnil. apply find_none_rows in Hnil. congruence. }
  apply find_none_rows in F.
  rewrite exec_bind.
  set (a0 := result (Jobs.create_article utcnow ad) s).
  set (s1 := exec (Jobs.create_article utcnow ad) s).
  assert (Hid : Article.id a0 = articles_id_seq (db s)) by reflexivity.
  assert (Hptt : Article.article_id a0 = ArticleData.article_id ad)
    by reflexivity.
  assert (Hs1 : db s1 = mkDB (articles (db s) ++ [a0]) (users (db s))
                             (notifications (db s))
                             (S (articles_id_seq (db s)))
                             (notifications_id_seq (db s))) by reflexivity.
  destruct Hwf as [[Hnodup Hids] Hfresh].
  assert (Hfresh1 : notification_ids_fresh (db s1))
    by (rewrite Hs1; exact Hfresh).
  rewrite exec_bind.
  destruct (for_each_invariant (adds_for (Article.id a0))
              notification_ids_fresh
              (Jobs.notify_premium utcnow push_message a0)
              (adds_for_refl _) (adds_for_trans _)
              (fun x s => notify_premium_frame utcnow push_message a0 x s)
              premium_users s1 Hfresh1) as [Hfresh2 Hadd2].
  set (s2 := exec (for_each premium_users
                     (Jobs.notify_premium utcnow push_message a0)) s1) in *.
  destruct (for_each_invariant (adds_for (Article.id a0))
              notification_ids_fresh
              (Jobs.queue_standard utcnow a0)
              (adds_for_refl _) (adds_for_trans _)
              (fun x s => queue_standard_frame utcnow a0 x s)
              standard_users s2 Hfresh2) as [Hfresh3 Hadd3].
  set (s3 := exec (for_each standard_users (Jobs.queue_standard utcnow a0))
                  s2) in *.
  destruct (adds_for_trans _ _ _ _ Hadd2 Hadd3)
    as (created & Hn & Hfor & Ha & Hu & Hseq).
  rewrite Hs1 in Hn, Ha, Hu, Hseq. cbn in Hn, Ha, Hu, Hseq.
  repeat split.
  - rewrite Ha, map_app. apply NoDup_app; [assumption | |].
    + cbn. constructor; [intros [] | constructor].
    + intros x Hx [E|[]]. change (Article.article_id a0 = x) in E.
      rewrite Hptt in E. subst x.
      now apply (rows_of_nil_not_in _ _ F).
  - rewrite Ha, Hseq. apply Forall_app. split.
    + revert Hids. apply Forall_impl. intros; lia.
    + constructor; [cbn; lia | constructor].
  - assumption.
  - exists [a0], created. rewrite Ha, Hn, Hu, Hseq. repeat split.
    + constructor; [|constructor]. split; [lia|]. now rewrite Hptt.
    + revert Hfor. apply Forall_impl. intros n E. lia.
    + lia.
  - intros _. unfold rows_of. rewrite Ha, filter_app. cbn.
    rewrite String.eqb_refl. intros E. apply app_eq_nil in E as [_ E].
    discriminate E.
Qed.

Lemma grows_keeps_rows (d d' : DB) (ptt_id : string) :
  grows d d' -> rows_of d ptt_id <> [] -> rows_of d' ptt_id <> [].
Proof.
  intros (na & nn & Ha & _) Hne E. unfold rows_of in E.
  rewrite Ha, rows_of_app in E. apply app_eq_nil in E as [E _]. contradiction.
Qed.

(** The loop over the crawled posts. *)
Lemma feed_loop (utcnow : nat -> Z) (push_message : nat -> bool)
    (premium_users standard_users : list User.t)
    (feed : list ArticleData.t) (s : St) :
  db_wf (db s) ->
  let s' := exec (for_each feed
                    (Jobs.process_candidate utcnow push_message
                       premium_users standard_users)) s in
  db_wf (db s') /\ grows (db s) (db s') /\
  (forall c, In c feed -> PyStr.truthy (ArticleData.article_id c) = true ->
             rows_of (db s') (ArticleData.article_id c) <> []).
Proof.
  revert s. induction feed as [|x rest IH]; intros s Hwf s'; subst s'.
  - cbn. repeat split; try apply Hwf; [apply grows_refl | contradiction].
  - rewrite exec_for_each_cons.
    destruct (process_candidate_step utcnow push_message premium_users
                standard_users x s Hwf) as (Hwf1 & Hg1 & Hx).
    destruct (IH _ Hwf1) as (Hwf2 & Hg2 & Hrest).
    split; [assumption|]. split; [eapply grows_trans; eassumption|].
    intros c [->|Hin] Ht.
    + eapply grows_keeps_rows; [exact Hg2 | now apply Hx].
    + now apply Hrest.
Qed.

(** A whole tick: it only adds rows, and inside the window every post of
    the feed that has an id is in the store afterwards. *)
Lemma crawl_and_notify_grows (settings : Config.Settings)
    (utcnow : nat -> Z) (push_message : nat -> bool)
    (feed : list ArticleData.t) (s : St) :
  db_wf (db s) ->
  let s' := exec (Jobs.crawl_and_notify settings utcnow push_message feed) s in
  db_wf (db s') /\ grows (db s) (db s') /\
  (result (Jobs.is_within_schedule_hours settings utcnow) s = true ->
   forall c, In c feed -> PyStr.truthy (ArticleData.article_id c) = true ->
             rows_of (db s') (ArticleData.article_id c) <> []).
Proof.
  intros Hwf s'. subst s'. unfold Jobs.crawl_and_notify.
  rewrite exec_bind.
  set (sa := exec (Jobs.is_within_schedule_hours settings utcnow) s).
  assert (Hsa : db sa = db s) by reflexivity.
  destruct (result (Jobs.is_within_schedule_hours settings utcnow) s);
    cbn [negb].
  2:{ change (exec (ret tt) sa) with sa. rewrite Hsa.
      repeat split; try apply Hwf; [apply grows_refl | discriminate]. }
  rewrite exec_bind.
  set (sb := exec (Jobs.crawl_new_articles feed) sa).
  assert (Hsb : db sb = db s) by reflexivity.
  change (result (Jobs.crawl_new_articles feed) sa) with feed.
  destruct feed as [|x rest].
  { change (exec (ret tt) sb) with sb. rewrite Hsb.
    repeat split; try apply Hwf; [apply grows_refl | contradiction]. }
  rewrite exec_bind.
  change (exec (query Crud.get_all_active_users) sb) with sb.
  rewrite <- Hsb in Hwf.
  destruct (feed_loop utcnow push_message
              (filter (fun u => UserTier_eqb (User.tier u) PREMIUM)
                      (result (query Crud.get_all_active_users) sb))
              (filter (fun u => UserTier_eqb (User.tier u) STANDARD)
                      (result (query Crud.get_all_active_users) sb))
              (x :: rest) sb Hwf) as (Hwf' & Hg & Hrows).
  rewrite Hsb in Hg. repeat split; try apply Hwf'; try assumption.
  intros _. exact Hrows.
Qed.

(** Growth leaves the rows and the notifications of a stored post alone. *)
Lemma grows_frame (d d' : DB) (a : Article.t) :
  articles_wf d -> grows d d' -> In a (articles d) ->
  rows_of d' (Article.article_id a) = rows_of d (Article.article_id a) /\
  records_of_article d' (Article.id a) = records_of_article d (Article.id a).
Proof.
  intros [_ Hids] (na & nn & Ha & Hn & Fa & Fn & _ & _) Hin.
  assert (Hlt : (Article.id a < articles_id_seq d)%nat).
  { rewrite Forall_forall in Hids. now apply Hids. }
  split.
  - unfold rows_of at 1. rewrite Ha, rows_of_app.
    rewrite (filter_none _ na); [apply app_nil_r|].
    intros b Hb. rewrite Forall_forall in Fa. destruct (Fa b Hb) as [_ Hrows].
    apply String.eqb_neq. intros E. apply rows_of_nil_not_in in Hrows.
    apply Hrows. rewrite E. now apply in_map.
  - unfold records_of_article. rewrite Hn, filter_app.
    rewrite (filter_none _ nn); [apply app_nil_r|].
    intros n Hn'. rewrite Forall_forall in Fn. specialize (Fn n Hn').
    apply Nat.eqb_neq. lia.
Qed.

(** C1.  When a candidate with an article id is in the feed of a tick that
    runs inside the schedule window, and again in the feed of the tick after
    it, then after both ticks the store holds exactly one article under that
    id, the very row the first tick left there, and the second tick has
    added no notification of that article for any subscriber. *)
Theorem intake_is_idempotent
    (settings : Config.Settings) (utcnow : nat -> Z)
    (push_message : nat -> bool) (feed1 feed2 : list ArticleData.t)
    (c : ArticleData.t) (s0 : St) :
  db_wf (db s0) ->
  In c feed1 -> In c feed2 ->
  ArticleData.article_id c <> ""%string ->
  result (Jobs.is_within_schedule_hours settings utcnow) s0 = true ->
  let tick := Jobs.crawl_and_notify settings utcnow push_message in
  let s1 := exec (tick feed1) s0 in
  let s2 := exec (tick feed2) s1 in
  exists a,
    rows_of (db s1) (ArticleData.article_id c) = [a] /\
    rows_of (db s2) (ArticleData.article_id c) = [a] /\
    records_of_article (db s2) (Article.id a)
      = records_of_article (db s1) (Article.id a) /\
    (forall u, records_for (db s2) u (Article.id a)
               = records_for (db s1) u (Article.id a)).
Proof.
  intros Hwf Hin1 Hin2 Hid Hwithin tick s1 s2.
  destruct (crawl_and_notify_grows settings utcnow push_message feed1 s0 Hwf)
    as (Hwf1 & _ & Hrows1).
  fold tick in Hwf1, Hrows1. fold s1 in Hwf1, Hrows1.
  specialize (Hrows1 Hwithin c Hin1 (proj2 (truthy_spec _) Hid)).
  destruct (crawl_and_notify_grows settings utcnow push_message feed2 s1 Hwf1)
    as (_ & Hg2 & _).
  fold tick in Hg2. fold s2 in Hg2.
  destruct (unique_row Article.article_id (articles (db s1))
              (ArticleData.article_id c) (proj1 (proj1 Hwf1)) Hrows1)
    as (a & Hrow & Ha & Hk).
  destruct (grows_frame (db s1) (db s2) a (proj1 Hwf1) Hg2 Ha) as [Hr Hrec].
  rewrite Hk in Hr.
  exists a. split; [exact Hrow|]. split; [now rewrite Hr|].
  split; [exact Hrec|].
  intros u. unfold records_for.
  destruct Hg2 as (na & nn & _ & Hn & _ & Fn & _ & _).
  rewrite Hn, filter_app, (filter_none _ nn); [apply app_nil_r|].
  intros n Hn'. rewrite Forall_forall in Fn. specialize (Fn n Hn').
  destruct Hwf1 as [[_ Hids] _]. rewrite Forall_forall in Hids.
  specialize (Hids a Ha). apply andb_false_iff. right.
  apply Nat.eqb_neq. lia.
Qed.

(** The post of the fixtures, fed to two ticks at 08:00 in Taipei. *)
Lemma intake_is_idempotent_witness :
  let tick :=
    Jobs.crawl_and_notify Config.settings (fun _ => 0) (fun _ => true) in
  let s0 := mkSt two_users [] 0 in
  let s1 := exec (tick [loan_post]) s0 in
  let s2 := exec (tick [loan_post]) s1 in
  db_wf (db s0) /\
  result (Jobs.is_within_schedule_hours Config.settings (fun _ => 0)) s0
    = true /\
  exists a,
    rows_of (db s1) (ArticleData.article_id loan_post) = [a] /\
    rows_of (db s2) (ArticleData.article_id loan_post) = [a] /\
    records_of_article (db s2) (Article.id a)
      = records_of_article (db s1) (Article.id a) /\
    (forall u, records_for (db s2) u (Article.id a)
               = records_for (db s1) u (Article.id a)).
Proof.
  assert (Hwf : db_wf two_users).
  { repeat split; constructor. }
  split; [exact Hwf|]. split; [reflexivity|].
  apply (intake_is_idempotent Config.settings (fun _ => 0) (fun _ => true)
           [loan_post] [loan_post] loan_post (mkSt two_users [] 0)).
  - exact Hwf.
  - now left.
  - now left.
  - discriminate.
  - reflexivity.
Defined.

(** The scenario of the specification: one matching post, one PREMIUM
    subscriber whose push is delivered.  The post is stored once, its
    notification is created and marked sent, and a second tick with the
    same feed adds no article and no notification. *)
Lemma intake_scenario :
  let store := mkDB [] [User.mk 1 "r1" PREMIUM true 0] [] 1 1 in
  let feed :=
    Parser.filter_by_keywords
      [ArticleData.mk "A1" "[請益] 信貸利率" "u1" "..." "" None]
      ["信貸"%string] in
  let tick :=
    Jobs.crawl_and_notify Config.settings (fun _ => 0) (fun _ => true) feed in
  let s1 := exec tick (mkSt store [] 0) in
  let s2 := exec tick s1 in
  map Article.article_id (articles (db s1)) = ["A1"%string] /\
  notifications (db s1) = [Notification.mk 1 1 1 (Some 0) 0] /\
  articles (db s2) = articles (db s1) /\
  notifications (db s2) = notifications (db s1) /\
  trace s2 = trace s1 ++ [Crawl].
Proof. vm_compute. repeat split. Qed.

(** ** The batched tier *)

(** C3 at a backlog of eleven.  The run makes one push for the subscriber;
    the carousel holds the ten oldest posts, the eleventh is not in it; the
    push succeeds, and all eleven notifications, the one of the eleventh
    post among them, come out marked sent. *)
Lemma hourly_marks_records_left_out_of_the_bundle :
  let s := mkSt (backlog 11) [] 0 in
  let s' := exec (Jobs.send_hourly_notifications (fun _ => 3600)
                    (fun _ => true)) s in
  trace s' =
    [Push "U-standard" (map dict_of (map numbered_article (seq 1 10))) true] /\
  ~ In (dict_of (numbered_article 11))
       (map dict_of (map numbered_article (seq 1 10))) /\
  Crud.get_pending_notifications_for_user (db s) 2
    = map (fun i => Notification.mk i 2 i None 0) (seq 1 11) /\
  notifications (db s')
    = map (fun i => Notification.mk i 2 i (Some 3600) 0) (seq 1 11).
Proof.
  vm_compute. repeat split.
  intros H. repeat (destruct H as [H|H]; [discriminate H|]). exact H.
Qed.

(** With ids that are unique, the UPDATE by id of the selected rows is the
    update of the selected rows. *)
Lemma mark_selected (now : Z) (d : DB) (p : Notification.t -> bool) :
  NoDup (map Notification.id (notifications d)) ->
  notifications
    (Crud.mark_notifications_sent now d
       (map Notification.id (filter p (notifications d))))
  = map (fun n => if p n then Notification.set_sent_at now n else n)
        (notifications d).
Proof.
  intros Hnd. unfold Crud.mark_notifications_sent. cbn.
  apply map_ext_in. intros n Hn.
  destruct (p n) eqn:P.
  - assert (Crud.id_in (map Notification.id (filter p (notifications d)))
                       (Notification.id n) = true) as ->; [|reflexivity].
    apply id_in_spec, in_map, filter_In. now split.
  - destruct (Crud.id_in (map Notification.id (filter p (notifications d)))
                         (Notification.id n)) eqn:E; [|reflexivity].
    apply id_in_spec, in_map_iff in E as (m & Eid & Hm).
    apply filter_In in Hm as [Hm Pm].
    assert (m = n) by (eapply NoDup_map_inj; eassumption).
    subst m. congruence.
Qed.

Lemma prepare_articles_spec (d : DB) (pend : list Notification.t)
    (arts : list ArticleDict) :
  Jobs.prepare_articles d pend = Some arts ->
  Forall2 (fun n x => option_map dict_of (Jobs.article_of d n) = Some x)
          pend arts.
Proof.
  revert arts. induction pend as [|n pend IH]; intros arts H; cbn in H.
  - injection H as <-. constructor.
  - destruct (Jobs.article_of d n) as [a|] eqn:Ea; [|discriminate].
    destruct (Jobs.prepare_articles d pend) as [rest|]; [|discriminate].
    injection H as <-. constructor; [now rewrite Ea | now apply IH].
Qed.

(** The turn of one STANDARD recipient who has something pending: one push,
    carrying the ten oldest pending posts at most; a refused push leaves the
    store as it was; an accepted one marks every pending notification of the
    recipient sent, those beyond the tenth included, and changes nothing
    else. *)
Theorem hourly_turn_of_one_recipient
    (utcnow : nat -> Z) (push_message : nat -> bool) (user : User.t)
    (s : St) (arts : list ArticleDict) :
  NoDup (map Notification.id (notifications (db s))) ->
  let pend := Crud.get_pending_notifications_for_user (db s) (User.id user) in
  pend <> [] ->
  Jobs.prepare_articles (db s) pend = Some arts ->
  let s' := exec (Jobs.hourly_loop utcnow push_message [user]) s in
  let ok := push_message (calls s) in
  Forall2 (fun n x => option_map dict_of (Jobs.article_of (db s) n) = Some x)
          pend arts /\
  trace s' = trace s ++ [Push (User.line_user_id user) (firstn 10 arts) ok] /\
  (ok = false -> db s' = db s) /\
  (ok = true ->
   notifications (db s') =
     map (fun n => if pending_of (User.id user) n
                   then Notification.set_sent_at (utcnow (S (calls s))) n
                   else n)
         (notifications (db s)) /\
   articles (db s') = articles (db s) /\ users (db s') = users (db s)).
Proof.
  intros Hnd pend Hne Hprep s' ok.
  split; [now apply prepare_articles_spec|].
  assert (Hlen : List.length arts = List.length pend).
  { symmetry. eapply Forall2_length. apply prepare_articles_spec, Hprep. }
  subst s'. unfold exec, Jobs.hourly_loop, bind, query.
  cbn [fst snd]. fold pend. destruct pend as [|n0 pend0] eqn:Ep;
    [now elim Hne|].
  rewrite Hprep.
  assert (Hmark : forall now,
    notifications (Crud.mark_notifications_sent now (db s)
                     (map Notification.id (n0 :: pend0)))
    = map (fun n => if pending_of (User.id user) n
                    then Notification.set_sent_at now n else n)
          (notifications (db s))).
  { intros now. rewrite <- Ep. apply (mark_selected now (db s)). exact Hnd. }
  destruct arts as [|x [|y rest]]; [discriminate Hlen| |].
  - destruct x as [x_title x_author x_url x_post_time].
    unfold LineBot.push_batch_notification,
      LineBot.push_article_notification, Jobs.mark_notifications_sent,
      bind, ask, emit, commit, ret.
    cbn [fst snd db trace calls firstn d_title d_author d_url d_post_time].
    fold ok.
    destruct ok; cbn [fst snd db trace calls].
    + split; [reflexivity|]. split; [discriminate|]. intros _.
      split; [apply Hmark | split; reflexivity].
    + split; [reflexivity|]. split; [reflexivity | discriminate].
  - unfold LineBot.push_batch_notification,
      LineBot.create_batch_flex_message, Jobs.mark_notifications_sent,
      bind, ask, emit, commit, ret.
    cbn [fst snd db trace calls]. fold ok.
    destruct ok; cbn [fst snd db trace calls].
    + split; [reflexivity|]. split; [discriminate|]. intros _.
      split; [apply Hmark | split; reflexivity].
    + split; [reflexivity|]. split; [reflexivity | discriminate].
Qed.

(** A backlog of three, delivered. *)
Lemma hourly_turn_of_one_recipient_witness :
  let s := mkSt (backlog 3) [] 0 in
  let s' := exec (Jobs.hourly_loop (fun _ => 3600) (fun _ => true)
                    [User.mk 2 "U-standard" STANDARD true 0]) s in
  trace s' =
    [Push "U-standard" (map dict_of (map numbered_article (seq 1 3))) true] /\
  notifications (db s')
    = map (fun i => Notification.mk i 2 i (Some 3600) 0) (seq 1 3).
Proof.
  destruct (hourly_turn_of_one_recipient (fun _ => 3600) (fun _ => true)
              (User.mk 2 "U-standard" STANDARD true 0)
              (mkSt (backlog 3) [] 0)
              (map dict_of (map numbered_article (seq 1 3))))
    as (_ & Htrace & _ & Hsent).
  - vm_compute. repeat constructor; cbn; intuition discriminate.
  - discriminate.
  - reflexivity.
  - split; [exact Htrace|]. destruct (Hsent eq_refl) as (Hn & _).
    rewrite Hn. reflexivity.
Defined.

(** The loop of [send_hourly_notifications] is its turns one after the
    other, as long as every pending notification has its article (where one
    has none the run ends at that recipient); a recipient with nothing
    pending is passed over with no push and no write. *)
Theorem hourly_loop_turn_by_turn
    (utcnow : nat -> Z) (push_message : nat -> bool) (user : User.t)
    (rest : list User.t) (s : St) :
  let pend := Crud.get_pending_notifications_for_user (db s) (User.id user) in
  Jobs.prepare_articles (db s) pend <> None ->
  exec (Jobs.hourly_loop utcnow push_message (user :: rest)) s
    = exec (Jobs.hourly_loop utcnow push_message rest)
           (exec (Jobs.hourly_loop utcnow push_message [user]) s) /\
  (pend = [] -> exec (Jobs.hourly_loop utcnow push_message [user]) s = s).
Proof.
  intros pend Hprep.
  unfold exec. cbn [Jobs.hourly_loop]. unfold bind, query. cbn [fst snd].
  fold pend. destruct pend as [|n0 pend0]; [split; reflexivity|].
  destruct (Jobs.prepare_articles (db s) (n0 :: pend0)) as [arts|];
    [|now elim Hprep].
  split; [|discriminate].
  destruct (LineBot.push_batch_notification push_message
              (User.line_user_id user) arts s) as [ok s1].
  destruct ok.
  - destruct (Jobs.mark_notifications_sent utcnow
                (map Notification.id (n0 :: pend0)) s1) as [[] s2].
    reflexivity.
  - reflexivity.
Qed.

(** Two recipients, the first with nothing pending. *)
Lemma hourly_loop_turn_by_turn_witness :
  let idle := User.mk 7 "U-idle" STANDARD true 0 in
  let busy := User.mk 2 "U-standard" STANDARD true 0 in
  let run := Jobs.hourly_loop (fun _ => 3600) (fun _ => true) in
  let s := mkSt (backlog 3) [] 0 in
  exec (run [idle]) s = s /\
  exec (run [idle; busy]) s = exec (run [busy]) s.
Proof.
  destruct (hourly_loop_turn_by_turn (fun _ => 3600) (fun _ => true)
              (User.mk 7 "U-idle" STANDARD true 0)
              [User.mk 2 "U-standard" STANDARD true 0]
              (mkSt (backlog 3) [] 0)) as [Hloop Hidle].
  - discriminate.
  - split; [now apply Hidle|]. rewrite Hloop. now rewrite Hidle.
Defined.

(** ** The personalized path *)

(** C7, as stated, fails.  With a limit of one, an empty ledger and the
    default delayed sending, two matching posts by two authors in one batch
    are both queued: two timers are started, the ledger is still empty, and
    the second post never sees the quota used up. *)
Lemma delayed_batch_queues_both :
  let batch :=
    AutoMailService.process_articles_batch
      (mail_settings 1 ["信貸"%string]) PyStr.lower_of_ascii
      (fun _ => new_year_2024)
      Config.Asia_Taipei (fun _ => ("title", "body")%string)
      (fun _ => true) (fun _ => true) (fun _ => 200)
      [post_a; post_b] false in
  let s' := exec batch fresh_service in
  result batch fresh_service = AutoMailService.mkStats 2 0 0 /\
  map (fun timer => AutoMailService.md_ptt_id (fst timer))
      (AutoMailService.scheduled s') = ["u1"; "u5"]%string /\
  MailTracker.sent_mails (AutoMailService.tracker s') = [] /\
  MailTracker.can_send_today 1
    (MailTracker.date_today Config.Asia_Taipei new_year_2024)
    (AutoMailService.tracker s') = true.
Proof. vm_compute. repeat split. Qed.

(** Runs the sequencing of the service on a state that is spelled out. *)
Ltac run_service :=
  cbv beta iota zeta
      delta [bind ret AutoMailService.query AutoMailService.ask
             AutoMailService.emit AutoMailService.write
             AutoMailService.set_logged_in AutoMailService.start_timer
             AutoMailService.tracker AutoMailService.is_logged_in
             AutoMailService.scheduled AutoMailService.mail_trace
             AutoMailService.mail_calls negb andb orb].

(** [process_article] on a post it accepts, sent at once and delivered. *)
Lemma process_article_sent
    (cfg : Config.AutoMailSettings) (utcnow : nat -> Z) (local_tz : Z)
    (generate : nat -> string * string) (ptt_login ptt_mail : nat -> bool)
    (randint : nat -> Z) (a : ArticleData.t)
    (t : MailTracker.Table) (timers : list (AutoMailService.MailData * Z))
    (tr : list AutoMailService.MailEvent) (n : nat) :
  complete a ->
  MailTracker.has_processed_article t (ArticleData.article_id a) = false ->
  MailTracker.has_sent_to t (ArticleData.author a) = false ->
  MailTracker.can_send_today (Config.DAILY_LIMIT cfg)
    (MailTracker.date_today local_tz (utcnow n)) t = true ->
  usable (generate (S n)) ->
  ptt_login (S (S n)) = true -> ptt_mail (S (S (S n))) = true ->
  AutoMailService.process_article cfg utcnow local_tz generate ptt_login
    ptt_mail randint a true
    (AutoMailService.mkService t false timers tr n)
  = (true,
     AutoMailService.mkService
       (MailTracker.record_sent (utcnow (S (S (S (S n))))) t
          (ArticleData.author a) (ArticleData.article_id a)
          (ArticleData.title a) (fst (generate (S n))) true)
       false timers
       (tr ++
        [AutoMailService.Generate (ArticleData.title a) (ArticleData.author a);
         AutoMailService.Login true;
         AutoMailService.Mail (ArticleData.author a) (fst (generate (S n)))
           (snd (generate (S n))) true;
         AutoMailService.Logout])
       (S (S (S (S (S n)))))).
Proof.
  intros (H1 & H2 & H3) Hseen Hcontacted Hcan (G1 & G2) Hlogin Hmail.
  apply truthy_true in H1, H2, H3, G1, G2.
  unfold AutoMailService.process_article, AutoMailService._send_mail,
    AutoMailService.login, AutoMailService.send_mail, AutoMailService.logout,
    AutoMailService.record_sent, AutoMailService.can_send_today.
  run_service. rewrite H1, H2, H3, Hseen, Hcontacted, Hcan.
  destruct (generate (S n)) as [mail_title mail_content]. cbn [fst snd] in *.
  rewrite G1, G2, Hlogin, Hmail.
  rewrite <- !app_assoc. reflexivity.
Qed.

(** [process_article] on a post it accepts, with the send left to a timer. *)
Lemma process_article_scheduled
    (cfg : Config.AutoMailSettings) (utcnow : nat -> Z) (local_tz : Z)
    (generate : nat -> string * string) (ptt_login ptt_mail : nat -> bool)
    (randint : nat -> Z) (a : ArticleData.t)
    (t : MailTracker.Table) (logged : bool)
    (timers : list (AutoMailService.MailData * Z))
    (tr : list AutoMailService.MailEvent) (n : nat) :
  complete a ->
  MailTracker.has_processed_article t (ArticleData.article_id a) = false ->
  MailTracker.has_sent_to t (ArticleData.author a) = false ->
  MailTracker.can_send_today (Config.DAILY_LIMIT cfg)
    (MailTracker.date_today local_tz (utcnow n)) t = true ->
  usable (generate (S n)) ->
  AutoMailService.process_article cfg utcnow local_tz generate ptt_login
    ptt_mail randint a false
    (AutoMailService.mkService t logged timers tr n)
  = (true,
     AutoMailService.mkService t logged
       (timers ++ [(mail_for a (generate (S n)), randint (S (S n)))])
       (tr ++
        [AutoMailService.Generate (ArticleData.title a) (ArticleData.author a)])
       (S (S (S n)))).
Proof.
  intros (H1 & H2 & H3) Hseen Hcontacted Hcan (G1 & G2).
  apply truthy_true in H1, H2, H3, G1, G2.
  unfold AutoMailService.process_article, AutoMailService._schedule_mail,
    AutoMailService.can_send_today, mail_for.
  run_service. rewrite H1, H2, H3, Hseen, Hcontacted, Hcan.
  destruct (generate (S n)) as [mail_title mail_content]. cbn [fst snd] in *.
  rewrite G1, G2. reflexivity.
Qed.

(** C7, amended.  With a limit of one, an empty ledger and no open session,
    take two matching posts in one batch.  Sent at once ([immediate]), with
    the first mail generated, delivered and recorded on the date the tracker
    takes for today at the next check, exactly the first is sent: its row is
    the only one in the ledger, no timer is started, and the loop stops at
    the second post, which sees [can_send_today] false and leaves no row.
    With delayed sending the ledger is written only when a timer fires, so
    both posts are queued. *)
Theorem batch_under_a_daily_limit_of_one
    (cfg : Config.AutoMailSettings) (lower : string -> string)
    (utcnow : nat -> Z) (local_tz : Z)
    (generate : nat -> string * string) (ptt_login ptt_mail : nat -> bool)
    (randint : nat -> Z) (a b : ArticleData.t)
    (s : AutoMailService.Service) :
  Config.DAILY_LIMIT cfg = 1 ->
  MailTracker.sent_mails (AutoMailService.tracker s) = [] ->
  AutoMailService.is_logged_in s = false ->
  AutoMailService.check_article_keywords cfg lower a = true ->
  AutoMailService.check_article_keywords cfg lower b = true ->
  complete a -> complete b ->
  let n := AutoMailService.mail_calls s in
  let batch :=
    AutoMailService.process_articles_batch cfg lower utcnow local_tz
      generate ptt_login ptt_mail randint [a; b] in
  (usable (generate (2 + n)%nat) ->
   ptt_login (3 + n)%nat = true -> ptt_mail (4 + n)%nat = true ->
   MailTracker.DATE (utcnow (5 + n)%nat)
     = MailTracker.date_today local_tz (utcnow (6 + n)%nat) ->
   let s' := exec (batch true) s in
   result (batch true) s = AutoMailService.mkStats 1 0 0 /\
   MailTracker.sent_mails (AutoMailService.tracker s') =
     [SentMail.mk (MailTracker.sent_mails_seq (AutoMailService.tracker s))
        (ArticleData.author a) (ArticleData.article_id a)
        (ArticleData.title a) (fst (generate (2 + n)%nat))
        (utcnow (5 + n)%nat) true] /\
   AutoMailService.scheduled s' = AutoMailService.scheduled s /\
   AutoMailService.mail_trace s' =
     AutoMailService.mail_trace s ++
     [AutoMailService.Generate (ArticleData.title a) (ArticleData.author a);
      AutoMailService.Login true;
      AutoMailService.Mail (ArticleData.author a)
        (fst (generate (2 + n)%nat)) (snd (generate (2 + n)%nat)) true;
      AutoMailService.Logout] /\
   MailTracker.can_send_today (Config.DAILY_LIMIT cfg)
     (MailTracker.date_today local_tz (utcnow (6 + n)%nat))
     (AutoMailService.tracker s') = false) /\
  (usable (generate (2 + n)%nat) -> usable (generate (6 + n)%nat) ->
   let s' := exec (batch false) s in
   result (batch false) s = AutoMailService.mkStats 2 0 0 /\
   AutoMailService.scheduled s' =
     AutoMailService.scheduled s ++
     [(mail_for a (generate (2 + n)%nat), randint (3 + n)%nat);
      (mail_for b (generate (6 + n)%nat), randint (7 + n)%nat)] /\
   AutoMailService.tracker s' = AutoMailService.tracker s).
Proof.
  intros Hlimit Hempty Hout Ka Kb Ca Cb n batch.
  destruct s as [[rows seq] logged timers tr calls].
  cbn in Hempty, Hout, n. subst rows logged n batch.
  assert (Hcan0 : forall today,
            MailTracker.can_send_today (Config.DAILY_LIMIT cfg) today
              (MailTracker.mkTable [] seq) = true)
    by (intros; rewrite Hlimit; reflexivity).
  split.
  - intros Hgen Hlogin Hmail Hdate s'. subst s'. cbn [Nat.add] in *.
    assert (Hcan1 :
      MailTracker.can_send_today (Config.DAILY_LIMIT cfg)
        (MailTracker.date_today local_tz (utcnow (6 + calls)%nat))
        (MailTracker.record_sent (utcnow (5 + calls)%nat)
           (MailTracker.mkTable [] seq) (ArticleData.author a)
           (ArticleData.article_id a) (ArticleData.title a)
           (fst (generate (2 + calls)%nat)) true) = false).
    { cbn [Nat.add]. rewrite Hlimit. unfold MailTracker.can_send_today,
        MailTracker.get_today_count, MailTracker.record_sent.
      cbn [MailTracker.sent_mails app filter SentMail.sent_at
           SentMail.success].
      rewrite Hdate, Z.eqb_refl. reflexivity. }
    cbn [Nat.add] in Hcan1.
    unfold exec, result, AutoMailService.process_articles_batch,
      AutoMailService.batch_loop, AutoMailService.can_send_today.
    rewrite Ka, Kb. run_service. rewrite Hcan0.
    rewrite (process_article_sent cfg utcnow local_tz generate ptt_login
               ptt_mail randint a); try assumption; try reflexivity;
      try apply Hcan0.
    cbv beta iota zeta. cbn [Z.add Pos.add]. rewrite Hcan1.
    cbn [fst snd AutoMailService.tracker AutoMailService.scheduled
         AutoMailService.mail_trace].
    repeat split. exact Hcan1.
  - intros Hg1 Hg2 s'. subst s'. cbn [Nat.add] in *.
    unfold exec, result, AutoMailService.process_articles_batch,
      AutoMailService.batch_loop, AutoMailService.can_send_today.
    rewrite Ka, Kb. run_service. rewrite Hcan0.
    rewrite (process_article_scheduled cfg utcnow local_tz generate ptt_login
               ptt_mail randint a); try assumption; try reflexivity;
      try apply Hcan0.
    cbv beta iota zeta. rewrite Hcan0.
    rewrite (process_article_scheduled cfg utcnow local_tz generate ptt_login
               ptt_mail randint b); try assumption; try reflexivity;
      try apply Hcan0.
    cbn [fst snd AutoMailService.tracker AutoMailService.scheduled
         AutoMailService.mail_trace Z.add Pos.add].
    rewrite <- app_assoc. repeat split.
Qed.

(** The two posts of the fixtures under a limit of one, on New Year's Day
    2024 in Taipei, every mail generated and delivered. *)
Lemma batch_under_a_daily_limit_of_one_witness :
  let batch :=
    AutoMailService.process_articles_batch
      (mail_settings 1 ["信貸"%string]) PyStr.lower_of_ascii
      (fun _ => new_year_2024)
      Config.Asia_Taipei (fun _ => ("title", "body")%string)
      (fun _ => true) (fun _ => true) (fun _ => 200) [post_a; post_b] in
  (result (batch true) fresh_service = AutoMailService.mkStats 1 0 0 /\
   map SentMail.ptt_id
       (MailTracker.sent_mails
          (AutoMailService.tracker (exec (batch true) fresh_service)))
   = ["u1"%string]) /\
  (result (batch false) fresh_service = AutoMailService.mkStats 2 0 0 /\
   AutoMailService.tracker (exec (batch false) fresh_service)
   = MailTracker.empty).
Proof.
  assert (Ca : complete post_a) by (repeat split; discriminate).
  assert (Cb : complete post_b) by (repeat split; discriminate).
  assert (U : usable ("title", "body")%string) by (split; discriminate).
  destruct (batch_under_a_daily_limit_of_one
              (mail_settings 1 ["信貸"%string]) PyStr.lower_of_ascii
              (fun _ => new_year_2024)
              Config.Asia_Taipei (fun _ => ("title", "body")%string)
              (fun _ => true) (fun _ => true) (fun _ => 200)
              post_a post_b fresh_service
              eq_refl eq_refl eq_refl eq_refl eq_refl Ca Cb)
    as [Hnow Hlater].
  destruct (Hnow U eq_refl eq_refl eq_refl) as (Hstats & Hrows & _).
  destruct (Hlater U U) as (Hstats' & _ & Htracker).
  split; split; try assumption.
  rewrite Hrows. reflexivity.
Defined.

(** [process_article] passes over a post whose article id is already in the
    ledger, whatever the outcome recorded for it, and a post whose author
    has already been sent a mail with success: it answers [False], calls
    nothing outside and writes nothing. *)
Theorem process_article_skips_known
    (cfg : Config.AutoMailSettings) (utcnow : nat -> Z) (local_tz : Z)
    (generate : nat -> string * string) (ptt_login ptt_mail : nat -> bool)
    (randint : nat -> Z) (a : ArticleData.t) (immediate : bool)
    (s : AutoMailService.Service) :
  MailTracker.has_processed_article (AutoMailService.tracker s)
    (ArticleData.article_id a) = true \/
  MailTracker.has_sent_to (AutoMailService.tracker s)
    (ArticleData.author a) = true ->
  AutoMailService.process_article cfg utcnow local_tz generate ptt_login
    ptt_mail randint a immediate s = (false, s).
Proof.
  intros Hknown. unfold AutoMailService.process_article. cbv zeta.
  destruct (negb (PyStr.truthy (ArticleData.article_id a) &&
                  PyStr.truthy (ArticleData.author a) &&
                  PyStr.truthy (ArticleData.title a))); [reflexivity|].
  unfold bind, AutoMailService.query, ret.
  destruct (MailTracker.has_processed_article (AutoMailService.tracker s)
              (ArticleData.article_id a)); [reflexivity|].
  destruct Hknown as [Hseen|Hcontacted]; [discriminate|].
  now rewrite Hcontacted.
Qed.

(** A second post by the author of a delivered mail. *)
Lemma process_article_skips_known_witness :
  let world_process :=
    AutoMailService.process_article
      (mail_settings 30 ["信貸"%string]) (fun _ => new_year_2024)
      Config.Asia_Taipei (fun _ => ("title", "body")%string)
      (fun _ => true) (fun _ => true) (fun _ => 200) in
  let s := snd (world_process post_a true fresh_service) in
  let again :=
    ArticleData.mk "M.1701234573.A.C03" "[請益] 信貸" "u1" "..." "" None in
  MailTracker.has_sent_to (AutoMailService.tracker s) "u1" = true /\
  world_process again true s = (false, s) /\
  world_process again false s = (false, s).
Proof.
  split; [reflexivity|].
  split; apply process_article_skips_known; right; reflexivity.
Defined.

(* ================================================================== *)
(** * Further properties of the code *)

(** ** The mail ledger ([auto_mail/mail_tracker.py]) *)

Lemma count_positive_app {A} (p : A -> bool) (l : list A) (x : A) :
  Nat.ltb 0 (List.length (filter p (l ++ [x])))
  = (p x || Nat.ltb 0 (List.length (filter p l)))%bool.
Proof.
  rewrite filter_app, length_app. cbn [filter].
  destruct (p x); cbn [List.length orb].
  - apply Nat.ltb_lt. lia.
  - now rewrite Nat.add_0_r.
Qed.

(** What is recorded can be looked up: once [record_sent] has run for an
    article, [has_processed_article] knows the article whether the send
    succeeded or not, while [has_sent_to] learns the recipient only from a
    success; no other article and no other recipient is affected. *)
Theorem record_sent_then_lookup
    (now : Z) (t : MailTracker.Table)
    (ptt_id article_id article_title mail_title : string) (success : bool) :
  let t' := MailTracker.record_sent now t ptt_id article_id article_title
              mail_title success in
  MailTracker.has_processed_article t' article_id = true /\
  MailTracker.has_sent_to t' ptt_id
    = (success || MailTracker.has_sent_to t ptt_id)%bool /\
  (forall other, other <> article_id ->
     MailTracker.has_processed_article t' other
     = MailTracker.has_processed_article t other) /\
  (forall other, other <> ptt_id ->
     MailTracker.has_sent_to t' other = MailTracker.has_sent_to t other).
Proof.
  intros t'. subst t'.
  unfold MailTracker.has_processed_article, MailTracker.has_sent_to,
    MailTracker.record_sent.
  cbn [MailTracker.sent_mails]. rewrite !count_positive_app.
  cbn [SentMail.article_id SentMail.ptt_id SentMail.success].
  rewrite !String.eqb_refl. cbn [andb orb]. repeat split.
  - intros other Hne. rewrite count_positive_app.
    cbn [SentMail.article_id].
    apply not_eq_sym, String.eqb_neq in Hne. now rewrite Hne.
  - intros other Hne. rewrite count_positive_app.
    cbn [SentMail.ptt_id SentMail.success].
    apply not_eq_sym, String.eqb_neq in Hne. now rewrite Hne.
Qed.

(** ** Sending one mail ([auto_mail/auto_mail_service.py]) *)

(** Every run of [_send_mail] leaves exactly one new row in the ledger,
    whose success flag is the value returned, and ends with the session
    closed, whether the login was refused, the mail was refused or it went
    out; it returns [True] exactly when the transport accepted the mail,
    and it starts no timer. *)
Theorem send_mail_records_outcome_and_logs_out
    (utcnow : nat -> Z) (ptt_login ptt_mail : nat -> bool)
    (mail_data : AutoMailService.MailData) (s : AutoMailService.Service) :
  let sent := result (AutoMailService._send_mail utcnow ptt_login ptt_mail
                        mail_data) s in
  let s' := exec (AutoMailService._send_mail utcnow ptt_login ptt_mail
                    mail_data) s in
  AutoMailService.is_logged_in s' = false /\
  (exists sent_at,
     MailTracker.sent_mails (AutoMailService.tracker s') =
     MailTracker.sent_mails (AutoMailService.tracker s) ++
     [SentMail.mk (MailTracker.sent_mails_seq (AutoMailService.tracker s))
        (AutoMailService.md_ptt_id mail_data)
        (AutoMailService.md_article_id mail_data)
        (AutoMailService.md_article_title mail_data)
        (AutoMailService.md_mail_title mail_data) sent_at sent]) /\
  AutoMailService.scheduled s' = AutoMailService.scheduled s /\
  (exists events,
     AutoMailService.mail_trace s' = AutoMailService.mail_trace s ++ events /\
     (sent = true <->
      In (AutoMailService.Mail (AutoMailService.md_ptt_id mail_data)
            (AutoMailService.md_mail_title mail_data)
            (AutoMailService.md_mail_content mail_data) true) events)).
Proof.
  destruct s as [t logged timers tr n].
  unfold exec, result, AutoMailService._send_mail, AutoMailService.login,
    AutoMailService.send_mail, AutoMailService.logout,
    AutoMailService.record_sent.
  destruct logged.
  - run_service. destruct (ptt_mail n); cbn.
    + repeat split; eauto.
      eexists. rewrite <- app_assoc. split; [reflexivity|].
      split; [intros _; left; reflexivity | reflexivity].
    + repeat split; eauto.
      eexists. rewrite <- app_assoc. split; [reflexivity|].
      split; [discriminate|]. intros [H|[H|[]]]; discriminate.
  - run_service. destruct (ptt_login n); cbn.
    + destruct (ptt_mail (S n)); cbn.
      * repeat split; eauto.
        eexists. rewrite <- !app_assoc. split; [reflexivity|].
        split; [intros _; right; left; reflexivity | reflexivity].
      * repeat split; eauto.
        eexists. rewrite <- !app_assoc. split; [reflexivity|].
        split; [discriminate|]. intros [H|[H|[H|[]]]]; discriminate.
    + repeat split; eauto.
      eexists. split; [reflexivity|].
      split; [discriminate|]. intros [H|[]]; discriminate.
Qed.

(** ** A batch of posts ([auto_mail/auto_mail_service.py]) *)

Lemma send_mail_effect
    (utcnow : nat -> Z) (ptt_login ptt_mail : nat -> bool)
    (mail_data : AutoMailService.MailData) (s : AutoMailService.Service) :
  let sent := fst (AutoMailService._send_mail utcnow ptt_login ptt_mail
                     mail_data s) in
  let s' := snd (AutoMailService._send_mail utcnow ptt_login ptt_mail
                   mail_data s) in
  AutoMailService.scheduled s' = AutoMailService.scheduled s /\
  Z.of_nat (List.length (successes (AutoMailService.tracker s')))
  = Z.of_nat (List.length (successes (AutoMailService.tracker s)))
    + (if sent then 1 else 0).
Proof.
  destruct s as [t logged timers tr n].
  unfold AutoMailService._send_mail, AutoMailService.login,
    AutoMailService.send_mail, AutoMailService.logout,
    AutoMailService.record_sent, successes, MailTracker.record_sent.
  destruct logged; run_service.
  - destruct (ptt_mail n); cbn; rewrite filter_app, length_app; cbn;
      split; try reflexivity; lia.
  - destruct (ptt_login n); cbn.
    + destruct (ptt_mail (S n)); cbn; rewrite filter_app, length_app; cbn;
        split; try reflexivity; lia.
    + rewrite filter_app, length_app; cbn. split; [reflexivity | lia].
Qed.

(** What one call of [process_article] can do, in its two modes. *)
Lemma process_article_effect
    (cfg : Config.AutoMailSettings) (utcnow : nat -> Z) (local_tz : Z)
    (generate : nat -> string * string) (ptt_login ptt_mail : nat -> bool)
    (randint : nat -> Z) (a : ArticleData.t) (immediate : bool)
    (s : AutoMailService.Service) :
  let run := AutoMailService.process_article cfg utcnow local_tz generate
               ptt_login ptt_mail randint a immediate s in
  (immediate = false ->
   AutoMailService.tracker (snd run) = AutoMailService.tracker s /\
   Z.of_nat (List.length (AutoMailService.scheduled (snd run)))
   = Z.of_nat (List.length (AutoMailService.scheduled s))
     + (if fst run then 1 else 0)) /\
  (immediate = true ->
   AutoMailService.scheduled (snd run) = AutoMailService.scheduled s /\
   Z.of_nat (List.length (successes (AutoMailService.tracker (snd run))))
   = Z.of_nat (List.length (successes (AutoMailService.tracker s)))
     + (if fst run then 1 else 0)).
Proof.
  destruct s as [t logged timers tr n].
  unfold AutoMailService.process_article, AutoMailService.can_send_today,
    AutoMailService._schedule_mail.
  run_service.
  destruct (PyStr.truthy (ArticleData.article_id a));
    [|cbn; split; intros _; split; try reflexivity; lia].
  destruct (PyStr.truthy (ArticleData.author a));
    [|cbn; split; intros _; split; try reflexivity; lia].
  destruct (PyStr.truthy (ArticleData.title a));
    [|cbn; split; intros _; split; try reflexivity; lia].
  destruct (MailTracker.has_processed_article t (ArticleData.article_id a));
    [cbn; split; intros _; split; try reflexivity; lia|].
  destruct (MailTracker.has_sent_to t (ArticleData.author a));
    [cbn; split; intros _; split; try reflexivity; lia|].
  destruct (MailTracker.can_send_today _ _ t);
    [|cbn; split; intros _; split; try reflexivity; lia].
  destruct (generate (S n)) as [mail_title mail_content].
  destruct (PyStr.truthy mail_title);
    [|cbn; split; intros _; split; try reflexivity; lia].
  destruct (PyStr.truthy mail_content);
    [|cbn; split; intros _; split; try reflexivity; lia].
  destruct immediate.
  - split; [discriminate|]. intros _. apply send_mail_effect.
  - split; [|discriminate]. intros _. cbn. rewrite length_app. cbn.
    split; [reflexivity | lia].
Qed.

Lemma can_send_today_reads_only
    (cfg : Config.AutoMailSettings) (utcnow : nat -> Z) (local_tz : Z)
    (s : AutoMailService.Service) :
  let s' := snd (AutoMailService.can_send_today cfg utcnow local_tz s) in
  AutoMailService.tracker s' = AutoMailService.tracker s /\
  AutoMailService.scheduled s' = AutoMailService.scheduled s.
Proof. split; reflexivity. Qed.

Lemma batch_loop_effect
    (cfg : Config.AutoMailSettings) (lower : string -> string)
    (utcnow : nat -> Z) (local_tz : Z)
    (generate : nat -> string * string) (ptt_login ptt_mail : nat -> bool)
    (randint : nat -> Z) (immediate : bool)
    (articles : list ArticleData.t) :
  forall (stats : AutoMailService.Stats) (s : AutoMailService.Service),
  let run := AutoMailService.batch_loop cfg lower utcnow local_tz generate
               ptt_login ptt_mail randint articles immediate stats s in
  let sent := AutoMailService.processed (fst run)
              - AutoMailService.processed stats in
  0 <= sent /\
  0 <= AutoMailService.skipped (fst run) - AutoMailService.skipped stats /\
  0 <= AutoMailService.failed (fst run) - AutoMailService.failed stats /\
  sent + (AutoMailService.skipped (fst run) - AutoMailService.skipped stats)
       + (AutoMailService.failed (fst run) - AutoMailService.failed stats)
    <= Z.of_nat (List.length articles) /\
  (immediate = false ->
   AutoMailService.tracker (snd run) = AutoMailService.tracker s /\
   Z.of_nat (List.length (AutoMailService.scheduled (snd run)))
   = Z.of_nat (List.length (AutoMailService.scheduled s)) + sent) /\
  (immediate = true ->
   AutoMailService.scheduled (snd run) = AutoMailService.scheduled s /\
   Z.of_nat (List.length (successes (AutoMailService.tracker (snd run))))
   = Z.of_nat (List.length (successes (AutoMailService.tracker s))) + sent).
Proof.
  induction articles as [|a rest IH]; intros stats s.
  - cbn. repeat split; intros; try reflexivity; lia.
  - cbn [AutoMailService.batch_loop].
    cbn [List.length]. rewrite Nat2Z.inj_succ.
    destruct (AutoMailService.check_article_keywords cfg lower a);
      cbn [negb].
    + unfold bind.
      pose proof (can_send_today_reads_only cfg utcnow local_tz s)
        as [Ht1 Hs1].
      destruct (AutoMailService.can_send_today cfg utcnow local_tz s)
        as [can s1]. cbn [snd] in Ht1, Hs1.
      destruct can; cbn [negb].
      * pose proof (process_article_effect cfg utcnow local_tz generate
                      ptt_login ptt_mail randint a immediate s1)
          as [Hlater Hnow].
        destruct (AutoMailService.process_article cfg utcnow local_tz
                    generate ptt_login ptt_mail randint a immediate s1)
          as [ok s2]. cbn [fst snd] in Hlater, Hnow.
        destruct ok;
          match goal with
          | |- context [AutoMailService.batch_loop _ _ _ _ _ _ _ _ _ _ ?st
                          s2] =>
            specialize (IH st s2)
          end;
          cbv zeta in IH;
          cbn [AutoMailService.processed AutoMailService.skipped
               AutoMailService.failed] in IH;
          destruct IH as (I1 & I2 & I3 & I4 & I5 & I6);
          (split; [lia|]); (split; [lia|]); (split; [lia|]);
          (split; [lia|]); split; intros E;
          [ destruct (I5 E) as [It Il]; destruct (Hlater E) as [Lt Ll];
            split; [congruence | rewrite Hs1 in *; lia]
          | destruct (I6 E) as [It Il]; destruct (Hnow E) as [Lt Ll];
            split; [congruence | rewrite Ht1 in *; lia]
          | destruct (I5 E) as [It Il]; destruct (Hlater E) as [Lt Ll];
            split; [congruence | rewrite Hs1 in *; lia]
          | destruct (I6 E) as [It Il]; destruct (Hnow E) as [Lt Ll];
            split; [congruence | rewrite Ht1 in *; lia] ].
      * cbn [ret fst snd].
        (split; [lia|]); (split; [lia|]); (split; [lia|]); (split; [lia|]).
        split; intros _; split; try assumption;
          [rewrite Hs1 | rewrite Ht1]; lia.
    + specialize (IH (AutoMailService.mkStats
                        (AutoMailService.processed stats)
                        (AutoMailService.skipped stats + 1)
                        (AutoMailService.failed stats)) s).
      cbv zeta in IH. cbn [AutoMailService.processed
        AutoMailService.skipped AutoMailService.failed] in IH.
      destruct IH as (I1 & I2 & I3 & I4 & I5 & I6).
      (split; [lia|]); (split; [lia|]); (split; [lia|]); (split; [lia|]).
      split; intros E; [apply (I5 E) | apply (I6 E)].
Qed.

(** The figures [process_articles_batch] returns are honest: none is
    negative and together they count no more posts than were given.  In
    the delayed mode the run writes nothing to the ledger, so the daily
    count it consults cannot move while it runs, and it starts exactly
    [processed] timers; sent at once, it starts no timer and [processed] is
    exactly the number of deliveries it added to the ledger. *)
Theorem process_articles_batch_accounts
    (cfg : Config.AutoMailSettings) (lower : string -> string)
    (utcnow : nat -> Z) (local_tz : Z)
    (generate : nat -> string * string) (ptt_login ptt_mail : nat -> bool)
    (randint : nat -> Z) (articles : list ArticleData.t) (immediate : bool)
    (s : AutoMailService.Service) :
  let batch := AutoMailService.process_articles_batch cfg lower utcnow
                 local_tz generate ptt_login ptt_mail randint articles
                 immediate in
  let stats := result batch s in
  let s' := exec batch s in
  0 <= AutoMailService.processed stats /\
  0 <= AutoMailService.skipped stats /\
  0 <= AutoMailService.failed stats /\
  AutoMailService.processed stats + AutoMailService.skipped stats
    + AutoMailService.failed stats <= Z.of_nat (List.length articles) /\
  (if immediate then
     AutoMailService.scheduled s' = AutoMailService.scheduled s /\
     Z.of_nat (List.length (successes (AutoMailService.tracker s')))
     = Z.of_nat (List.length (successes (AutoMailService.tracker s)))
       + AutoMailService.processed stats
   else
     AutoMailService.tracker s' = AutoMailService.tracker s /\
     Z.of_nat (List.length (AutoMailService.scheduled s'))
     = Z.of_nat (List.length (AutoMailService.scheduled s))
       + AutoMailService.processed stats).
Proof.
  intros batch stats s'. subst batch stats s'.
  unfold exec, result, AutoMailService.process_articles_batch.
  pose proof (batch_loop_effect cfg lower utcnow local_tz generate ptt_login
                ptt_mail randint immediate articles
                (AutoMailService.mkStats 0 0 0) s) as H.
  cbv zeta in H. cbn [AutoMailService.processed AutoMailService.skipped
    AutoMailService.failed] in H.
  destruct H as (H1 & H2 & H3 & H4 & H5 & H6).
  repeat split; try lia.
  destruct immediate.
  - destruct (H6 eq_refl) as [Hs Hn]. split; [exact Hs | lia].
  - destruct (H5 eq_refl) as [Ht Hn]. split; [exact Ht | lia].
Qed.

(** ** The configured keywords ([config.py], [crawler/parser.py]) *)

Lemma split_comma_nonempty (s : string) : PyStr.split_comma s <> [].
Proof.
  destruct s as [|c s]; cbn; [discriminate|].
  destruct (Ascii.eqb c ","); [discriminate|].
  destruct (PyStr.split_comma s); discriminate.
Qed.

(** Splitting at a comma splits the list of pieces. *)
Lemma split_comma_app (a b : string) :
  PyStr.split_comma (a ++ String "," b)
  = PyStr.split_comma a ++ PyStr.split_comma b.
Proof.
  induction a as [|c a IH].
  - reflexivity.
  - change ((String c a ++ String "," b)%string)
      with (String c (a ++ String "," b)%string).
    cbn [PyStr.split_comma]. rewrite IH.
    destruct (Ascii.eqb c ","); [reflexivity|].
    pose proof (split_comma_nonempty a).
    destruct (PyStr.split_comma a); [contradiction | reflexivity].
Qed.

Lemma str_in_empty (hay : string) : PyStr.str_in "" hay = true.
Proof. destruct hay; reflexivity. Qed.

(** A comma with nothing after it, or before it, or two commas in a row in
    [KEYWORDS], and also an empty [KEYWORDS], put the empty keyword into
    [keywords_list]; with the empty keyword configured both filters keep
    every article, since the empty string is in every title
    ([str.lower] leaves the empty string empty). *)
Theorem stray_comma_lets_every_article_through
    (strip : string -> string) (KEYWORDS before after : string) :
  strip ""%string = ""%string ->
  KEYWORDS = ""%string \/
  KEYWORDS = (before ++ ",")%string \/
  KEYWORDS = ("," ++ after)%string \/
  KEYWORDS = (before ++ ",," ++ after)%string ->
  let keywords := Config.keywords_list_of strip KEYWORDS in
  In ""%string keywords /\
  (forall articles, Parser.filter_by_keywords articles keywords = articles) /\
  (forall lower : string -> string,
     lower ""%string = ""%string ->
     forall daily_limit article,
       AutoMailService.check_article_keywords
         (Config.mkAutoMailSettings daily_limit 180 300 keywords) lower
         article
       = true).
Proof.
  intros Hstrip Hcases keywords.
  assert (Hin : In ""%string keywords).
  { subst keywords. unfold Config.keywords_list_of.
    rewrite <- Hstrip at 1. apply in_map.
    destruct Hcases as [-> | [-> | [-> | ->]]].
    - now left.
    - change ((before ++ ",")%string) with ((before ++ String "," "")%string).
      rewrite split_comma_app. apply in_or_app. right. now left.
    - now left.
    - change ((before ++ ",," ++ after)%string)
        with ((before ++ String "," (String "," after))%string).
      rewrite split_comma_app. apply in_or_app. right. now left. }
  split; [exact Hin|]. split.
  - intros articles. unfold Parser.filter_by_keywords. apply filter_all.
    intros a _. apply existsb_exists. exists ""%string.
    split; [exact Hin | apply str_in_empty].
  - intros lower Hlower daily_limit article.
    unfold AutoMailService.check_article_keywords.
    apply existsb_exists. exists ""%string.
    split; [exact Hin | rewrite Hlower; apply str_in_empty].
Qed.

(** [KEYWORDS="信貸,"], read with a [strip] that leaves these pieces as
    they are. *)
Lemma stray_comma_lets_every_article_through_witness :
  let keywords := Config.keywords_list_of (fun piece => piece) "信貸," in
  keywords = ["信貸"; ""]%string /\
  Parser.filter_by_keywords [keyword_in_body; keyword_in_capitals] keywords
  = [keyword_in_body; keyword_in_capitals].
Proof.
  split; [reflexivity|].
  apply (stray_comma_lets_every_article_through (fun piece => piece)
           "信貸," "信貸" ""%string eq_refl).
  right. left. reflexivity.
Defined.

(** ** One batched push ([notification/line_bot.py]) *)

(** [push_batch_notification] calls the push API at most once: not at all
    for an empty list, for which it answers [True], and otherwise once with
    the first ten articles of the list and no others, answering what the
    API answered; it never touches the store. *)
Theorem push_batch_notification_pushes_once
    (push_message : nat -> bool) (user_id : string)
    (articles : list ArticleDict) (s : St) :
  let ok := result (LineBot.push_batch_notification push_message user_id
                      articles) s in
  let s' := exec (LineBot.push_batch_notification push_message user_id
                    articles) s in
  db s' = db s /\
  match articles with
  | [] => ok = true /\ s' = s
  | _ :: _ =>
    ok = push_message (calls s) /\
    trace s' = trace s ++ [Push user_id (firstn 10 articles) ok] /\
    calls s' = S (calls s) /\
    (List.length (firstn 10 articles) <= 10)%nat
  end.
Proof.
  destruct articles as [|x [|y rest]].
  - cbn. destruct s. repeat split.
  - destruct x. cbn. repeat split. lia.
  - unfold exec, result, LineBot.push_batch_notification,
      LineBot.create_batch_flex_message, bind, ask, emit, ret.
    cbn [fst snd db trace calls]. repeat split.
    apply firstn_le_length.
Qed.

(** ** Subscribers ([database/crud.py]) *)

Lemma find_none_all {A} (p : A -> bool) (l : list A) :
  find p l = None -> Forall (fun x => p x = false) l.
Proof.
  intros H. apply Forall_forall. intros x Hx. now apply (find_none p l H).
Qed.

(** Registering is idempotent and never changes an existing subscriber:
    [get_or_create_user] answers with a user of the line id asked for that
    a lookup then finds; a second call for the same line id, with whatever
    tier, returns the same user and writes nothing; a subscriber who exists
    is returned as stored, the tier asked for being ignored; only a new one
    is appended, active and with the tier asked for. *)
Theorem get_or_create_user_is_idempotent
    (id1 id2 : nat) (now1 now2 : Z) (d : DB) (line_user_id : string)
    (tier1 tier2 : UserTier) :
  let first := Crud.get_or_create_user id1 now1 d line_user_id tier1 in
  let second :=
    Crud.get_or_create_user id2 now2 (fst first) line_user_id tier2 in
  second = first /\
  Crud.get_user_by_line_id (fst first) line_user_id = Some (snd first) /\
  User.line_user_id (snd first) = line_user_id /\
  match Crud.get_user_by_line_id d line_user_id with
  | Some user => first = (d, user)
  | None =>
    users (fst first)
      = users d ++ [User.mk id1 line_user_id tier1 true now1] /\
    snd first = User.mk id1 line_user_id tier1 true now1
  end /\
  articles (fst first) = articles d /\
  notifications (fst first) = notifications d.
Proof.
  intros first second. subst second first.
  unfold Crud.get_or_create_user.
  destruct (Crud.get_user_by_line_id d line_user_id) as [user|] eqn:E.
  - cbn [fst snd]. rewrite E. repeat split.
    unfold Crud.get_user_by_line_id in E. apply find_some in E as [_ E].
    now apply String.eqb_eq.
  - assert (Hfound :
      Crud.get_user_by_line_id
        (fst (Crud.create_user id1 now1 d line_user_id tier1)) line_user_id
      = Some (snd (Crud.create_user id1 now1 d line_user_id tier1))).
    { unfold Crud.get_user_by_line_id, Crud.create_user. cbn [fst snd users].
      apply find_app_fresh.
      - apply find_none_all. exact E.
      - cbn. apply String.eqb_refl. }
    rewrite Hfound. repeat split.
Qed.

Lemma find_other_update_first {A} (p q : A -> bool) (g : A -> A)
    (l : list A) :
  (forall x, q (g x) = q x) ->
  (forall x, p x = true -> q x = false) ->
  find q (Crud.update_first p g l) = find q l.
Proof.
  intros Hq Hpq. induction l as [|x l IH]; cbn; [reflexivity|].
  destruct (p x) eqn:P; cbn.
  - now rewrite Hq, (Hpq x P).
  - now rewrite IH.
Qed.

Lemma map_update_first {A B} (p : A -> bool) (g : A -> A) (f : A -> B)
    (l : list A) :
  (forall x, f (g x) = f x) -> map f (Crud.update_first p g l) = map f l.
Proof.
  intros H. induction l as [|x l IH]; cbn; [reflexivity|].
  destruct (p x); cbn; [now rewrite H | now rewrite IH].
Qed.

(** Changing a tier: for a line id that is not registered
    [update_user_tier] answers [None] and writes nothing; for one that is,
    it answers the subscriber with the new tier, a lookup finds exactly
    that, no other subscriber's lookup changes, the ids of the table stay
    as they were, and no notification is touched: what was pending for
    the subscriber before the change is pending after it. *)
Theorem update_user_tier_changes_one_tier
    (d : DB) (line_user_id : string) (tier : UserTier) :
  let after := fst (Crud.update_user_tier d line_user_id tier) in
  let answer := snd (Crud.update_user_tier d line_user_id tier) in
  match Crud.get_user_by_line_id d line_user_id with
  | None => answer = None /\ after = d
  | Some user =>
    answer = Some (Crud.set_tier tier user) /\
    Crud.get_user_by_line_id after line_user_id
      = Some (Crud.set_tier tier user) /\
    (forall other, other <> line_user_id ->
       Crud.get_user_by_line_id after other
       = Crud.get_user_by_line_id d other) /\
    map User.id (users after) = map User.id (users d) /\
    map User.is_active (users after) = map User.is_active (users d) /\
    notifications after = notifications d /\
    articles after = articles d
  end.
Proof.
  intros after answer. subst after answer. unfold Crud.update_user_tier.
  destruct (Crud.get_user_by_line_id d line_user_id) as [user|] eqn:E;
    [|split; reflexivity].
  cbn [fst snd users notifications articles]. repeat split.
  - unfold Crud.get_user_by_line_id in *. cbn [users].
    rewrite find_update_first by reflexivity. now rewrite E.
  - intros other Hne. unfold Crud.get_user_by_line_id. cbn [users].
    apply find_other_update_first; [reflexivity|].
    intros x Hx. apply String.eqb_eq in Hx. apply String.eqb_neq.
    congruence.
  - now apply map_update_first.
  - now apply map_update_first.
Qed.

(** ** The store under the three jobs ([scheduler/jobs.py], [main.py]) *)

Lemma NoDup_map_filter {K R} (key : R -> K) (keep : R -> bool)
    (rows : list R) :
  NoDup (map key rows) -> NoDup (map key (filter keep rows)).
Proof.
  induction rows as [|row rows IH]; cbn; intros Hrows; [constructor|].
  inversion Hrows as [|? ? Hnew Hrest]; subst.
  destruct (keep row); cbn; [|now apply IH].
  constructor; [|now apply IH].
  intros Hin. apply Hnew. apply in_map_iff in Hin as (other & E & Hother).
  apply filter_In in Hother as [Hother _]. rewrite <- E. now apply in_map.
Qed.

Lemma NoDup_snoc {A} (l : list A) (x : A) :
  NoDup l -> ~ In x l -> NoDup (l ++ [x]).
Proof.
  intros Hl Hx. apply NoDup_app; [assumption | repeat constructor; auto |].
  intros a Ha [<-|[]]. contradiction.
Qed.

Lemma records_for_nil_pair (d : DB) (uid aid : nat) :
  records_for d uid aid = [] ->
  ~ In (uid, aid)
       (map (fun n => (Notification.user_id n, Notification.article_id n))
            (notifications d)).
Proof.
  unfold records_for. intros Hnil Hin.
  apply in_map_iff in Hin as (n & E & Hn). injection E as E1 E2.
  assert (In n (filter (fun n => Nat.eqb (Notification.user_id n) uid &&
                                 Nat.eqb (Notification.article_id n) aid)%bool
                       (notifications d))) as Hf.
  { apply filter_In. split; [assumption|]. subst.
    now rewrite !Nat.eqb_refl. }
  rewrite Hnil in Hf. exact Hf.
Qed.

Lemma fresh_not_in {A} (f : A -> nat) (l : list A) (k : nat) :
  Forall (fun x => (f x < k)%nat) l -> ~ In k (map f l).
Proof.
  intros H Hin. apply in_map_iff in Hin as (x & E & Hx).
  rewrite Forall_forall in H. specialize (H x Hx). lia.
Qed.

(** An INSERT into [notifications] for a pair that has no row yet. *)
Lemma store_ok_insert_notification (d : DB) (uid aid : nat)
    (sent_at : option Z) (created_at : Z) :
  store_ok d ->
  In aid (map Article.id (articles d)) ->
  In uid (map User.id (users d)) ->
  records_for d uid aid = [] ->
  store_ok
    (mkDB (articles d) (users d)
          (notifications d ++
           [Notification.mk (notifications_id_seq d) uid aid sent_at
                            created_at])
          (articles_id_seq d) (S (notifications_id_seq d))).
Proof.
  intros [H1 H2 H3 H4 H5 H6 H7 H8 H9] Ha Hu Hnone.
  constructor; cbn [articles users notifications articles_id_seq
                    notifications_id_seq]; try assumption.
  - apply Forall_app. split.
    + revert H5. apply Forall_impl. intros; lia.
    + constructor; [cbn; lia | constructor].
  - rewrite map_app. cbn. apply NoDup_snoc; [assumption|].
    now apply fresh_not_in.
  - apply Forall_app. split; [assumption | repeat constructor; assumption].
  - apply Forall_app. split; [assumption | repeat constructor; assumption].
  - rewrite map_app. cbn. apply NoDup_snoc; [assumption|].
    now apply records_for_nil_pair.
Qed.

(** An INSERT into [articles] under a PTT id the table does not hold. *)
Lemma store_ok_insert_article (d : DB) (a : Article.t) :
  store_ok d ->
  Article.id a = articles_id_seq d ->
  rows_of d (Article.article_id a) = [] ->
  store_ok
    (mkDB (articles d ++ [a]) (users d) (notifications d)
          (S (articles_id_seq d)) (notifications_id_seq d)).
Proof.
  intros [H1 H2 H3 H4 H5 H6 H7 H8 H9] Hid Hnone.
  constructor; cbn [articles users notifications articles_id_seq
                    notifications_id_seq]; try assumption.
  - rewrite map_app. cbn. apply NoDup_snoc; [assumption|].
    now apply rows_of_nil_not_in.
  - apply Forall_app. split.
    + revert H2. apply Forall_impl. intros; lia.
    + constructor; [lia | constructor].
  - rewrite map_app. cbn. apply NoDup_snoc; [assumption|].
    rewrite Hid. now apply fresh_not_in.
  - revert H7. apply Forall_impl. intros n Hn. rewrite map_app.
    apply in_or_app. now left.
Qed.

Lemma records_for_app (d : DB) (extra : list Notification.t) (uid aid : nat) :
  filter (fun n => Nat.eqb (Notification.user_id n) uid &&
                   Nat.eqb (Notification.article_id n) aid)%bool
         (notifications d ++ extra)
  = records_for d uid aid ++
    filter (fun n => Nat.eqb (Notification.user_id n) uid &&
                     Nat.eqb (Notification.article_id n) aid)%bool extra.
Proof. unfold records_for. apply filter_app. Qed.

(** The PREMIUM loop keeps the store in order: its subscribers are
    distinct and none of them has a notification of the article yet. *)
Lemma premium_loop_ok (utcnow : nat -> Z) (push_message : nat -> bool)
    (art : Article.t) (premium_users : list User.t) :
  NoDup (map User.id premium_users) ->
  forall s,
  store_ok (db s) ->
  In (Article.id art) (map Article.id (articles (db s))) ->
  (forall u, In u premium_users ->
             In (User.id u) (map User.id (users (db s))) /\
             records_for (db s) (User.id u) (Article.id art) = []) ->
  let s' := exec (for_each premium_users
                    (Jobs.notify_premium utcnow push_message art)) s in
  store_ok (db s') /\ articles (db s') = articles (db s) /\
  users (db s') = users (db s) /\
  articles_id_seq (db s') = articles_id_seq (db s).
Proof.
  induction premium_users as [|u rest IH]; intros Hnd s Hok Hart Husers s';
    subst s'.
  - cbn. split; [assumption | repeat split].
  - rewrite exec_for_each_cons.
    cbn in Hnd. inversion Hnd as [|? ? Hnotin Hnd']; subst.
    destruct (Husers u (or_introl eq_refl)) as [Hu Hnone].
    destruct (notify_premium_step utcnow push_message art u s
                (ok_notification_ids _ Hok)) as (_ & Hd & _ & _).
    set (s1 := exec (Jobs.notify_premium utcnow push_message art u) s) in *.
    assert (Hok1 : store_ok (db s1)).
    { rewrite Hd. destruct (push_message (calls s)); [|assumption].
      now apply store_ok_insert_notification. }
    assert (Ha1 : articles (db s1) = articles (db s))
      by (rewrite Hd; now destruct (push_message (calls s))).
    assert (Hu1 : users (db s1) = users (db s))
      by (rewrite Hd; now destruct (push_message (calls s))).
    assert (Hq1 : articles_id_seq (db s1) = articles_id_seq (db s))
      by (rewrite Hd; now destruct (push_message (calls s))).
    destruct (IH Hnd' s1 Hok1) as (Hok2 & Ha2 & Hu2 & Hq2).
    + now rewrite Ha1.
    + intros v Hv. destruct (Husers v (or_intror Hv)) as [Hvu Hvnone].
      split; [now rewrite Hu1|].
      rewrite Hd. destruct (push_message (calls s)); [|assumption].
      unfold records_for at 1. cbn [notifications].
      rewrite records_for_app, Hvnone. cbn.
      assert (Nat.eqb (User.id u) (User.id v) = false) as ->.
      { apply Nat.eqb_neq. intros E. apply Hnotin. rewrite E.
        now apply in_map. }
      reflexivity.
    + split; [assumption|]. rewrite Ha2, Hu2, Hq2. auto.
Qed.

Lemma for_each_invariant_in {A} (I : DB -> Prop) (body : A -> M unit)
    (l : list A) :
  (forall x s, In x l -> I (db s) -> I (db (exec (body x) s))) ->
  forall s, I (db s) -> I (db (exec (for_each l body) s)).
Proof.
  induction l as [|x l IH]; intros Hstep s HI; [exact HI|].
  rewrite exec_for_each_cons. apply IH.
  - intros y s0 Hy. apply Hstep. now right.
  - apply Hstep; [now left | assumption].
Qed.

(** The STANDARD loop keeps the store in order: it looks before it
    inserts. *)
Lemma standard_loop_ok (utcnow : nat -> Z) (art : Article.t)
    (standard_users : list User.t) (s : St) :
  store_ok (db s) ->
  In (Article.id art) (map Article.id (articles (db s))) ->
  (forall u, In u standard_users ->
             In (User.id u) (map User.id (users (db s)))) ->
  let s' := exec (for_each standard_users (Jobs.queue_standard utcnow art))
                 s in
  store_ok (db s') /\ articles (db s') = articles (db s) /\
  users (db s') = users (db s) /\
  articles_id_seq (db s') = articles_id_seq (db s).
Proof.
  intros Hok Hart Husers.
  apply (for_each_invariant_in
           (fun d => store_ok d /\ articles d = articles (db s) /\
                     users d = users (db s) /\
                     articles_id_seq d = articles_id_seq (db s))
           (Jobs.queue_standard utcnow art) standard_users);
    [|split; [assumption | repeat split]].
  intros u s0 Hu (Hok0 & Ha0 & Hu0 & Hq0).
  unfold exec, Jobs.queue_standard, Jobs.create_notification, bind, query,
    ask, commit, ret. cbn [fst snd db trace calls].
  destruct (Crud.has_notification_for_article (db s0) (User.id u)
              (Article.id art)) eqn:Hhas; cbn [negb fst snd db].
  - split; [assumption | repeat split; assumption].
  - cbn. split; [|repeat split; assumption].
    apply store_ok_insert_notification; try assumption.
    + now rewrite Ha0.
    + rewrite Hu0. now apply Husers.
    + destruct (records_for (db s0) (User.id u) (Article.id art)) eqn:E;
        [reflexivity|].
      assert (Crud.has_notification_for_article (db s0) (User.id u)
                (Article.id art) = true)
        by (apply has_notification_for_article_spec; rewrite E;
            discriminate).
      congruence.
Qed.

Lemma unknown_article_has_no_record (d : DB) (uid : nat) :
  store_ok d -> records_for d uid (articles_id_seq d) = [].
Proof.
  intros Hok. unfold records_for. apply filter_none. intros n Hn.
  apply andb_false_iff. right. apply Nat.eqb_neq. intros E.
  pose proof (ok_article_refs _ Hok) as Hrefs.
  rewrite Forall_forall in Hrefs. specialize (Hrefs n Hn).
  rewrite E in Hrefs.
  now apply (fresh_not_in Article.id (articles d) (articles_id_seq d)
               (ok_article_ids _ Hok)).
Qed.

(** One turn of the loop over the crawled posts keeps the store in
    order. *)
Lemma process_candidate_ok (utcnow : nat -> Z) (push_message : nat -> bool)
    (premium_users standard_users : list User.t) (ad : ArticleData.t)
    (s : St) :
  NoDup (map User.id premium_users) ->
  (forall u, In u (premium_users ++ standard_users) ->
             In (User.id u) (map User.id (users (db s)))) ->
  store_ok (db s) ->
  let s' := exec (Jobs.process_candidate utcnow push_message premium_users
                    standard_users ad) s in
  store_ok (db s') /\ users (db s') = users (db s).
Proof.
  intros Hnd Husers Hok s'. subst s'. unfold Jobs.process_candidate.
  cbv zeta.
  destruct (PyStr.truthy (ArticleData.article_id ad)); cbn [negb];
    [|split; [exact Hok | reflexivity]].
  rewrite exec_bind.
  change (result (query (fun d => Crud.get_article_by_ptt_id d
                                    (ArticleData.article_id ad))) s)
    with (Crud.get_article_by_ptt_id (db s) (ArticleData.article_id ad)).
  change (exec (query (fun d => Crud.get_article_by_ptt_id d
                                  (ArticleData.article_id ad))) s) with s.
  destruct (Crud.get_article_by_ptt_id (db s) (ArticleData.article_id ad))
    as [existing|] eqn:F; [split; [exact Hok | reflexivity]|].
  apply find_none_rows in F.
  rewrite exec_bind.
  set (a0 := result (Jobs.create_article utcnow ad) s).
  set (s1 := exec (Jobs.create_article utcnow ad) s).
  assert (Hid : Article.id a0 = articles_id_seq (db s)) by reflexivity.
  assert (Hs1 : db s1 = mkDB (articles (db s) ++ [a0]) (users (db s))
                             (notifications (db s))
                             (S (articles_id_seq (db s)))
                             (notifications_id_seq (db s))) by reflexivity.
  assert (Hok1 : store_ok (db s1)).
  { rewrite Hs1. now apply store_ok_insert_article. }
  assert (Hin1 : In (Article.id a0) (map Article.id (articles (db s1)))).
  { rewrite Hs1. cbn [articles]. rewrite map_app. apply in_or_app.
    right. now left. }
  assert (Hu1 : users (db s1) = users (db s)) by (now rewrite Hs1).
  rewrite exec_bind.
  destruct (premium_loop_ok utcnow push_message a0 premium_users Hnd s1
              Hok1 Hin1) as (Hok2 & Ha2 & Hu2 & _).
  { intros u Hu. split.
    - rewrite Hu1. apply Husers. apply in_or_app. now left.
    - rewrite Hs1. unfold records_for. cbn [notifications].
      rewrite Hid. now apply unknown_article_has_no_record. }
  set (s2 := exec (for_each premium_users
                     (Jobs.notify_premium utcnow push_message a0)) s1) in *.
  destruct (standard_loop_ok utcnow a0 standard_users s2 Hok2)
    as (Hok3 & _ & Hu3 & _).
  - now rewrite Ha2.
  - intros u Hu. rewrite Hu2, Hu1. apply Husers. apply in_or_app.
    now right.
  - split; [exact Hok3 | congruence].
Qed.

(** [crawl_and_notify] keeps the store in order. *)
Lemma crawl_and_notify_ok (settings : Config.Settings)
    (utcnow : nat -> Z) (push_message : nat -> bool)
    (feed : list ArticleData.t) (s : St) :
  store_ok (db s) ->
  let s' := exec (Jobs.crawl_and_notify settings utcnow push_message feed) s in
  store_ok (db s') /\ users (db s') = users (db s).
Proof.
  intros Hok s'. subst s'. unfold Jobs.crawl_and_notify.
  rewrite exec_bind.
  set (sa := exec (Jobs.is_within_schedule_hours settings utcnow) s).
  assert (Hsa : db sa = db s) by reflexivity.
  destruct (result (Jobs.is_within_schedule_hours settings utcnow) s);
    cbn [negb];
    [|change (exec (ret tt) sa) with sa; rewrite Hsa; now split].
  rewrite exec_bind.
  set (sb := exec (Jobs.crawl_new_articles feed) sa).
  assert (Hsb : db sb = db s) by reflexivity.
  change (result (Jobs.crawl_new_articles feed) sa) with feed.
  destruct feed as [|x rest];
    [change (exec (ret tt) sb) with sb; rewrite Hsb; now split|].
  rewrite exec_bind.
  change (exec (query Crud.get_all_active_users) sb) with sb.
  change (result (query Crud.get_all_active_users) sb)
    with (Crud.get_all_active_users (db sb)).
  rewrite Hsb.
  set (premium := filter (fun u => UserTier_eqb (User.tier u) PREMIUM)
                         (Crud.get_all_active_users (db s))).
  set (standard := filter (fun u => UserTier_eqb (User.tier u) STANDARD)
                          (Crud.get_all_active_users (db s))).
  assert (Hnd : NoDup (map User.id premium)).
  { unfold premium, Crud.get_all_active_users.
    do 2 apply NoDup_map_filter. apply (ok_user_ids_unique _ Hok). }
  assert (Hknown : forall u, In u (premium ++ standard) ->
                             In (User.id u) (map User.id (users (db s)))).
  { intros u Hu. apply in_map.
    apply in_app_or in Hu as [Hu|Hu]; apply filter_In in Hu as [Hu _];
      unfold Crud.get_all_active_users in Hu;
      now apply filter_In in Hu as [Hu _]. }
  rewrite <- Hsb in Hok.
  assert (Hgoal :
    store_ok (db (exec (for_each (x :: rest)
                          (Jobs.process_candidate utcnow push_message
                             premium standard)) sb)) /\
    users (db (exec (for_each (x :: rest)
                       (Jobs.process_candidate utcnow push_message
                          premium standard)) sb)) = users (db s)).
  { apply (for_each_invariant_in
             (fun d => store_ok d /\ users d = users (db s))
             (Jobs.process_candidate utcnow push_message premium standard)
             (x :: rest)); [|split; [exact Hok | now rewrite Hsb]].
    intros ad s0 _ [Hok0 Hu0].
    destruct (process_candidate_ok utcnow push_message premium standard ad
                s0 Hnd) as [Hok' Hu']; try assumption.
    - intros u Hu. rewrite Hu0. now apply Hknown.
    - split; [exact Hok' | congruence]. }
  exact Hgoal.
Qed.

Lemma push_batch_notification_state (push_message : nat -> bool)
    (user_id : string) (arts : list ArticleDict) (s : St) :
  db (snd (LineBot.push_batch_notification push_message user_id arts s))
  = db s.
Proof. destruct arts as [|x [|y rest]]; reflexivity. Qed.

Lemma map_keys_set_sent_at (now : Z) (p : Notification.t -> bool)
    (l : list Notification.t) :
  map keys (map (fun n => if p n then Notification.set_sent_at now n else n) l)
  = map keys l.
Proof.
  rewrite map_map. apply map_ext. intros n. now destruct (p n).
Qed.

(** [send_hourly_notifications] assigns [sent_at] and nothing else. *)
Lemma hourly_loop_keeps_keys (utcnow : nat -> Z) (push_message : nat -> bool)
    (standard_users : list User.t) :
  forall s,
  let s' := exec (Jobs.hourly_loop utcnow push_message standard_users) s in
  articles (db s') = articles (db s) /\ users (db s') = users (db s) /\
  articles_id_seq (db s') = articles_id_seq (db s) /\
  notifications_id_seq (db s') = notifications_id_seq (db s) /\
  map keys (notifications (db s')) = map keys (notifications (db s)).
Proof.
  induction standard_users as [|u rest IH]; intros s s'; subst s'.
  - repeat split.
  - unfold exec. cbn [Jobs.hourly_loop]. unfold bind, query. cbn [fst snd].
    destruct (Crud.get_pending_notifications_for_user (db s) (User.id u))
      as [|n0 pend0]; [apply IH|].
    destruct (Jobs.prepare_articles (db s) (n0 :: pend0)) as [arts|];
      [|repeat split].
    pose proof (push_batch_notification_state push_message
                  (User.line_user_id u) arts s) as Hpush.
    destruct (LineBot.push_batch_notification push_message
                (User.line_user_id u) arts s) as [ok s1].
    cbn [snd] in Hpush.
    destruct ok.
    + unfold Jobs.mark_notifications_sent, ask, commit, bind.
      cbn [fst snd db trace calls].
      match goal with
      | |- context [Jobs.hourly_loop utcnow push_message rest ?st] =>
        specialize (IH st)
      end.
      cbv zeta in IH. unfold exec in IH. cbn [db] in IH.
      destruct IH as (I1 & I2 & I3 & I4 & I5).
      rewrite I1, I2, I3, I4, I5, <- Hpush. cbn.
      repeat split. apply map_keys_set_sent_at.
    + cbn [ret fst snd]. specialize (IH s1). cbv zeta in IH.
      unfold exec in IH. rewrite <- Hpush. exact IH.
Qed.

Lemma Forall_keys (P : nat * nat * nat * Z -> Prop)
    (l : list Notification.t) :
  Forall (fun n => P (keys n)) l <-> Forall P (map keys l).
Proof. symmetry. apply Forall_map. Qed.

(** A store that differs from one in order in [sent_at] only is in
    order. *)
Lemma store_ok_same_keys (d d' : DB) :
  store_ok d ->
  articles d' = articles d -> users d' = users d ->
  articles_id_seq d' = articles_id_seq d ->
  notifications_id_seq d' = notifications_id_seq d ->
  map keys (notifications d') = map keys (notifications d) ->
  store_ok d'.
Proof.
  intros [H1 H2 H3 H4 H5 H6 H7 H8 H9] Ha Hu Hq Hn Hk.
  constructor; rewrite ?Ha, ?Hu, ?Hq, ?Hn; try assumption.
  - apply (Forall_keys (fun k => (fst (fst (fst k))
                                  < notifications_id_seq d)%nat)).
    rewrite Hk. now apply Forall_keys.
  - replace (map Notification.id (notifications d'))
      with (map (fun k => fst (fst (fst k))) (map keys (notifications d')))
      by (rewrite map_map; reflexivity).
    rewrite Hk, map_map. exact H6.
  - apply (Forall_keys (fun k => In (snd (fst k))
                                    (map Article.id (articles d)))).
    rewrite Hk. now apply Forall_keys.
  - apply (Forall_keys (fun k => In (snd (fst (fst k)))
                                    (map User.id (users d)))).
    rewrite Hk. now apply Forall_keys.
  - replace (map (fun n => (Notification.user_id n, Notification.article_id n))
                 (notifications d'))
      with (map (fun k => (snd (fst (fst k)), snd (fst k)))
                (map keys (notifications d')))
      by (rewrite map_map; reflexivity).
    rewrite Hk, map_map. exact H9.
Qed.

Lemma send_hourly_notifications_ok (utcnow : nat -> Z)
    (push_message : nat -> bool) (s : St) :
  store_ok (db s) ->
  let s' := exec (Jobs.send_hourly_notifications utcnow push_message) s in
  store_ok (db s') /\ users (db s') = users (db s).
Proof.
  intros Hok s'. subst s'. unfold Jobs.send_hourly_notifications.
  rewrite exec_bind.
  change (exec (query (fun d => Crud.get_active_users_by_tier d STANDARD)) s)
    with s.
  destruct (hourly_loop_keeps_keys utcnow push_message
              (result (query (fun d => Crud.get_active_users_by_tier d
                                         STANDARD)) s) s)
    as (Ha & Hu & Hq & Hn & Hk).
  split; [|exact Hu]. now apply (store_ok_same_keys (db s)).
Qed.

(** [cleanup_old_articles] keeps the store in order: the notifications go
    with their articles. *)
Lemma cleanup_old_articles_ok (settings : Config.Settings)
    (utcnow : nat -> Z) (s : St) :
  store_ok (db s) ->
  let s' := exec (Jobs.cleanup_old_articles settings utcnow) s in
  store_ok (db s') /\ users (db s') = users (db s).
Proof.
  intros [H1 H2 H3 H4 H5 H6 H7 H8 H9] s'. subst s'.
  unfold exec, Jobs.cleanup_old_articles, bind, ask, commit.
  cbn [fst snd db trace calls].
  set (now := utcnow (calls s)).
  destruct (delete_old_articles_eq settings now (db s)) as (Ha & Hn & _).
  assert (Hrest : users (fst (Crud.delete_old_articles settings now (db s)))
                  = users (db s) /\
                  articles_id_seq
                    (fst (Crud.delete_old_articles settings now (db s)))
                  = articles_id_seq (db s) /\
                  notifications_id_seq
                    (fst (Crud.delete_old_articles settings now (db s)))
                  = notifications_id_seq (db s)).
  { unfold Crud.delete_old_articles. cbv zeta.
    destruct (map Article.id (filter _ (articles (db s))));
      repeat split; reflexivity. }
  destruct Hrest as (Hu & Hq & Hs).
  destruct (Crud.delete_old_articles settings now (db s)) as [d' count].
  cbn [fst snd db] in *.
  set (ids := map Article.id (Crud.get_articles_to_delete settings now
                                (db s))) in *.
  split; [|exact Hu].
  constructor; rewrite ?Ha, ?Hn, ?Hu, ?Hq, ?Hs.
  - now apply NoDup_map_filter.
  - now apply incl_Forall with (l1 := articles (db s));
      [intros a Hin; apply filter_In in Hin as [Hin _]|].
  - now apply NoDup_map_filter.
  - assumption.
  - now apply incl_Forall with (l1 := notifications (db s));
      [intros a Hin; apply filter_In in Hin as [Hin _]|].
  - now apply NoDup_map_filter.
  - apply Forall_forall. intros n Hin. apply filter_In in Hin as [Hin Hkeep].
    rewrite Forall_forall in H7. specialize (H7 n Hin).
    apply in_map_iff in H7 as (a & E & Hain).
    apply in_map_iff. exists a. split; [exact E|].
    apply filter_In. split; [exact Hain|]. now rewrite E.
  - apply Forall_forall. intros n Hin. apply filter_In in Hin as [Hin _].
    rewrite Forall_forall in H8. now apply H8.
  - now apply NoDup_map_filter.
Qed.

(** Whatever the feeds, the clock and the push API do, firings of the three
    jobs that follow one another keep the store in order: ids and the PTT
    id stay unique, every notification keeps pointing to a user and an
    article that exist, and no (user, article) pair ever gets a second
    notification, although [create_notification] would insert one; the
    table of users is never written. *)
Theorem jobs_keep_the_store_in_order
    (settings : Config.Settings) (utcnow : nat -> Z)
    (push_message : nat -> bool) (jobs : list Scheduler.Job) (s : St) :
  store_ok (db s) ->
  let s' := exec (Scheduler.run settings utcnow push_message jobs) s in
  store_ok (db s') /\ users (db s') = users (db s).
Proof.
  intros Hok.
  apply (for_each_invariant_in
           (fun d => store_ok d /\ users d = users (db s))
           (Scheduler.run_job settings utcnow push_message) jobs);
    [|split; [exact Hok | reflexivity]].
  intros job s0 _ [Hok0 Hu0]. destruct job as [feed| |]; cbn [Scheduler.run_job].
  - destruct (crawl_and_notify_ok settings utcnow push_message feed s0 Hok0)
      as [Hok1 Hu1]. split; [exact Hok1 | congruence].
  - destruct (send_hourly_notifications_ok utcnow push_message s0 Hok0)
      as [Hok1 Hu1]. split; [exact Hok1 | congruence].
  - rewrite exec_bind.
    change (exec (ret tt)
              (exec (Jobs.cleanup_old_articles settings utcnow) s0))
      with (exec (Jobs.cleanup_old_articles settings utcnow) s0).
    destruct (cleanup_old_articles_ok settings utcnow s0 Hok0)
      as [Hok1 Hu1]. split; [exact Hok1 | congruence].
Qed.

(** Two crawls of the same feed with the hourly dispatch and the cleanup in
    between, on the store of the fixtures. *)
Lemma jobs_keep_the_store_in_order_witness :
  let jobs :=
    [Scheduler.crawl_job [loan_post]; Scheduler.hourly_notification_job;
     Scheduler.cleanup_job; Scheduler.crawl_job [loan_post]] in
  let s' := exec (Scheduler.run Config.settings (fun _ => 0) (fun _ => true)
                    jobs) (mkSt two_users [] 0) in
  store_ok two_users /\
  List.length (notifications (db s')) = 2%nat /\
  store_ok (db s') /\ users (db s') = users two_users.
Proof.
  assert (Hok : store_ok two_users).
  { constructor; cbn; repeat constructor; cbn; intuition discriminate. }
  split; [exact Hok|]. split; [reflexivity|].
  apply (jobs_keep_the_store_in_order Config.settings (fun _ => 0)
           (fun _ => true)
           [Scheduler.crawl_job [loan_post]; Scheduler.hourly_notification_job;
            Scheduler.cleanup_job; Scheduler.crawl_job [loan_post]]
           (mkSt two_users [] 0)).
  exact Hok.
Defined.

(** ** The hourly dispatch as a whole ([scheduler/jobs.py]) *)

Lemma article_of_known (d : DB) (n : Notification.t) :
  In (Notification.article_id n) (map Article.id (articles d)) ->
  Jobs.article_of d n <> None.
Proof.
  intros Hin Hnone. unfold Jobs.article_of in Hnone.
  apply in_map_iff in Hin as (a & E & Ha).
  pose proof (find_none _ _ Hnone a Ha) as Hf. cbn in Hf.
  rewrite E, Nat.eqb_refl in Hf. discriminate.
Qed.

(** With every article in place the dictionaries are prepared without an
    exception, one for each pending notification. *)
Lemma prepare_articles_total (d : DB) (pend : list Notification.t) :
  Forall (fun n => In (Notification.article_id n)
                      (map Article.id (articles d))) pend ->
  Jobs.prepare_articles d pend = Some (bundle d pend) /\
  List.length (bundle d pend) = List.length pend.
Proof.
  induction 1 as [|n pend Hn _ [IH IHlen]]; [split; reflexivity|].
  cbn [Jobs.prepare_articles bundle flat_map]. fold (bundle d pend).
  destruct (Jobs.article_of d n) as [a|] eqn:E;
    [|now elim (article_of_known d n Hn)].
  rewrite IH. cbn. now rewrite IHlen.
Qed.

Lemma pending_are_rows (d : DB) (uid : nat) :
  incl (Crud.get_pending_notifications_for_user d uid) (notifications d).
Proof. intros n Hn. now apply filter_In in Hn. Qed.

(** One turn of the loop is [after_turn]. *)
Lemma hourly_turn (utcnow : nat -> Z) (push_message : nat -> bool)
    (u : User.t) (rest : list User.t) (s : St) :
  Forall (fun n => In (Notification.article_id n)
                      (map Article.id (articles (db s))))
         (notifications (db s)) ->
  exec (Jobs.hourly_loop utcnow push_message (u :: rest)) s
  = exec (Jobs.hourly_loop utcnow push_message rest)
         (after_turn utcnow push_message u s).
Proof.
  intros Hrefs. unfold exec, after_turn, dispatch_event.
  cbn [Jobs.hourly_loop fst snd]. unfold bind, query. cbn [fst snd].
  pose proof (pending_are_rows (db s) (User.id u)) as Hincl.
  destruct (Crud.get_pending_notifications_for_user (db s) (User.id u))
    as [|n0 pend0]; [reflexivity|].
  destruct (prepare_articles_total (db s) (n0 :: pend0)) as [Hprep Hlen].
  { apply (incl_Forall Hincl). exact Hrefs. }
  rewrite Hprep.
  destruct (bundle (db s) (n0 :: pend0)) as [|x [|y more]];
    [discriminate Hlen| |].
  - destruct x as [x_title x_author x_url x_post_time].
    unfold LineBot.push_batch_notification,
      LineBot.push_article_notification, Jobs.mark_notifications_sent,
      bind, ask, emit, commit, ret.
    cbn [fst snd db trace calls firstn d_title d_author d_url d_post_time].
    now destruct (push_message (calls s)).
  - unfold LineBot.push_batch_notification,
      LineBot.create_batch_flex_message, Jobs.mark_notifications_sent,
      bind, ask, emit, commit, ret.
    cbn [fst snd db trace calls].
    now destruct (push_message (calls s)).
Qed.

Lemma filter_map_frame {A} (q : A -> bool) (f : A -> A) (l : list A) :
  (forall x, q (f x) = q x) ->
  (forall x, q x = true -> f x = x) ->
  filter q (map f l) = filter q l.
Proof.
  intros Hq Hf. induction l as [|x l IH]; cbn; [reflexivity|].
  rewrite Hq. destruct (q x) eqn:E; [|exact IH].
  now rewrite (Hf x E), IH.
Qed.

Lemma pending_from_records (d : DB) (uid : nat) :
  Crud.get_pending_notifications_for_user d uid
  = filter pending (records_of_user d uid).
Proof.
  unfold Crud.get_pending_notifications_for_user, records_of_user.
  induction (notifications d) as [|n l IH]; cbn; [reflexivity|].
  destruct (Nat.eqb (Notification.user_id n) uid); cbn.
  - unfold pending at 1. destruct (Notification.sent_at n); cbn;
      now rewrite IH.
  - exact IH.
Qed.

Lemma bundle_same_articles (d d' : DB) (pend : list Notification.t) :
  articles d' = articles d -> bundle d' pend = bundle d pend.
Proof.
  intros E. unfold bundle, Jobs.article_of. now rewrite E.
Qed.

Lemma after_turn_calls (utcnow : nat -> Z) (push_message : nat -> bool)
    (u : User.t) (s : St) :
  has_pending (db s) u = true ->
  calls (after_turn utcnow push_message u s)
  = if push_message (calls s) then S (S (calls s)) else S (calls s).
Proof.
  unfold after_turn, has_pending. cbv zeta.
  destruct (Crud.get_pending_notifications_for_user (db s) (User.id u));
    [discriminate|].
  intros _. now destruct (push_message (calls s)).
Qed.

(** What the turn of one recipient leaves behind. *)
Lemma after_turn_facts (utcnow : nat -> Z) (push_message : nat -> bool)
    (u : User.t) (s : St) :
  NoDup (map Notification.id (notifications (db s))) ->
  let s1 := after_turn utcnow push_message u s in
  articles (db s1) = articles (db s) /\
  map keys (notifications (db s1)) = map keys (notifications (db s)) /\
  (forall v, v <> User.id u ->
     records_of_user (db s1) v = records_of_user (db s) v) /\
  Crud.get_pending_notifications_for_user (db s1) (User.id u)
  = (if (has_pending (db s) u && push_message (calls s))%bool then []
     else Crud.get_pending_notifications_for_user (db s) (User.id u)) /\
  trace s1 = trace s ++
             (if has_pending (db s) u
              then [dispatch_event (db s) (u, push_message (calls s))]
              else []) /\
  (has_pending (db s) u = false -> s1 = s).
Proof.
  intros Hnd s1. subst s1. unfold after_turn, has_pending. cbv zeta.
  destruct (Crud.get_pending_notifications_for_user (db s) (User.id u))
    as [|n0 pend0] eqn:Ep.
  - cbn [andb]. rewrite Ep, app_nil_r. repeat split.
  - cbn [andb]. destruct (push_message (calls s)); cbn [db trace].
    + assert (Hmark :
        notifications
          (Crud.mark_notifications_sent (utcnow (S (calls s))) (db s)
             (map Notification.id (n0 :: pend0)))
        = map (fun n => if pending_of (User.id u) n
                        then Notification.set_sent_at (utcnow (S (calls s))) n
                        else n) (notifications (db s))).
      { rewrite <- Ep. now apply (mark_selected _ (db s)). }
      split; [reflexivity|]. split.
      { rewrite Hmark. apply map_keys_set_sent_at. }
      split.
      { intros v Hv. unfold records_of_user. rewrite Hmark.
        apply filter_map_frame.
        - intros n. now destruct (pending_of (User.id u) n).
        - intros n Hn. unfold pending_of.
          apply Nat.eqb_eq in Hn. rewrite Hn.
          apply Nat.eqb_neq in Hv. now rewrite Hv. }
      split; [|split; [reflexivity | discriminate]].
      unfold Crud.get_pending_notifications_for_user. rewrite Hmark.
      apply filter_none. intros n Hn. apply in_map_iff in Hn as (m & <- & _).
      change (pending_of (User.id u)
                (if pending_of (User.id u) m
                 then Notification.set_sent_at (utcnow (S (calls s))) m
                 else m) = false).
      destruct (pending_of (User.id u) m) eqn:E; [|exact E].
      unfold pending_of, pending. cbn. apply andb_false_r.
    + rewrite Ep. repeat split. discriminate.
Qed.

Lemma same_keys_same_ids (l l' : list Notification.t) :
  map keys l' = map keys l ->
  map Notification.id l' = map Notification.id l.
Proof.
  intros Hk.
  replace (map Notification.id l')
    with (map (fun k => fst (fst (fst k))) (map keys l'))
    by (rewrite map_map; reflexivity).
  now rewrite Hk, map_map.
Qed.

Lemma same_keys_same_refs (arts : list Article.t)
    (l l' : list Notification.t) :
  map keys l' = map keys l ->
  Forall (fun n => In (Notification.article_id n) (map Article.id arts)) l ->
  Forall (fun n => In (Notification.article_id n) (map Article.id arts)) l'.
Proof.
  intros Hk H.
  apply (Forall_keys (fun k => In (snd (fst k)) (map Article.id arts))).
  rewrite Hk. now apply Forall_keys.
Qed.

Lemma in_combine_fst {A B} (l : list A) (l' : list B) (x : A * B) :
  In x (combine l l') -> In (fst x) l.
Proof. destruct x as [a b]. apply in_combine_l. Qed.

(** The loop over the recipients, turn by turn: the users with something
    pending get one push each, in order; an accepted push clears what was
    pending for its recipient, a refused one leaves it; the records of
    everybody else stay as they are. *)
Lemma hourly_loop_dispatch (utcnow : nat -> Z) (push_message : nat -> bool)
    (standard_users : list User.t) :
  forall s,
  NoDup (map User.id standard_users) ->
  NoDup (map Notification.id (notifications (db s))) ->
  Forall (fun n => In (Notification.article_id n)
                      (map Article.id (articles (db s))))
         (notifications (db s)) ->
  let recipients := filter (has_pending (db s)) standard_users in
  let s' := exec (Jobs.hourly_loop utcnow push_message standard_users) s in
  let outcomes :=
    answers push_message (calls s) (List.length recipients) in
    trace s' = trace s ++ map (dispatch_event (db s))
                              (combine recipients outcomes) /\
    Forall (fun uo : User.t * bool =>
              Crud.get_pending_notifications_for_user (db s')
                (User.id (fst uo))
              = if snd uo then []
                else Crud.get_pending_notifications_for_user (db s)
                       (User.id (fst uo)))
           (combine recipients outcomes) /\
    (forall uid, ~ In uid (map User.id recipients) ->
       records_of_user (db s') uid = records_of_user (db s) uid).
Proof.
  induction standard_users as [|u rest IH]; intros s Hus Hnd Hrefs.
  - cbn. rewrite app_nil_r. repeat split. constructor.
  - cbv zeta. rewrite (hourly_turn utcnow push_message u rest s Hrefs).
    destruct (after_turn_facts utcnow push_message u s Hnd)
      as (Ha & Hk & Hothers & Hmine & Htrace & Hidle).
    set (s1 := after_turn utcnow push_message u s) in *.
    inversion Hus as [|? ? Hu Hrest]; subst.
    assert (Hnd1 : NoDup (map Notification.id (notifications (db s1)))).
    { now rewrite (same_keys_same_ids _ _ Hk). }
    assert (Hrefs1 : Forall (fun n => In (Notification.article_id n)
                                        (map Article.id (articles (db s1))))
                            (notifications (db s1))).
    { rewrite Ha. now apply (same_keys_same_refs _ _ _ Hk). }
    assert (Hpend : forall v, In v rest ->
              Crud.get_pending_notifications_for_user (db s1) (User.id v)
              = Crud.get_pending_notifications_for_user (db s) (User.id v)).
    { intros v Hv. rewrite !pending_from_records, Hothers; [reflexivity|].
      intros E. apply Hu. rewrite <- E. now apply in_map. }
    assert (Hserved : filter (has_pending (db s1)) rest
                      = filter (has_pending (db s)) rest).
    { apply filter_ext_in. intros v Hv. unfold has_pending.
      now rewrite (Hpend v Hv). }
    pose proof (after_turn_calls utcnow push_message u s) as Hcalls.
    fold s1 in Hcalls.
    destruct (IH s1 Hrest Hnd1 Hrefs1) as (Htr & Hall & Hframe).
    rewrite Hserved in Htr, Hall, Hframe.
    set (outs := answers push_message (calls s1)
                   (List.length (filter (has_pending (db s)) rest))) in *.
    assert (Hevents :
      map (dispatch_event (db s1))
          (combine (filter (has_pending (db s)) rest) outs)
      = map (dispatch_event (db s))
            (combine (filter (has_pending (db s)) rest) outs)).
    { apply map_ext_in. intros uo Huo. apply in_combine_fst in Huo.
      apply filter_In in Huo as [Huo _]. unfold dispatch_event.
      now rewrite (Hpend _ Huo), (bundle_same_articles _ _ _ Ha). }
    assert (Hnot : ~ In (User.id u)
                     (map User.id (filter (has_pending (db s)) rest))).
    { intros Hin. apply Hu. apply in_map_iff in Hin as (v & E & Hv).
      apply filter_In in Hv as [Hv _]. rewrite <- E. now apply in_map. }
    cbn [filter]. destruct (has_pending (db s) u) eqn:Ehp.
    + cbn [List.length answers]. rewrite <- (Hcalls eq_refl). fold outs.
      cbn [andb] in Hmine. split.
      { rewrite Htr, Htrace, Hevents, <- app_assoc. reflexivity. }
      split.
      { cbn [combine]. constructor.
        - cbn [fst snd]. rewrite pending_from_records, (Hframe _ Hnot),
            <- pending_from_records. exact Hmine.
        - rewrite Forall_forall in Hall |- *. intros uo Huo.
          rewrite (Hall uo Huo). destruct (snd uo); [reflexivity|].
          apply Hpend. apply in_combine_fst in Huo.
          now apply filter_In in Huo as [Huo _]. }
      intros uid Huid. cbn [map In] in Huid.
      rewrite Hframe; [|tauto]. apply Hothers. intros E. apply Huid.
      now left.
    + subst outs. rewrite (Hidle eq_refl) in *.
      split; [exact Htr|]. split; [exact Hall|]. exact Hframe.
Qed.

(** X12. One run of [send_hourly_notifications] on a store in order: the
    recipients are the active STANDARD users with something pending, in the
    order of the query; each of them gets exactly one push, with the ten
    oldest of their pending posts, and nobody else gets one; where the push
    is accepted nothing is pending for the recipient afterwards (whatever
    the bundle left out included), where it is refused everything stays
    pending; the records of every other user, active or not, STANDARD or
    not, are as they were. *)
Theorem send_hourly_notifications_dispatch
    (utcnow : nat -> Z) (push_message : nat -> bool) (s : St) :
  store_ok (db s) ->
  let recipients :=
    filter (has_pending (db s))
           (Crud.get_active_users_by_tier (db s) STANDARD) in
  let s' := exec (Jobs.send_hourly_notifications utcnow push_message) s in
  let outcomes :=
    answers push_message (calls s) (List.length recipients) in
    trace s' = trace s ++ map (dispatch_event (db s))
                              (combine recipients outcomes) /\
    Forall (fun uo : User.t * bool =>
              Crud.get_pending_notifications_for_user (db s')
                (User.id (fst uo))
              = if snd uo then []
                else Crud.get_pending_notifications_for_user (db s)
                       (User.id (fst uo)))
           (combine recipients outcomes) /\
    (forall uid, ~ In uid (map User.id recipients) ->
       records_of_user (db s') uid = records_of_user (db s) uid).
Proof.
  intros Hok. cbv zeta. unfold Jobs.send_hourly_notifications.
  rewrite exec_bind.
  change (exec (query (fun d => Crud.get_active_users_by_tier d STANDARD)) s)
    with s.
  change (result (query (fun d => Crud.get_active_users_by_tier d STANDARD)) s)
    with (Crud.get_active_users_by_tier (db s) STANDARD).
  apply hourly_loop_dispatch.
  - unfold Crud.get_active_users_by_tier. apply NoDup_map_filter.
    apply (ok_user_ids_unique _ Hok).
  - apply (ok_notification_ids_unique _ Hok).
  - apply (ok_article_refs _ Hok).
Qed.

(** The backlog of twelve posts is a store in order. *)
Lemma backlog_of_twelve_ok : store_ok (backlog 12).
Proof.
  constructor.
  - vm_compute. repeat (constructor; [cbn; intuition congruence|]).
    constructor.
  - vm_compute. repeat (constructor; [lia|]). constructor.
  - vm_compute. repeat (constructor; [cbn; lia|]). constructor.
  - vm_compute. repeat (constructor; [cbn; lia|]). constructor.
  - vm_compute. repeat (constructor; [lia|]). constructor.
  - vm_compute. repeat (constructor; [cbn; lia|]). constructor.
  - vm_compute. repeat (constructor; [cbn; lia|]). constructor.
  - vm_compute. repeat (constructor; [cbn; lia|]). constructor.
  - vm_compute. repeat (constructor; [cbn; intuition congruence|]).
    constructor.
Qed.

(** A backlog of twelve and a push that is accepted: one push, with the
    ten oldest posts, and nothing is pending afterwards. *)
Lemma send_hourly_notifications_dispatch_witness :
  let s := mkSt (backlog 12) [] 0 in
  let s' := exec (Jobs.send_hourly_notifications (fun _ => 3600)
                    (fun _ => true)) s in
  store_ok (backlog 12) /\
  trace s' = [Push "U-standard"
                (map dict_of (map numbered_article (seq 1 10))) true] /\
  Crud.get_pending_notifications_for_user (db s') 2 = [].
Proof.
  split; [exact backlog_of_twelve_ok|].
  destruct (send_hourly_notifications_dispatch (fun _ => 3600)
              (fun _ => true) (mkSt (backlog 12) [] 0) backlog_of_twelve_ok)
    as (Htrace & Hpending & _).
  split.
  - rewrite Htrace. reflexivity.
  - inversion Hpending as [|? ? Hmine _]. exact Hmine.
Defined.

(** ** The crawl of the board ([crawler/ptt_scraper.py]) *)

Lemma nth_error_app_Some {A} (l more : list A) (n : nat) (x : A) :
  nth_error l n = Some x -> nth_error (l ++ more) n = Some x.
Proof.
  intros H. rewrite nth_error_app1; [exact H|].
  apply nth_error_Some. congruence.
Qed.

Lemma in_combine_seq {A} (l : list A) (start n : nat) (x : A) :
  In (n, x) (combine (seq start (List.length l)) l) ->
  (start <= n < start + List.length l)%nat /\
  nth_error l (n - start) = Some x.
Proof.
  revert start. induction l as [|y l IH]; intros start Hin; [contradiction|].
  cbn [List.length seq combine] in Hin. destruct Hin as [E | Hin].
  - inversion E; subst. cbn [List.length]. split; [lia|].
    now rewrite Nat.sub_diag.
  - destruct (IH (S start) Hin) as [Hn Hx]. cbn [List.length].
    split; [lia|].
    replace (n - start)%nat with (S (n - S start)) by lia. exact Hx.
Qed.

Lemma StronglySorted_lt_seq (start len : nat) :
  StronglySorted lt (seq start len).
Proof.
  revert start. induction len as [|len IH]; intros start; cbn;
    constructor; [apply IH|].
  apply Forall_forall. intros n Hn. apply in_seq in Hn. lia.
Qed.

Lemma StronglySorted_lt_app (l1 l2 : list nat) (bound : nat) :
  StronglySorted lt l1 -> StronglySorted lt l2 ->
  Forall (fun n => (n < bound)%nat) l1 ->
  Forall (fun n => (bound <= n)%nat) l2 ->
  StronglySorted lt (l1 ++ l2).
Proof.
  intros H1 H2 Hlow Hhigh. induction H1 as [|x l1 Hl1 IH Hx]; [exact H2|].
  inversion Hlow as [|? ? Hxb Hlow']; subst. cbn [app]. constructor.
  - now apply IH.
  - apply Forall_app. split; [exact Hx|].
    revert Hhigh. apply Forall_impl. intros; lia.
Qed.

Lemma map_fst_combine_seq {A} (l : list A) (start : nat) :
  map fst (combine (seq start (List.length l)) l)
  = seq start (List.length l).
Proof.
  revert start. induction l as [|x l IH]; intros start; [reflexivity|].
  cbn. now rewrite IH.
Qed.

Section Scraper.
Variable PTT_BOARD_URL : string.
Variable keywords : list string.
Variable session_get : nat -> string -> option string.
Variable parse_article_list : string -> list ArticleData.t.
Variable parse_article_content : string -> PTTScraper.ContentData.
Variable get_previous_page_url : string -> option string.

Lemma get_article_content_spec (url : string) (w : PTTScraper.Web) :
  PTTScraper.get_article_content session_get parse_article_content url w
  = (content_at session_get parse_article_content
       (List.length (PTTScraper.requests w)) url,
     PTTScraper.mkWeb (PTTScraper.requests w ++ [url])).
Proof.
  unfold PTTScraper.get_article_content, PTTScraper.fetch_page, content_at,
    bind, ret.
  destruct (session_get (List.length (PTTScraper.requests w)) url)
    as [text|]; [|reflexivity].
  now destruct (PyStr.truthy text).
Qed.

(** The inner loop: one request for each article the filter kept, in
    order, and one article handed over for each. *)
Lemma fetch_contents_spec (filtered : list ArticleData.t) :
  forall w,
  PTTScraper.fetch_contents session_get parse_article_content filtered w
  = (map (handed_over session_get parse_article_content)
         (combine (seq (List.length (PTTScraper.requests w))
                       (List.length filtered))
                  filtered),
     PTTScraper.mkWeb
       (PTTScraper.requests w ++ map ArticleData.url filtered)).
Proof.
  induction filtered as [|article rest IH]; intros w.
  - cbn. unfold ret. rewrite app_nil_r. now destruct w.
  - cbn [PTTScraper.fetch_contents]. unfold bind at 1.
    rewrite get_article_content_spec. unfold bind at 1. rewrite IH.
    unfold ret. cbn [PTTScraper.requests List.length seq combine map].
    rewrite length_app, Nat.add_1_r, <- app_assoc. reflexivity.
Qed.

Lemma update_keeps_identity (entry : ArticleData.t)
    (content_data : option PTTScraper.ContentData) :
  ArticleData.article_id (PTTScraper.update entry content_data)
  = ArticleData.article_id entry /\
  ArticleData.url (PTTScraper.update entry content_data)
  = ArticleData.url entry.
Proof. now destruct content_data. Qed.

Lemma in_filter_by_keywords (articles : list ArticleData.t)
    (entry : ArticleData.t) :
  In entry (Parser.filter_by_keywords articles keywords) ->
  In entry articles /\ kept keywords entry.
Proof.
  unfold Parser.filter_by_keywords. intros Hin.
  apply filter_In in Hin as [Hin Hk]. split; [exact Hin|].
  apply existsb_exists in Hk as (keyword & Hkw & Hhit). now exists keyword.
Qed.

(** What was picked in a run stays picked when the session goes on, and
    when the run is taken to have started earlier. *)
Lemma picked_longer (w0 w w' : PTTScraper.Web) (more : list string)
    (pick : nat * ArticleData.t) :
  (List.length (PTTScraper.requests w0)
   <= List.length (PTTScraper.requests w))%nat ->
  picked keywords session_get parse_article_list w w' pick ->
  picked keywords session_get parse_article_list w0
    (PTTScraper.mkWeb (PTTScraper.requests w' ++ more)) pick.
Proof.
  intros Hle (Hreq & Hkept & n & url & text & Hn & Hlist & Hget & Ht & Hin).
  split; [|split; [exact Hkept|]].
  - cbn [PTTScraper.requests]. now apply nth_error_app_Some.
  - exists n, url, text. split; [lia|]. split; [|now repeat split].
    cbn [PTTScraper.requests]. now apply nth_error_app_Some.
Qed.

(** One list page that was answered: what the inner loop picks from it. *)
Lemma picks_of_one_page (w : PTTScraper.Web) (current_url text : string) :
  session_get (List.length (PTTScraper.requests w)) current_url = Some text ->
  PyStr.truthy text = true ->
  let filtered :=
    Parser.filter_by_keywords (parse_article_list text) keywords in
  let w1 :=
    PTTScraper.mkWeb
      ((PTTScraper.requests w ++ [current_url])
       ++ map ArticleData.url filtered) in
  let picks :=
    combine (seq (S (List.length (PTTScraper.requests w)))
                 (List.length filtered)) filtered in
  Forall (picked keywords session_get parse_article_list w w1) picks /\
  Forall (fun n => (n < List.length (PTTScraper.requests w1))%nat)
         (map fst picks).
Proof.
  intros Hpage Htext filtered w1 picks.
  assert (Hlen : List.length (PTTScraper.requests w1)
                 = (S (List.length (PTTScraper.requests w))
                    + List.length filtered)%nat).
  { subst w1. cbn [PTTScraper.requests].
    rewrite !length_app, length_map. cbn [List.length]. lia. }
  split.
  - apply Forall_forall. intros [n entry] Hin.
    apply in_combine_seq in Hin as [Hn Hentry].
    assert (Hmember : In entry filtered) by (eapply nth_error_In; eauto).
    apply in_filter_by_keywords in Hmember as [Hlisted Hkept].
    split; [|split; [exact Hkept|]].
    + subst w1. cbn [PTTScraper.requests fst snd].
      rewrite nth_error_app2; rewrite length_app; cbn [List.length];
        [|lia].
      replace (n - (List.length (PTTScraper.requests w) + 1))%nat
        with (n - S (List.length (PTTScraper.requests w)))%nat by lia.
      now rewrite nth_error_map, Hentry.
    + exists (List.length (PTTScraper.requests w)), current_url, text.
      cbn [fst snd]. split; [lia|]. split; [|now repeat split].
      subst w1. cbn [PTTScraper.requests]. apply nth_error_app_Some.
      rewrite nth_error_app2 by lia. now rewrite Nat.sub_diag.
  - subst picks. rewrite map_fst_combine_seq. apply Forall_forall.
    intros n Hn. apply in_seq in Hn. lia.
Qed.

(** What [get_filtered_articles] leaves behind, for the loop started at
    any page. *)
Lemma pages_loop_spec (remaining : nat) :
  forall current_url w,
  crawl_post keywords session_get parse_article_list parse_article_content
    remaining current_url w
    (PTTScraper.pages_loop keywords session_get parse_article_list
       parse_article_content get_previous_page_url remaining current_url w).
Proof.
  induction remaining as [|later IH]; intros current_url w.
  - split.
    + exists 0%nat, (@nil string). cbn. rewrite app_nil_r.
      split; [lia|]. split; [reflexivity|]. split; [lia | reflexivity].
    + exists []. cbn. repeat split; constructor.
  - cbn [PTTScraper.pages_loop]. unfold bind at 1.
    unfold PTTScraper.fetch_page at 1.
    set (w0 := PTTScraper.mkWeb (PTTScraper.requests w ++ [current_url])).
    assert (Hstop : crawl_post keywords session_get parse_article_list
                      parse_article_content (S later) current_url w
                      ([], w0)).
    { split.
      - exists 1%nat, [current_url]. cbn [fst snd PTTScraper.requests].
        split; [lia|]. split; [reflexivity|].
        split; [|reflexivity]. intros _. split; [lia|]. now exists [].
      - exists []. cbn. repeat split; constructor. }
    destruct (session_get (List.length (PTTScraper.requests w)) current_url)
      as [text|] eqn:Epage; [|exact Hstop].
    destruct (PyStr.truthy text) eqn:Etext; cbn [negb]; [|exact Hstop].
    clear Hstop. unfold bind at 1. rewrite fetch_contents_spec.
    destruct (picks_of_one_page w current_url text Epage Etext)
      as [Hpicked Hbelow].
    cbv zeta in Hpicked, Hbelow.
    set (filtered := Parser.filter_by_keywords (parse_article_list text)
                       keywords) in *.
    assert (Hw0 : List.length (PTTScraper.requests w0)
                  = S (List.length (PTTScraper.requests w))).
    { subst w0. cbn [PTTScraper.requests]. rewrite length_app.
      cbn [List.length]. lia. }
    rewrite Hw0.
    set (picks := combine (seq (S (List.length (PTTScraper.requests w)))
                               (List.length filtered)) filtered) in *.
    set (found := map (handed_over session_get parse_article_content) picks).
    change (PTTScraper.requests w0 ++ map ArticleData.url filtered)
      with ((PTTScraper.requests w ++ [current_url])
            ++ map ArticleData.url filtered).
    set (w1 := PTTScraper.mkWeb
                 ((PTTScraper.requests w ++ [current_url])
                  ++ map ArticleData.url filtered)) in *.
    assert (Hfound : List.length found = List.length filtered).
    { subst found picks. rewrite length_map, length_combine, length_seq.
      lia. }
    assert (Hsorted : StronglySorted lt (map fst picks)).
    { subst picks. rewrite map_fst_combine_seq.
      apply StronglySorted_lt_seq. }
    assert (Hone : crawl_post keywords session_get parse_article_list
                     parse_article_content (S later) current_url w
                     (found, w1)).
    { split.
      - exists 1%nat, (current_url :: map ArticleData.url filtered).
        cbn [fst snd]. split; [lia|]. split.
        { subst w1. cbn [PTTScraper.requests].
          now rewrite <- app_assoc. }
        split; [intros _; split; [lia | now eexists]|].
        cbn [List.length]. rewrite length_map. lia.
      - exists picks. cbn [fst snd]. now repeat split. }
    destruct later as [|later']; [exact Hone|].
    destruct (get_previous_page_url text) as [prev_url|]; [|exact Hone].
    destruct (PyStr.truthy prev_url); cbn [negb]; [|exact Hone].
    clear Hone. unfold bind at 1.
    specialize (IH prev_url w1).
    destruct (PTTScraper.pages_loop keywords session_get parse_article_list
                parse_article_content get_previous_page_url (S later')
                prev_url w1) as [older w2].
    destruct IH as ((pages_more & more & Hle & Hreq & Hfirst & Hcount)
                    & picks2 & Holder & Hsorted2 & Hpicked2).
    cbn [fst snd] in *. unfold ret. cbn [fst snd].
    assert (Hw2 : w2 = PTTScraper.mkWeb (PTTScraper.requests w1 ++ more)).
    { destruct w2 as [r2]. cbn [PTTScraper.requests] in Hreq. now subst r2. }
    unfold crawl_post. cbn [fst snd]. split.
    + exists (S pages_more),
        (current_url :: map ArticleData.url filtered ++ more).
      split; [lia|]. split.
      { rewrite Hreq. subst w1. cbn [PTTScraper.requests].
        now rewrite <- !app_assoc. }
      split; [intros _; split; [lia | now eexists]|].
      cbn [List.length]. rewrite !length_app, length_map, Hcount, Hfound.
      lia.
    + exists (picks ++ picks2). split; [|split].
      * now rewrite map_app, Holder.
      * rewrite map_app.
        apply (StronglySorted_lt_app _ _
                 (List.length (PTTScraper.requests w1)));
          [exact Hsorted | exact Hsorted2 | exact Hbelow |].
        apply Forall_forall. intros n Hn.
        apply in_map_iff in Hn as (pick & <- & Hpick).
        rewrite Forall_forall in Hpicked2.
        destruct (Hpicked2 pick Hpick)
          as (_ & _ & m & _ & _ & Hm & _). lia.
      * apply Forall_app. split.
        { rewrite Hw2. revert Hpicked. apply Forall_impl. intros pick Hp.
          apply (picked_longer w w w1 more pick); [lia | exact Hp]. }
        { revert Hpicked2. apply Forall_impl. intros pick Hp.
          replace w2 with (PTTScraper.mkWeb (PTTScraper.requests w2 ++ []))
            by (rewrite app_nil_r; now destruct w2).
          apply (picked_longer w w1 w2 [] pick); [|exact Hp].
          subst w1. cbn [PTTScraper.requests]. rewrite !length_app. lia. }
Qed.

End Scraper.

(** X13. [get_filtered_articles], whatever the board answers and whatever
    the parsers read.  It requests at most [pages] list pages (none when
    [pages] is zero, else at least the board's own, first) and beyond them
    exactly one page for each article it returns, and the requests made
    before stay as they were.  The articles it returns are, in the order
    of their requests, one for each request that went to the page of an
    entry; such an entry has a keyword in its listed title and is listed
    on a page an earlier request of the run was answered with.  The
    article returned for it has the entry's [article_id] and [url]; it is
    the entry as listed exactly when that request failed or gave an empty
    page, and else the entry with title, author, content and time replaced
    by what [parse_article_content] reads from the page it gave (so the
    title returned need not be the one the filter saw). *)
Theorem get_filtered_articles_accounts
    (PTT_BOARD_URL : string) (keywords : list string)
    (session_get : nat -> string -> option string)
    (parse_article_list : string -> list ArticleData.t)
    (parse_article_content : string -> PTTScraper.ContentData)
    (get_previous_page_url : string -> option string)
    (pages : nat) (w : PTTScraper.Web) :
  let run := PTTScraper.get_filtered_articles PTT_BOARD_URL keywords
               session_get parse_article_list parse_article_content
               get_previous_page_url pages w in
  let found := fst run in
  let w' := snd run in
  (exists (board_pages : nat) (later : list string),
     (board_pages <= pages)%nat /\
     PTTScraper.requests w' = PTTScraper.requests w ++ later /\
     ((0 < pages)%nat ->
      (0 < board_pages)%nat /\ exists rest, later = PTT_BOARD_URL :: rest) /\
     List.length later = (board_pages + List.length found)%nat) /\
  exists picks : list (nat * ArticleData.t),
    found
    = map (fun pick =>
             PTTScraper.update (snd pick)
               (match session_get (fst pick) (ArticleData.url (snd pick)) with
                | Some text =>
                  if PyStr.truthy text
                  then Some (parse_article_content text) else None
                | None => None
                end)) picks /\
    map ArticleData.article_id found
    = map (fun pick => ArticleData.article_id (snd pick)) picks /\
    map ArticleData.url found
    = map (fun pick => ArticleData.url (snd pick)) picks /\
    StronglySorted lt (map fst picks) /\
    Forall (fun pick =>
              nth_error (PTTScraper.requests w') (fst pick)
              = Some (ArticleData.url (snd pick)) /\
              (exists keyword, In keyword keywords /\
                 PyStr.str_in keyword (ArticleData.title (snd pick)) = true) /\
              exists (n : nat) (url text : string),
                (List.length (PTTScraper.requests w) <= n < fst pick)%nat /\
                nth_error (PTTScraper.requests w') n = Some url /\
                session_get n url = Some text /\ PyStr.truthy text = true /\
                In (snd pick) (parse_article_list text))
           picks.
Proof.
  cbv zeta. unfold PTTScraper.get_filtered_articles.
  destruct (pages_loop_spec keywords session_get parse_article_list
              parse_article_content get_previous_page_url pages
              PTT_BOARD_URL w)
    as [Hrequests (picks & Hfound & Hsorted & Hpicked)].
  split; [exact Hrequests|]. exists picks.
  split; [exact Hfound|]. rewrite Hfound, !map_map.
  split; [|split; [|split; [exact Hsorted | exact Hpicked]]];
    apply map_ext; intros pick; unfold handed_over;
    apply update_keeps_identity.
Qed.

(** A run on a board of one page that lists two posts, of which one has the
    keyword in its title, and whose own page shows another title: two
    requests, and the title handed over is the one of the post's page. *)
Example get_new_articles_run :
  let entry_a := ArticleData.mk "M.1.A.001" "[請益] 信貸" "u1" ""
                   "https://www.ptt.cc/bbs/Loan/M.1.A.001.html" None in
  let entry_b := ArticleData.mk "M.2.A.002" "[閒聊] 房價" "u2" ""
                   "https://www.ptt.cc/bbs/Loan/M.2.A.002.html" None in
  let session_get := fun (_ : nat) (url : string) =>
    if String.eqb url "https://www.ptt.cc/bbs/Loan/index.html"
    then Some "board"%string
    else if String.eqb url "https://www.ptt.cc/bbs/Loan/M.1.A.001.html"
    then Some "post"%string else None in
  PTTScraper.get_new_articles "https://www.ptt.cc/bbs/Loan/index.html"
    ["信貸"%string] session_get (fun _ => [entry_a; entry_b])
    (fun _ => PTTScraper.mkContentData "body" (Some 60) "u1" "Re: [請益]" "Loan")
    (fun _ => None) (PTTScraper.mkWeb [])
  = ([ArticleData.mk "M.1.A.001" "Re: [請益]" "u1" "body"
        "https://www.ptt.cc/bbs/Loan/M.1.A.001.html" (Some 60)],
     PTTScraper.mkWeb ["https://www.ptt.cc/bbs/Loan/index.html"%string;
                       "https://www.ptt.cc/bbs/Loan/M.1.A.001.html"%string]).
Proof. reflexivity. Qed.

(** ** What is pending for a user the hourly dispatch does not serve *)














Lemma filter_filter_pointwise {A} (f g h : A -> bool) (l : list A) :
  (forall x, In x l -> h x = (g x && f x)%bool) ->
  filter f (filter g l) = filter h l.
Proof.
  induction l as [|x l IH]; intros H; [reflexivity|].
  cbn [filter]. rewrite (H x (or_introl eq_refl)).
  rewrite <- (IH (fun y Hy => H y (or_intror Hy))).
  destruct (g x); cbn [andb filter]; [|reflexivity].
  now destruct (f x).
Qed.





(** ** The immediate tier in a whole tick ([scheduler/jobs.py]) *)

Lemma exec_for_each_app {S A} (l1 l2 : list A) (body : A -> State S unit)
    (s : S) :
  exec (for_each (l1 ++ l2) body) s
  = exec (for_each l2 body) (exec (for_each l1 body) s).
Proof.
  revert s. induction l1 as [|x l1 IH]; intros s; [reflexivity|].
  cbn [app]. now rewrite !exec_for_each_cons, IH.
Qed.

(** A tick, cut at one of its candidates: the candidates before it, the
    candidate, the candidates after it; the recipients are those the store
    holds when the tick starts. *)
Lemma crawl_and_notify_cut (settings : Config.Settings) (utcnow : nat -> Z)
    (push_message : nat -> bool) (before after : list ArticleData.t)
    (x : ArticleData.t) (s : St) :
  result (Jobs.is_within_schedule_hours settings utcnow) s = true ->
  let turn :=
    Jobs.process_candidate utcnow push_message
      (filter (fun u => UserTier_eqb (User.tier u) PREMIUM)
              (Crud.get_all_active_users (db s)))
      (filter (fun u => UserTier_eqb (User.tier u) STANDARD)
              (Crud.get_all_active_users (db s))) in
  exec (Jobs.crawl_and_notify settings utcnow push_message
          (before ++ x :: after)) s
  = exec (for_each after turn)
         (exec (turn x)
               (exec (Jobs.crawl_and_notify settings utcnow push_message
                        before) s)).
Proof.
  intros Hwithin turn. unfold Jobs.crawl_and_notify.
  rewrite !exec_bind, Hwithin. cbn [negb]. rewrite !exec_bind.
  set (sa := exec (Jobs.is_within_schedule_hours settings utcnow) s).
  change (result (Jobs.crawl_new_articles (before ++ x :: after)) sa)
    with (before ++ x :: after).
  change (result (Jobs.crawl_new_articles before) sa) with before.
  change (exec (Jobs.crawl_new_articles (before ++ x :: after)) sa)
    with (exec (Jobs.crawl_new_articles before) sa).
  set (sb := exec (Jobs.crawl_new_articles before) sa).
  assert (Hsb : db sb = db s) by reflexivity.
  assert (Hturn :
    exec (for_each (before ++ x :: after) turn) sb
    = exec (for_each after turn)
           (exec (turn x) (exec (for_each before turn) sb))).
  { now rewrite exec_for_each_app, exec_for_each_cons. }
  destruct before as [|b before].
  - cbn [app]. rewrite exec_bind.
    change (exec (query Crud.get_all_active_users) sb) with sb.
    change (result (query Crud.get_all_active_users) sb)
      with (Crud.get_all_active_users (db sb)).
    rewrite Hsb. fold turn. exact Hturn.
  - cbn [app]. rewrite !exec_bind.
    change (exec (query Crud.get_all_active_users) sb) with sb.
    change (result (query Crud.get_all_active_users) sb)
      with (Crud.get_all_active_users (db sb)).
    rewrite Hsb. fold turn. exact Hturn.
Qed.

(** The PREMIUM loop of one article, subscriber by subscriber. *)
Lemma premium_loop_fanout (utcnow : nat -> Z) (push_message : nat -> bool)
    (a : Article.t) (premium_users : list User.t) :
  NoDup (map User.id premium_users) ->
  forall s,
  notification_ids_fresh (db s) ->
  (forall u, In u premium_users ->
             records_for (db s) (User.id u) (Article.id a) = []) ->
  let s' := exec (for_each premium_users
                    (Jobs.notify_premium utcnow push_message a)) s in
  let asked :=
    combine premium_users
            (fanout_calls push_message (calls s)
                          (List.length premium_users)) in
  trace s' = trace s ++
             map (fun uc => Push (User.line_user_id (fst uc)) [dict_of a]
                                 (push_message (snd uc))) asked /\
  Forall (recorded_after_push utcnow push_message (db s') (Article.id a))
         asked /\
  (forall uid, ~ In uid (map User.id premium_users) ->
     records_for (db s') uid (Article.id a)
     = records_for (db s) uid (Article.id a)) /\
  notification_ids_fresh (db s').
Proof.
  induction premium_users as [|u rest IH]; intros Hnd s Hfresh Hnone.
  - cbn. rewrite app_nil_r. repeat split; [constructor | assumption].
  - cbv zeta. rewrite exec_for_each_cons.
    cbn in Hnd. inversion Hnd as [|? ? Hnotin Hnd']; subst.
    destruct (notify_premium_step utcnow push_message a u s Hfresh)
      as (Ht & Hd & Hc & Hf).
    set (s1 := exec (Jobs.notify_premium utcnow push_message a u) s) in *.
    assert (Hrec : forall uid,
      records_for (db s1) uid (Article.id a)
      = records_for (db s) uid (Article.id a) ++
        (if (push_message (calls s) && Nat.eqb (User.id u) uid)%bool
         then [Notification.mk (notifications_id_seq (db s)) (User.id u)
                 (Article.id a) (Some (utcnow (S (S (calls s)))))
                 (utcnow (S (calls s)))]
         else [])).
    { intros uid. rewrite Hd. destruct (push_message (calls s));
        cbn [andb]; [|now rewrite app_nil_r].
      unfold records_for at 1. cbn [notifications].
      rewrite records_for_app. cbn [filter Notification.user_id
                                    Notification.article_id].
      rewrite Nat.eqb_refl, andb_true_r. reflexivity. }
    destruct (IH Hnd' s1 Hf) as (Htr & Hall & Hframe & Hf').
    { intros v Hv. rewrite Hrec, (Hnone v (or_intror Hv)).
      assert (Nat.eqb (User.id u) (User.id v) = false) as ->.
      { apply Nat.eqb_neq. intros E. apply Hnotin. rewrite E.
        now apply in_map. }
      now rewrite andb_false_r. }
    cbn [List.length fanout_calls combine map].
    replace (if push_message (calls s) then (3 + calls s)%nat
             else (1 + calls s)%nat) with (calls s1)
      by (rewrite Hc; reflexivity).
    split; [|split; [|split]].
    + rewrite Htr, Ht, <- app_assoc. reflexivity.
    + constructor; [|exact Hall].
      unfold recorded_after_push. cbn [fst snd].
      rewrite (Hframe (User.id u) Hnotin), Hrec,
        (Hnone u (or_introl eq_refl)), Nat.eqb_refl, andb_true_r.
      destruct (push_message (calls s)); [|reflexivity].
      now exists (notifications_id_seq (db s)).
    + intros uid Huid. cbn [map In] in Huid.
      rewrite Hframe; [|tauto]. rewrite Hrec.
      assert (Nat.eqb (User.id u) uid = false) as ->.
      { apply Nat.eqb_neq. tauto. }
      now rewrite andb_false_r, app_nil_r.
    + exact Hf'.
Qed.

(** The STANDARD loop writes for its own subscribers only, and calls
    nothing outside but the clock. *)
Lemma standard_loop_writes_for_its_users (utcnow : nat -> Z) (a : Article.t)
    (standard_users : list User.t) :
  forall s,
  let s' := exec (for_each standard_users (Jobs.queue_standard utcnow a)) s in
  trace s' = trace s /\
  exists queued,
    notifications (db s') = notifications (db s) ++ queued /\
    Forall (fun n => In (Notification.user_id n)
                        (map User.id standard_users)) queued.
Proof.
  induction standard_users as [|u rest IH]; intros s.
  - cbn. split; [reflexivity|]. exists []. now rewrite app_nil_r.
  - cbv zeta. rewrite exec_for_each_cons.
    set (s1 := exec (Jobs.queue_standard utcnow a u) s).
    assert (Hstep : trace s1 = trace s /\
              exists q1, notifications (db s1) = notifications (db s) ++ q1 /\
                Forall (fun n => Notification.user_id n = User.id u) q1).
    { subst s1.
      unfold exec, Jobs.queue_standard, Jobs.create_notification, bind,
        query, ask, commit, ret. cbn [fst snd db trace calls].
      destruct (Crud.has_notification_for_article (db s) (User.id u)
                  (Article.id a)); cbn [negb fst snd db trace calls].
      - split; [reflexivity|]. exists []. now rewrite app_nil_r.
      - split; [reflexivity|]. eexists [_]. cbn. split; [reflexivity|].
        constructor; [reflexivity | constructor]. }
    destruct Hstep as (Ht1 & q1 & Hn1 & Hq1).
    destruct (IH s1) as (Ht2 & q2 & Hn2 & Hq2).
    split; [congruence|]. exists (q1 ++ q2).
    split; [now rewrite Hn2, Hn1, app_assoc|].
    apply Forall_app. split.
    + revert Hq1. apply Forall_impl. intros n ->. now left.
    + revert Hq2. apply Forall_impl. intros n Hn. now right.
Qed.

Lemma store_ok_db_wf (d : DB) : store_ok d -> db_wf d.
Proof.
  intros Hok. split; [split|].
  - apply (ok_article_ptt_ids _ Hok).
  - apply (ok_article_ids _ Hok).
  - apply (ok_notification_ids _ Hok).
Qed.

Lemma records_for_of_article (d d' : DB) (uid aid : nat) :
  records_of_article d' aid = records_of_article d aid ->
  records_for d' uid aid = records_for d uid aid.
Proof.
  intros E.
  assert (H : forall x, records_for x uid aid
              = filter (fun n => Nat.eqb (Notification.user_id n) uid)
                       (records_of_article x aid)).
  { intros x. unfold records_for, records_of_article. symmetry.
    apply filter_filter_pointwise. intros n _. apply andb_comm. }
  now rewrite !H, E.
Qed.

(** The turn of a candidate that is new to the store. *)
Lemma process_new_candidate (utcnow : nat -> Z) (push_message : nat -> bool)
    (premium_users standard_users : list User.t) (ad : ArticleData.t)
    (s : St) :
  store_ok (db s) ->
  NoDup (map User.id premium_users) ->
  (forall u, In u premium_users ->
             ~ In (User.id u) (map User.id standard_users)) ->
  ArticleData.article_id ad <> ""%string ->
  Crud.get_article_by_ptt_id (db s) (ArticleData.article_id ad) = None ->
  let a := result (Jobs.create_article utcnow ad) s in
  let s' := exec (Jobs.process_candidate utcnow push_message premium_users
                    standard_users ad) s in
  let asked :=
    combine premium_users
            (fanout_calls push_message (S (calls s))
                          (List.length premium_users)) in
  articles (db s') = articles (db s) ++ [a] /\
  (forall uid, records_for (db s) uid (Article.id a) = []) /\
  trace s' = trace s ++
             map (fun uc => Push (User.line_user_id (fst uc)) [dict_of a]
                                 (push_message (snd uc))) asked /\
  Forall (recorded_after_push utcnow push_message (db s') (Article.id a))
         asked.
Proof.
  intros Hok Hnd Hapart Hid Hnew. cbv zeta. unfold Jobs.process_candidate.
  cbv zeta. rewrite (truthy_true _ Hid). cbn [negb].
  rewrite exec_bind.
  change (result (query (fun d => Crud.get_article_by_ptt_id d
                                    (ArticleData.article_id ad))) s)
    with (Crud.get_article_by_ptt_id (db s) (ArticleData.article_id ad)).
  change (exec (query (fun d => Crud.get_article_by_ptt_id d
                                  (ArticleData.article_id ad))) s) with s.
  rewrite Hnew, exec_bind.
  set (a := result (Jobs.create_article utcnow ad) s).
  set (s1 := exec (Jobs.create_article utcnow ad) s).
  assert (Haid : Article.id a = articles_id_seq (db s)) by reflexivity.
  assert (Hn1 : notifications (db s1) = notifications (db s)) by reflexivity.
  assert (Ha1 : articles (db s1) = articles (db s) ++ [a]) by reflexivity.
  assert (Ht1 : trace s1 = trace s) by reflexivity.
  assert (Hc1 : calls s1 = S (calls s)) by reflexivity.
  assert (Hf1 : notification_ids_fresh (db s1)).
  { unfold notification_ids_fresh. rewrite Hn1.
    apply (ok_notification_ids _ Hok). }
  assert (Hnone : forall uid, records_for (db s) uid (Article.id a) = []).
  { intros uid. rewrite Haid. now apply unknown_article_has_no_record. }
  assert (Hnone1 : forall uid, records_for (db s1) uid (Article.id a) = []).
  { intros uid. unfold records_for. rewrite Hn1. apply Hnone. }
  rewrite exec_bind.
  destruct (premium_loop_fanout utcnow push_message a premium_users Hnd s1
              Hf1 (fun u _ => Hnone1 (User.id u)))
    as (Htr & Hall & _ & _).
  set (s2 := exec (for_each premium_users
                     (Jobs.notify_premium utcnow push_message a)) s1) in *.
  assert (Ha2 : articles (db s2) = articles (db s1)).
  { destruct (premium_loop_outcomes utcnow push_message a premium_users s1
                Hf1) as (_ & _ & _ & _ & _ & _ & _ & Ha & _). exact Ha. }
  destruct (standard_loop_writes_for_its_users utcnow a standard_users s2)
    as (Ht3 & queued & Hn3 & Hq).
  set (s3 := exec (for_each standard_users (Jobs.queue_standard utcnow a))
                  s2) in *.
  assert (Ha3 : articles (db s3) = articles (db s2)).
  { destruct (standard_loop_queues utcnow a standard_users s2)
      as (_ & _ & _ & _ & Ha & _); [|exact Ha].
    destruct (premium_loop_outcomes utcnow push_message a premium_users s1
                Hf1) as (_ & _ & _ & _ & _ & _ & _ & _ & _ & _ & Hf2).
    exact Hf2. }
  split; [congruence|]. split; [exact Hnone|]. split.
  - rewrite Ht3, Htr, Ht1, Hc1. reflexivity.
  - rewrite Hc1 in Hall. apply Forall_forall. intros uc Hin.
    rewrite Forall_forall in Hall. pose proof (Hall uc Hin) as Huc.
    assert (Hsame : records_for (db s3) (User.id (fst uc)) (Article.id a)
                    = records_for (db s2) (User.id (fst uc)) (Article.id a)).
    { unfold records_for at 1. rewrite Hn3, filter_app.
      rewrite (filter_none _ queued); [now rewrite app_nil_r|].
      intros n Hn. apply andb_false_iff. left. apply Nat.eqb_neq.
      intros E. rewrite Forall_forall in Hq. specialize (Hq n Hn).
      rewrite E in Hq. apply (Hapart (fst uc)); [|exact Hq].
      now apply in_combine_fst in Hin. }
    unfold recorded_after_push in *. now rewrite Hsame.
Qed.

Lemma process_candidate_extends_trace (utcnow : nat -> Z)
    (push_message : nat -> bool) (premium_users standard_users : list User.t)
    (ad : ArticleData.t) (s : St) :
  notification_ids_fresh (db s) ->
  exists later,
    trace (exec (Jobs.process_candidate utcnow push_message premium_users
                   standard_users ad) s) = trace s ++ later.
Proof.
  intros Hfresh. unfold Jobs.process_candidate. cbv zeta.
  destruct (PyStr.truthy (ArticleData.article_id ad)); cbn [negb];
    [|exists []; now rewrite app_nil_r].
  rewrite exec_bind.
  change (result (query (fun d => Crud.get_article_by_ptt_id d
                                    (ArticleData.article_id ad))) s)
    with (Crud.get_article_by_ptt_id (db s) (ArticleData.article_id ad)).
  change (exec (query (fun d => Crud.get_article_by_ptt_id d
                                  (ArticleData.article_id ad))) s) with s.
  destruct (Crud.get_article_by_ptt_id (db s) (ArticleData.article_id ad));
    [exists []; now rewrite app_nil_r|].
  rewrite exec_bind.
  set (a := result (Jobs.create_article utcnow ad) s).
  set (s1 := exec (Jobs.create_article utcnow ad) s).
  assert (Ht1 : trace s1 = trace s) by reflexivity.
  assert (Hf1 : notification_ids_fresh (db s1)) by exact Hfresh.
  rewrite exec_bind.
  destruct (premium_loop_outcomes utcnow push_message a premium_users s1 Hf1)
    as (outcomes & _ & Htr & _).
  destruct (standard_loop_writes_for_its_users utcnow a standard_users
              (exec (for_each premium_users
                       (Jobs.notify_premium utcnow push_message a)) s1))
    as (Ht3 & _).
  eexists. rewrite Ht3, Htr, Ht1. reflexivity.
Qed.

Lemma feed_loop_extends_trace (utcnow : nat -> Z)
    (push_message : nat -> bool) (premium_users standard_users : list User.t)
    (feed : list ArticleData.t) :
  forall s, db_wf (db s) ->
  exists later,
    trace (exec (for_each feed
                   (Jobs.process_candidate utcnow push_message premium_users
                      standard_users)) s) = trace s ++ later.
Proof.
  induction feed as [|x rest IH]; intros s Hwf.
  - exists []. now rewrite app_nil_r.
  - rewrite exec_for_each_cons.
    destruct (process_candidate_extends_trace utcnow push_message
                premium_users standard_users x s (proj2 Hwf)) as (l1 & H1).
    destruct (process_candidate_step utcnow push_message premium_users
                standard_users x s Hwf) as (Hwf1 & _).
    destruct (IH _ Hwf1) as (l2 & H2).
    exists (l1 ++ l2). now rewrite H2, H1, app_assoc.
Qed.

(** C2, amended.  In a tick of [crawl_and_notify] inside the window, take a
    candidate with an id that is new to the store when its turn comes (the
    candidates [before] it have had theirs).  Its row is stored, and the
    active PREMIUM users of the store get one push each, in the order of the
    query, and nobody else gets one in this turn.  Nothing is in the ledger
    for the article and any user when the first push goes out.  For a user
    whose push the API accepts, the ledger holds exactly one notification
    of the article when the tick ends, created at the reading of the clock
    that follows the push and marked sent at the next one; for a user whose
    push is refused it holds none, whatever the candidates [after] bring. *)
Theorem immediate_fanout_records_successes_only
    (settings : Config.Settings) (utcnow : nat -> Z)
    (push_message : nat -> bool) (before after : list ArticleData.t)
    (article_data : ArticleData.t) (s : St) :
  store_ok (db s) ->
  result (Jobs.is_within_schedule_hours settings utcnow) s = true ->
  let s0 := exec (Jobs.crawl_and_notify settings utcnow push_message before)
                 s in
  ArticleData.article_id article_data <> ""%string ->
  Crud.get_article_by_ptt_id (db s0) (ArticleData.article_id article_data)
    = None ->
  let s1 := exec (Jobs.crawl_and_notify settings utcnow push_message
                    (before ++ [article_data])) s in
  let s' := exec (Jobs.crawl_and_notify settings utcnow push_message
                    (before ++ article_data :: after)) s in
  let premium_users :=
    filter (fun u => UserTier_eqb (User.tier u) PREMIUM)
           (Crud.get_all_active_users (db s)) in
  let db_article := result (Jobs.create_article utcnow article_data) s0 in
  let asked :=
    combine premium_users
            (fanout_calls push_message (S (calls s0))
                          (List.length premium_users)) in
  In db_article (articles (db s')) /\
  Article.article_id db_article = ArticleData.article_id article_data /\
  (forall uid, records_for (db s0) uid (Article.id db_article) = []) /\
  trace s1 = trace s0 ++
             map (fun uc => Push (User.line_user_id (fst uc))
                                 [dict_of db_article]
                                 (push_message (snd uc))) asked /\
  (exists later, trace s' = trace s1 ++ later) /\
  Forall (recorded_after_push utcnow push_message (db s')
            (Article.id db_article)) asked.
Proof.
  intros Hok Hwithin s0 Hid Hnew. cbv zeta.
  set (premium := filter (fun u => UserTier_eqb (User.tier u) PREMIUM)
                         (Crud.get_all_active_users (db s))).
  set (standard := filter (fun u => UserTier_eqb (User.tier u) STANDARD)
                          (Crud.get_all_active_users (db s))).
  pose proof (crawl_and_notify_cut settings utcnow push_message before []
                article_data s Hwithin) as Hcut1.
  pose proof (crawl_and_notify_cut settings utcnow push_message before after
                article_data s Hwithin) as Hcut.
  cbv zeta in Hcut1, Hcut. fold premium standard s0 in Hcut1, Hcut.
  change (exec (for_each [] _) ?st) with st in Hcut1.
  rewrite Hcut, Hcut1. clear Hcut Hcut1.
  destruct (crawl_and_notify_ok settings utcnow push_message before s Hok)
    as [Hok0 Hu0]. fold s0 in Hok0, Hu0.
  assert (Hnd : NoDup (map User.id premium)).
  { unfold premium, Crud.get_all_active_users.
    do 2 apply NoDup_map_filter. apply (ok_user_ids_unique _ Hok). }
  assert (Hapart : forall u, In u premium ->
                             ~ In (User.id u) (map User.id standard)).
  { intros u Hu Hin. apply in_map_iff in Hin as (v & E & Hv).
    apply filter_In in Hu as [Hu Hpremium].
    apply filter_In in Hv as [Hv Hstandard].
    unfold Crud.get_all_active_users in Hu, Hv.
    apply filter_In in Hu as [Hu _]. apply filter_In in Hv as [Hv _].
    assert (v = u)
      by (eapply NoDup_map_inj;
          [apply (ok_user_ids_unique _ Hok) | | | ]; eassumption).
    subst v. destruct (User.tier u); discriminate. }
  destruct (process_new_candidate utcnow push_message premium standard
              article_data s0 Hok0 Hnd Hapart Hid Hnew)
    as (Ha1 & Hnone & Htr & Hall).
  set (a := result (Jobs.create_article utcnow article_data) s0) in *.
  set (s1 := exec (Jobs.process_candidate utcnow push_message premium
                     standard article_data) s0) in *.
  assert (Hok1 : store_ok (db s1)).
  { apply (process_candidate_ok utcnow push_message premium standard
             article_data s0 Hnd); [|exact Hok0].
    intros u Hu. rewrite Hu0. apply in_map.
    apply in_app_or in Hu as [Hu|Hu]; apply filter_In in Hu as [Hu _];
      unfold Crud.get_all_active_users in Hu;
      now apply filter_In in Hu as [Hu _]. }
  assert (Hin1 : In a (articles (db s1))).
  { rewrite Ha1. apply in_or_app. right. now left. }
  destruct (feed_loop utcnow push_message premium standard after s1
              (store_ok_db_wf _ Hok1)) as (_ & Hgrows & _).
  destruct (grows_frame _ _ a (proj1 (store_ok_db_wf _ Hok1)) Hgrows Hin1)
    as [_ Hrecords].
  destruct (feed_loop_extends_trace utcnow push_message premium standard
              after s1 (store_ok_db_wf _ Hok1)) as (later & Hlater).
  split; [|split; [reflexivity|]].
  { destruct Hgrows as (na & _ & Hna & _). rewrite Hna.
    apply in_or_app. now left. }
  split; [exact Hnone|]. split; [exact Htr|].
  split; [now exists later|].
  apply Forall_forall. intros uc Hin. rewrite Forall_forall in Hall.
  pose proof (Hall uc Hin) as Huc. unfold recorded_after_push in *.
  now rewrite (records_for_of_article _ _ _ _ Hrecords).
Qed.

(** Two PREMIUM subscribers and a STANDARD one, one new post at 18:00 in
    Taipei; the push API accepts the first push (its call 2) and refuses
    the second (its call 5). *)
Lemma immediate_fanout_records_successes_only_witness :
  let d := mkDB []
             [User.mk 1 "U-first" PREMIUM true 0;
              User.mk 2 "U-second" PREMIUM true 0;
              User.mk 3 "U-standard" STANDARD true 0]
             [] 1 1 in
  let push_message := fun n => Nat.eqb n 2 in
  let s' := exec (Jobs.crawl_and_notify Config.settings (fun _ => 36000)
                    push_message [loan_post]) (mkSt d [] 0) in
  store_ok d /\
  trace s' =
    [Crawl;
     Push "U-first"
          [mkArticleDict "[請益] 信貸利率" "u1"
             "https://www.ptt.cc/bbs/Loan/M.1701234567.A.123.html" None]
          true;
     Push "U-second"
          [mkArticleDict "[請益] 信貸利率" "u1"
             "https://www.ptt.cc/bbs/Loan/M.1701234567.A.123.html" None]
          false] /\
  records_for (db s') 1 1 = [Notification.mk 1 1 1 (Some 36000) 36000] /\
  records_for (db s') 2 1 = [].
Proof.
  cbv zeta.
  assert (Hok : store_ok
                  (mkDB []
                     [User.mk 1 "U-first" PREMIUM true 0;
                      User.mk 2 "U-second" PREMIUM true 0;
                      User.mk 3 "U-standard" STANDARD true 0]
                     [] 1 1)).
  { constructor; cbn; repeat constructor; cbn; intuition discriminate. }
  split; [exact Hok|].
  destruct (immediate_fanout_records_successes_only Config.settings
              (fun _ => 36000) (fun n => Nat.eqb n 2) [] [] loan_post
              (mkSt (mkDB []
                       [User.mk 1 "U-first" PREMIUM true 0;
                        User.mk 2 "U-second" PREMIUM true 0;
                        User.mk 3 "U-standard" STANDARD true 0]
                       [] 1 1) [] 0)
              Hok eq_refl ltac:(discriminate) eq_refl)
    as (_ & _ & _ & Htrace & _ & Hrecorded).
  split; [exact Htrace|].
  inversion Hrecorded as [|? ? Hfirst Hrest]; subst.
  inversion Hrest as [|? ? Hsecond _]; subst.
  unfold recorded_after_push in Hfirst, Hsecond.
  cbn [fst snd Nat.eqb User.id] in Hfirst, Hsecond.
  destruct Hfirst as (id & Hfirst).
  split; [|exact Hsecond].
  pose proof Hfirst as Hid. vm_compute in Hid. injection Hid as Hid.
  subst id. exact Hfirst.
Defined.
